(** * TaskManager: the record store of task_manager.py

    A shallow embedding of the [TaskManager] class (src/task_manager.py)
    and the properties of its operations: id assignment, update, delete,
    filtering, search and statistics.

    Python objects are modelled as follows.
    - A task is a Python [dict] with string keys: an insertion-ordered
      association list ([dict string value]).
    - Values are the JSON scalars the store's records hold: integers
      (unbounded, [Z]), strings and [None]. Floats, booleans and nested
      containers are left out.
    - A string is held as its UTF-8 bytes; [str.lower], [str.title],
      [str.strip] and slices work on its code points, with the case tables
      and the white space of Unicode.
    - Exceptions ([KeyError], [TypeError], [AttributeError], those of
      reading and writing the file) are results.
    - A method is a function from the object's state to a result and the
      state after the call, so that in-place mutation of [self.tasks], of
      [self.next_id] and of the backing file is explicit. A method that
      raises leaves the state it had reached.
    - The backing file is part of the state: it is missing, holds bytes
      that are no text, holds text that is not JSON, or holds the array
      last written. What becomes of a write is an input of the methods that
      write ([add_task_when], [update_task_when], [delete_task_when]): it
      completes, or it fails and the method raises [OSError] after it has
      changed the collection. [add_task], [update_task] and [delete_task]
      are the calls whose write completes.
    - [datetime.now().isoformat()] is an input: the string read from the
      clock is an argument of the method that reads it. *)

From Stdlib Require Import ZArith NArith List String Ascii Bool Lia
  Sorting.Sorted Sorting.Permutation.
From stdpp Require Import base decidable list strings pretty.

Import ListNotations.
Local Open Scope string_scope.
Local Open Scope list_scope.
Local Open Scope Z_scope.

(** ** Values and exceptions *)

Inductive value :=
  | VNone
  | VInt (z : Z)
  | VStr (s : string).

#[global] Instance value_eq_dec : EqDecision value.
Proof. solve_decision. Defined.

Inductive exn :=
  | KeyError
  | TypeError
  | AttributeError
  | JSONDecodeError
  | UnicodeDecodeError
  | FileNotFoundError
  | OSError.

Inductive result (A : Type) :=
  | Ok (a : A)
  | Raise (e : exn).
Arguments Ok {A} a.
Arguments Raise {A} e.

Definition rbind {A B} (m : result A) (k : A -> result B) : result B :=
  match m with
  | Ok a => k a
  | Raise e => Raise e
  end.

Notation "'let!' x ':=' m 'in' k" := (rbind m (fun x => k))
  (at level 10, x name, m at level 100, k at level 200).

(** Python's [a == b] on the modelled values (no exception, [False] across
    types). *)
Definition py_eq (a b : value) : bool := bool_decide (a = b).

(** Python's [a < b]: integers by value, strings lexicographically,
    [TypeError] otherwise. *)
Definition py_lt (a b : value) : result bool :=
  match a, b with
  | VInt x, VInt y => Ok (Z.ltb x y)
  | VStr s, VStr t => Ok (String.ltb s t)
  | _, _ => Raise TypeError
  end.

(** Python's [a > b]. *)
Definition py_gt (a b : value) : result bool := py_lt b a.

(** Python's [a + 1]. *)
Definition py_succ (a : value) : result Z :=
  match a with
  | VInt x => Ok (x + 1)
  | _ => Raise TypeError
  end.

(** ** Insertion-ordered dictionaries *)

Section Dict.
Context {K V : Type} `{EqDecision K}.

Definition dict := list (K * V).

(** [d.get(k)] *)
Fixpoint dict_get (k : K) (d : dict) : option V :=
  match d with
  | [] => None
  | (k', v) :: d' => if decide (k = k') then Some v else dict_get k d'
  end.

(** [k in d] *)
Definition dict_in (k : K) (d : dict) : bool :=
  match dict_get k d with Some _ => true | None => false end.

(** [d[k] = v]: an existing key keeps its position, a new key goes last. *)
Fixpoint dict_set (k : K) (v : V) (d : dict) : dict :=
  match d with
  | [] => [(k, v)]
  | (k', v') :: d' =>
      if decide (k = k') then (k', v) :: d' else (k', v') :: dict_set k v d'
  end.

(** [d[k]] *)
Definition getitem (d : dict) (k : K) : result V :=
  match dict_get k d with
  | Some v => Ok v
  | None => Raise KeyError
  end.
End Dict.
Arguments dict : clear implicits.

Definition task := dict string value.

(** ** Text *)

(** A [str] is a sequence of code points. It is held as the [string] of its
    UTF-8 bytes (a lone surrogate in the same three-byte form), so that the
    literals of the source, [==], [<] and [in] are those of the bytes. The
    methods that look at characters work on the code points. *)

(** A byte that continues a UTF-8 sequence. *)
Definition is_cont (n : N) : bool := ((0x80 <=? n) && (n <? 0xC0))%N.

(** A byte that belongs to no well-formed sequence stands for itself, above
    the code points. *)
Definition stray (n : N) : N := (0x110000 + n)%N.

(** The code points of a string. *)
Fixpoint decode (s : string) : list N :=
  match s with
  | EmptyString => []
  | String b0 s1 =>
      let n0 := N_of_ascii b0 in
      let alone := (if (n0 <? 0x80)%N then n0 else stray n0) :: decode s1 in
      if (n0 <? 0xC2)%N then alone
      else
        match s1 with
        | EmptyString => alone
        | String b1 s2 =>
            let n1 := N_of_ascii b1 in
            if negb (is_cont n1) then alone
            else if (n0 <? 0xE0)%N then
              ((n0 - 0xC0) * 0x40 + (n1 - 0x80))%N :: decode s2
            else
              match s2 with
              | EmptyString => alone
              | String b2 s3 =>
                  let n2 := N_of_ascii b2 in
                  if negb (is_cont n2) then alone
                  else if (n0 <? 0xF0)%N then
                    let v := ((n0 - 0xE0) * 0x1000 + (n1 - 0x80) * 0x40
                              + (n2 - 0x80))%N in
                    if (0x800 <=? v)%N then v :: decode s3 else alone
                  else
                    match s3 with
                    | EmptyString => alone
                    | String b3 s4 =>
                        let n3 := N_of_ascii b3 in
                        let v := ((n0 - 0xF0) * 0x40000 + (n1 - 0x80) * 0x1000
                                  + (n2 - 0x80) * 0x40 + (n3 - 0x80))%N in
                        if is_cont n3 && (0x10000 <=? v)%N && (v <? 0x110000)%N
                        then v :: decode s4 else alone
                    end
              end
        end
  end.

(** The bytes of a code point. *)
Definition encode_char (c : N) : string :=
  let byte (n : N) := ascii_of_N n in
  if (c <? 0x80)%N then String (byte c) EmptyString
  else if (c <? 0x800)%N then
    String (byte (0xC0 + c / 0x40)%N) (String (byte (0x80 + c mod 0x40)%N) EmptyString)
  else if (c <? 0x10000)%N then
    String (byte (0xE0 + c / 0x1000)%N)
      (String (byte (0x80 + (c / 0x40) mod 0x40)%N)
         (String (byte (0x80 + c mod 0x40)%N) EmptyString))
  else if (c <? 0x110000)%N then
    String (byte (0xF0 + c / 0x40000)%N)
      (String (byte (0x80 + (c / 0x1000) mod 0x40)%N)
         (String (byte (0x80 + (c / 0x40) mod 0x40)%N)
            (String (byte (0x80 + c mod 0x40)%N) EmptyString)))
  else String (byte (c - 0x110000)%N) EmptyString.

Fixpoint encode (l : list N) : string :=
  match l with
  | [] => EmptyString
  | c :: l' => encode_char c +:+ encode l'
  end.

(** Membership in a table of ranges of code points. *)
Definition in_ranges (ranges : list (N * N)) (c : N) : bool :=
  existsb (fun r => (fst r <=? c) && (c <=? snd r))%N ranges.

(** The image of a code point under a table of runs [(first, last, step,
    image of first)]; a code point in no run is its own image. *)
Definition map_by (runs : list (N * N * N * N)) (c : N) : N :=
  match
    List.find (fun r => let '(lo, hi, step, _) := r in
                   (lo <=? c) && (c <=? hi) && ((c - lo) mod step =? 0))%N runs
  with
  | Some (lo, _, _, image) => (image + (c - lo))%N
  | None => c
  end.

(** The tables of the Unicode character database that the methods use (the
    version to which CPython 3.11 is built, 14.0): the lower-case and
    title-case forms as runs, the title-case forms of more than one code
    point, and the code points with the properties Cased and
    Case_Ignorable. *)
Definition lower_runs : list (N * N * N * N) :=
  [
   (0x41, 0x5A, 0x1, 0x61); (0xC0, 0xD6, 0x1, 0xE0); (0xD8, 0xDE, 0x1, 0xF8);
   (0x100, 0x12E, 0x2, 0x101); (0x132, 0x136, 0x2, 0x133); (0x139, 0x147, 0x2, 0x13A);
   (0x14A, 0x176, 0x2, 0x14B); (0x178, 0x178, 0x1, 0xFF); (0x179, 0x17D, 0x2, 0x17A);
   (0x181, 0x181, 0x1, 0x253); (0x182, 0x184, 0x2, 0x183); (0x186, 0x186, 0x1, 0x254);
   (0x187, 0x187, 0x1, 0x188); (0x189, 0x18A, 0x1, 0x256); (0x18B, 0x18B, 0x1, 0x18C);
   (0x18E, 0x18E, 0x1, 0x1DD); (0x18F, 0x18F, 0x1, 0x259); (0x190, 0x190, 0x1, 0x25B);
   (0x191, 0x191, 0x1, 0x192); (0x193, 0x193, 0x1, 0x260); (0x194, 0x194, 0x1, 0x263);
   (0x196, 0x196, 0x1, 0x269); (0x197, 0x197, 0x1, 0x268); (0x198, 0x198, 0x1, 0x199);
   (0x19C, 0x19C, 0x1, 0x26F); (0x19D, 0x19D, 0x1, 0x272); (0x19F, 0x19F, 0x1, 0x275);
   (0x1A0, 0x1A4, 0x2, 0x1A1); (0x1A6, 0x1A6, 0x1, 0x280); (0x1A7, 0x1A7, 0x1, 0x1A8);
   (0x1A9, 0x1A9, 0x1, 0x283); (0x1AC, 0x1AC, 0x1, 0x1AD); (0x1AE, 0x1AE, 0x1, 0x288);
   (0x1AF, 0x1AF, 0x1, 0x1B0); (0x1B1, 0x1B2, 0x1, 0x28A); (0x1B3, 0x1B5, 0x2, 0x1B4);
   (0x1B7, 0x1B7, 0x1, 0x292); (0x1B8, 0x1B8, 0x1, 0x1B9); (0x1BC, 0x1BC, 0x1, 0x1BD);
   (0x1C4, 0x1C4, 0x1, 0x1C6); (0x1C5, 0x1C5, 0x1, 0x1C6); (0x1C7, 0x1C7, 0x1, 0x1C9);
   (0x1C8, 0x1C8, 0x1, 0x1C9); (0x1CA, 0x1CA, 0x1, 0x1CC); (0x1CB, 0x1DB, 0x2, 0x1CC);
   (0x1DE, 0x1EE, 0x2, 0x1DF); (0x1F1, 0x1F1, 0x1, 0x1F3); (0x1F2, 0x1F4, 0x2, 0x1F3);
   (0x1F6, 0x1F6, 0x1, 0x195); (0x1F7, 0x1F7, 0x1, 0x1BF); (0x1F8, 0x21E, 0x2, 0x1F9);
   (0x220, 0x220, 0x1, 0x19E); (0x222, 0x232, 0x2, 0x223); (0x23A, 0x23A, 0x1, 0x2C65);
   (0x23B, 0x23B, 0x1, 0x23C); (0x23D, 0x23D, 0x1, 0x19A); (0x23E, 0x23E, 0x1, 0x2C66);
   (0x241, 0x241, 0x1, 0x242); (0x243, 0x243, 0x1, 0x180); (0x244, 0x244, 0x1, 0x289);
   (0x245, 0x245, 0x1, 0x28C); (0x246, 0x24E, 0x2, 0x247); (0x370, 0x372, 0x2, 0x371);
   (0x376, 0x376, 0x1, 0x377); (0x37F, 0x37F, 0x1, 0x3F3); (0x386, 0x386, 0x1, 0x3AC);
   (0x388, 0x38A, 0x1, 0x3AD); (0x38C, 0x38C, 0x1, 0x3CC); (0x38E, 0x38F, 0x1, 0x3CD);
   (0x391, 0x3A1, 0x1, 0x3B1); (0x3A3, 0x3AB, 0x1, 0x3C3); (0x3CF, 0x3CF, 0x1, 0x3D7);
   (0x3D8, 0x3EE, 0x2, 0x3D9); (0x3F4, 0x3F4, 0x1, 0x3B8); (0x3F7, 0x3F7, 0x1, 0x3F8);
   (0x3F9, 0x3F9, 0x1, 0x3F2); (0x3FA, 0x3FA, 0x1, 0x3FB); (0x3FD, 0x3FF, 0x1, 0x37B);
   (0x400, 0x40F, 0x1, 0x450); (0x410, 0x42F, 0x1, 0x430); (0x460, 0x480, 0x2, 0x461);
   (0x48A, 0x4BE, 0x2, 0x48B); (0x4C0, 0x4C0, 0x1, 0x4CF); (0x4C1, 0x4CD, 0x2, 0x4C2);
   (0x4D0, 0x52E, 0x2, 0x4D1); (0x531, 0x556, 0x1, 0x561); (0x10A0, 0x10C5, 0x1, 0x2D00);
   (0x10C7, 0x10C7, 0x1, 0x2D27); (0x10CD, 0x10CD, 0x1, 0x2D2D); (0x13A0, 0x13EF, 0x1, 0xAB70);
   (0x13F0, 0x13F5, 0x1, 0x13F8); (0x1C90, 0x1CBA, 0x1, 0x10D0); (0x1CBD, 0x1CBF, 0x1, 0x10FD);
   (0x1E00, 0x1E94, 0x2, 0x1E01); (0x1E9E, 0x1E9E, 0x1, 0xDF); (0x1EA0, 0x1EFE, 0x2, 0x1EA1);
   (0x1F08, 0x1F0F, 0x1, 0x1F00); (0x1F18, 0x1F1D, 0x1, 0x1F10); (0x1F28, 0x1F2F, 0x1, 0x1F20);
   (0x1F38, 0x1F3F, 0x1, 0x1F30); (0x1F48, 0x1F4D, 0x1, 0x1F40); (0x1F59, 0x1F5F, 0x2, 0x1F51);
   (0x1F68, 0x1F6F, 0x1, 0x1F60); (0x1F88, 0x1F8F, 0x1, 0x1F80); (0x1F98, 0x1F9F, 0x1, 0x1F90);
   (0x1FA8, 0x1FAF, 0x1, 0x1FA0); (0x1FB8, 0x1FB9, 0x1, 0x1FB0); (0x1FBA, 0x1FBB, 0x1, 0x1F70);
   (0x1FBC, 0x1FBC, 0x1, 0x1FB3); (0x1FC8, 0x1FCB, 0x1, 0x1F72); (0x1FCC, 0x1FCC, 0x1, 0x1FC3);
   (0x1FD8, 0x1FD9, 0x1, 0x1FD0); (0x1FDA, 0x1FDB, 0x1, 0x1F76); (0x1FE8, 0x1FE9, 0x1, 0x1FE0);
   (0x1FEA, 0x1FEB, 0x1, 0x1F7A); (0x1FEC, 0x1FEC, 0x1, 0x1FE5); (0x1FF8, 0x1FF9, 0x1, 0x1F78);
   (0x1FFA, 0x1FFB, 0x1, 0x1F7C); (0x1FFC, 0x1FFC, 0x1, 0x1FF3); (0x2126, 0x2126, 0x1, 0x3C9);
   (0x212A, 0x212A, 0x1, 0x6B); (0x212B, 0x212B, 0x1, 0xE5); (0x2132, 0x2132, 0x1, 0x214E);
   (0x2160, 0x216F, 0x1, 0x2170); (0x2183, 0x2183, 0x1, 0x2184); (0x24B6, 0x24CF, 0x1, 0x24D0);
   (0x2C00, 0x2C2F, 0x1, 0x2C30); (0x2C60, 0x2C60, 0x1, 0x2C61); (0x2C62, 0x2C62, 0x1, 0x26B);
   (0x2C63, 0x2C63, 0x1, 0x1D7D); (0x2C64, 0x2C64, 0x1, 0x27D); (0x2C67, 0x2C6B, 0x2, 0x2C68);
   (0x2C6D, 0x2C6D, 0x1, 0x251); (0x2C6E, 0x2C6E, 0x1, 0x271); (0x2C6F, 0x2C6F, 0x1, 0x250);
   (0x2C70, 0x2C70, 0x1, 0x252); (0x2C72, 0x2C72, 0x1, 0x2C73); (0x2C75, 0x2C75, 0x1, 0x2C76);
   (0x2C7E, 0x2C7F, 0x1, 0x23F); (0x2C80, 0x2CE2, 0x2, 0x2C81); (0x2CEB, 0x2CED, 0x2, 0x2CEC);
   (0x2CF2, 0x2CF2, 0x1, 0x2CF3); (0xA640, 0xA66C, 0x2, 0xA641); (0xA680, 0xA69A, 0x2, 0xA681);
   (0xA722, 0xA72E, 0x2, 0xA723); (0xA732, 0xA76E, 0x2, 0xA733); (0xA779, 0xA77B, 0x2, 0xA77A);
   (0xA77D, 0xA77D, 0x1, 0x1D79); (0xA77E, 0xA786, 0x2, 0xA77F); (0xA78B, 0xA78B, 0x1, 0xA78C);
   (0xA78D, 0xA78D, 0x1, 0x265); (0xA790, 0xA792, 0x2, 0xA791); (0xA796, 0xA7A8, 0x2, 0xA797);
   (0xA7AA, 0xA7AA, 0x1, 0x266); (0xA7AB, 0xA7AB, 0x1, 0x25C); (0xA7AC, 0xA7AC, 0x1, 0x261);
   (0xA7AD, 0xA7AD, 0x1, 0x26C); (0xA7AE, 0xA7AE, 0x1, 0x26A); (0xA7B0, 0xA7B0, 0x1, 0x29E);
   (0xA7B1, 0xA7B1, 0x1, 0x287); (0xA7B2, 0xA7B2, 0x1, 0x29D); (0xA7B3, 0xA7B3, 0x1, 0xAB53);
   (0xA7B4, 0xA7C2, 0x2, 0xA7B5); (0xA7C4, 0xA7C4, 0x1, 0xA794); (0xA7C5, 0xA7C5, 0x1, 0x282);
   (0xA7C6, 0xA7C6, 0x1, 0x1D8E); (0xA7C7, 0xA7C9, 0x2, 0xA7C8); (0xA7D0, 0xA7D0, 0x1, 0xA7D1);
   (0xA7D6, 0xA7D8, 0x2, 0xA7D7); (0xA7F5, 0xA7F5, 0x1, 0xA7F6); (0xFF21, 0xFF3A, 0x1, 0xFF41);
   (0x10400, 0x10427, 0x1, 0x10428); (0x104B0, 0x104D3, 0x1, 0x104D8); (0x10570, 0x1057A, 0x1, 0x10597);
   (0x1057C, 0x1058A, 0x1, 0x105A3); (0x1058C, 0x10592, 0x1, 0x105B3); (0x10594, 0x10595, 0x1, 0x105BB);
   (0x10C80, 0x10CB2, 0x1, 0x10CC0); (0x118A0, 0x118BF, 0x1, 0x118C0); (0x16E40, 0x16E5F, 0x1, 0x16E60);
   (0x1E900, 0x1E921, 0x1, 0x1E922)]%N.

Definition title_runs : list (N * N * N * N) :=
  [
   (0x61, 0x7A, 0x1, 0x41); (0xB5, 0xB5, 0x1, 0x39C); (0xE0, 0xF6, 0x1, 0xC0);
   (0xF8, 0xFE, 0x1, 0xD8); (0xFF, 0xFF, 0x1, 0x178); (0x101, 0x12F, 0x2, 0x100);
   (0x131, 0x131, 0x1, 0x49); (0x133, 0x137, 0x2, 0x132); (0x13A, 0x148, 0x2, 0x139);
   (0x14B, 0x177, 0x2, 0x14A); (0x17A, 0x17E, 0x2, 0x179); (0x17F, 0x17F, 0x1, 0x53);
   (0x180, 0x180, 0x1, 0x243); (0x183, 0x185, 0x2, 0x182); (0x188, 0x188, 0x1, 0x187);
   (0x18C, 0x18C, 0x1, 0x18B); (0x192, 0x192, 0x1, 0x191); (0x195, 0x195, 0x1, 0x1F6);
   (0x199, 0x199, 0x1, 0x198); (0x19A, 0x19A, 0x1, 0x23D); (0x19E, 0x19E, 0x1, 0x220);
   (0x1A1, 0x1A5, 0x2, 0x1A0); (0x1A8, 0x1A8, 0x1, 0x1A7); (0x1AD, 0x1AD, 0x1, 0x1AC);
   (0x1B0, 0x1B0, 0x1, 0x1AF); (0x1B4, 0x1B6, 0x2, 0x1B3); (0x1B9, 0x1B9, 0x1, 0x1B8);
   (0x1BD, 0x1BD, 0x1, 0x1BC); (0x1BF, 0x1BF, 0x1, 0x1F7); (0x1C4, 0x1C4, 0x1, 0x1C5);
   (0x1C6, 0x1C6, 0x1, 0x1C5); (0x1C7, 0x1C7, 0x1, 0x1C8); (0x1C9, 0x1C9, 0x1, 0x1C8);
   (0x1CA, 0x1CA, 0x1, 0x1CB); (0x1CC, 0x1DC, 0x2, 0x1CB); (0x1DD, 0x1DD, 0x1, 0x18E);
   (0x1DF, 0x1EF, 0x2, 0x1DE); (0x1F1, 0x1F1, 0x1, 0x1F2); (0x1F3, 0x1F5, 0x2, 0x1F2);
   (0x1F9, 0x21F, 0x2, 0x1F8); (0x223, 0x233, 0x2, 0x222); (0x23C, 0x23C, 0x1, 0x23B);
   (0x23F, 0x240, 0x1, 0x2C7E); (0x242, 0x242, 0x1, 0x241); (0x247, 0x24F, 0x2, 0x246);
   (0x250, 0x250, 0x1, 0x2C6F); (0x251, 0x251, 0x1, 0x2C6D); (0x252, 0x252, 0x1, 0x2C70);
   (0x253, 0x253, 0x1, 0x181); (0x254, 0x254, 0x1, 0x186); (0x256, 0x257, 0x1, 0x189);
   (0x259, 0x259, 0x1, 0x18F); (0x25B, 0x25B, 0x1, 0x190); (0x25C, 0x25C, 0x1, 0xA7AB);
   (0x260, 0x260, 0x1, 0x193); (0x261, 0x261, 0x1, 0xA7AC); (0x263, 0x263, 0x1, 0x194);
   (0x265, 0x265, 0x1, 0xA78D); (0x266, 0x266, 0x1, 0xA7AA); (0x268, 0x268, 0x1, 0x197);
   (0x269, 0x269, 0x1, 0x196); (0x26A, 0x26A, 0x1, 0xA7AE); (0x26B, 0x26B, 0x1, 0x2C62);
   (0x26C, 0x26C, 0x1, 0xA7AD); (0x26F, 0x26F, 0x1, 0x19C); (0x271, 0x271, 0x1, 0x2C6E);
   (0x272, 0x272, 0x1, 0x19D); (0x275, 0x275, 0x1, 0x19F); (0x27D, 0x27D, 0x1, 0x2C64);
   (0x280, 0x280, 0x1, 0x1A6); (0x282, 0x282, 0x1, 0xA7C5); (0x283, 0x283, 0x1, 0x1A9);
   (0x287, 0x287, 0x1, 0xA7B1); (0x288, 0x288, 0x1, 0x1AE); (0x289, 0x289, 0x1, 0x244);
   (0x28A, 0x28B, 0x1, 0x1B1); (0x28C, 0x28C, 0x1, 0x245); (0x292, 0x292, 0x1, 0x1B7);
   (0x29D, 0x29D, 0x1, 0xA7B2); (0x29E, 0x29E, 0x1, 0xA7B0); (0x345, 0x345, 0x1, 0x399);
   (0x371, 0x373, 0x2, 0x370); (0x377, 0x377, 0x1, 0x376); (0x37B, 0x37D, 0x1, 0x3FD);
   (0x3AC, 0x3AC, 0x1, 0x386); (0x3AD, 0x3AF, 0x1, 0x388); (0x3B1, 0x3C1, 0x1, 0x391);
   (0x3C2, 0x3C2, 0x1, 0x3A3); (0x3C3, 0x3CB, 0x1, 0x3A3); (0x3CC, 0x3CC, 0x1, 0x38C);
   (0x3CD, 0x3CE, 0x1, 0x38E); (0x3D0, 0x3D0, 0x1, 0x392); (0x3D1, 0x3D1, 0x1, 0x398);
   (0x3D5, 0x3D5, 0x1, 0x3A6); (0x3D6, 0x3D6, 0x1, 0x3A0); (0x3D7, 0x3D7, 0x1, 0x3CF);
   (0x3D9, 0x3EF, 0x2, 0x3D8); (0x3F0, 0x3F0, 0x1, 0x39A); (0x3F1, 0x3F1, 0x1, 0x3A1);
   (0x3F2, 0x3F2, 0x1, 0x3F9); (0x3F3, 0x3F3, 0x1, 0x37F); (0x3F5, 0x3F5, 0x1, 0x395);
   (0x3F8, 0x3F8, 0x1, 0x3F7); (0x3FB, 0x3FB, 0x1, 0x3FA); (0x430, 0x44F, 0x1, 0x410);
   (0x450, 0x45F, 0x1, 0x400); (0x461, 0x481, 0x2, 0x460); (0x48B, 0x4BF, 0x2, 0x48A);
   (0x4C2, 0x4CE, 0x2, 0x4C1); (0x4CF, 0x4CF, 0x1, 0x4C0); (0x4D1, 0x52F, 0x2, 0x4D0);
   (0x561, 0x586, 0x1, 0x531); (0x13F8, 0x13FD, 0x1, 0x13F0); (0x1C80, 0x1C80, 0x1, 0x412);
   (0x1C81, 0x1C81, 0x1, 0x414); (0x1C82, 0x1C82, 0x1, 0x41E); (0x1C83, 0x1C84, 0x1, 0x421);
   (0x1C85, 0x1C85, 0x1, 0x422); (0x1C86, 0x1C86, 0x1, 0x42A); (0x1C87, 0x1C87, 0x1, 0x462);
   (0x1C88, 0x1C88, 0x1, 0xA64A); (0x1D79, 0x1D79, 0x1, 0xA77D); (0x1D7D, 0x1D7D, 0x1, 0x2C63);
   (0x1D8E, 0x1D8E, 0x1, 0xA7C6); (0x1E01, 0x1E95, 0x2, 0x1E00); (0x1E9B, 0x1E9B, 0x1, 0x1E60);
   (0x1EA1, 0x1EFF, 0x2, 0x1EA0); (0x1F00, 0x1F07, 0x1, 0x1F08); (0x1F10, 0x1F15, 0x1, 0x1F18);
   (0x1F20, 0x1F27, 0x1, 0x1F28); (0x1F30, 0x1F37, 0x1, 0x1F38); (0x1F40, 0x1F45, 0x1, 0x1F48);
   (0x1F51, 0x1F57, 0x2, 0x1F59); (0x1F60, 0x1F67, 0x1, 0x1F68); (0x1F70, 0x1F71, 0x1, 0x1FBA);
   (0x1F72, 0x1F75, 0x1, 0x1FC8); (0x1F76, 0x1F77, 0x1, 0x1FDA); (0x1F78, 0x1F79, 0x1, 0x1FF8);
   (0x1F7A, 0x1F7B, 0x1, 0x1FEA); (0x1F7C, 0x1F7D, 0x1, 0x1FFA); (0x1F80, 0x1F87, 0x1, 0x1F88);
   (0x1F90, 0x1F97, 0x1, 0x1F98); (0x1FA0, 0x1FA7, 0x1, 0x1FA8); (0x1FB0, 0x1FB1, 0x1, 0x1FB8);
   (0x1FB3, 0x1FB3, 0x1, 0x1FBC); (0x1FBE, 0x1FBE, 0x1, 0x399); (0x1FC3, 0x1FC3, 0x1, 0x1FCC);
   (0x1FD0, 0x1FD1, 0x1, 0x1FD8); (0x1FE0, 0x1FE1, 0x1, 0x1FE8); (0x1FE5, 0x1FE5, 0x1, 0x1FEC);
   (0x1FF3, 0x1FF3, 0x1, 0x1FFC); (0x214E, 0x214E, 0x1, 0x2132); (0x2170, 0x217F, 0x1, 0x2160);
   (0x2184, 0x2184, 0x1, 0x2183); (0x24D0, 0x24E9, 0x1, 0x24B6); (0x2C30, 0x2C5F, 0x1, 0x2C00);
   (0x2C61, 0x2C61, 0x1, 0x2C60); (0x2C65, 0x2C65, 0x1, 0x23A); (0x2C66, 0x2C66, 0x1, 0x23E);
   (0x2C68, 0x2C6C, 0x2, 0x2C67); (0x2C73, 0x2C73, 0x1, 0x2C72); (0x2C76, 0x2C76, 0x1, 0x2C75);
   (0x2C81, 0x2CE3, 0x2, 0x2C80); (0x2CEC, 0x2CEE, 0x2, 0x2CEB); (0x2CF3, 0x2CF3, 0x1, 0x2CF2);
   (0x2D00, 0x2D25, 0x1, 0x10A0); (0x2D27, 0x2D27, 0x1, 0x10C7); (0x2D2D, 0x2D2D, 0x1, 0x10CD);
   (0xA641, 0xA66D, 0x2, 0xA640); (0xA681, 0xA69B, 0x2, 0xA680); (0xA723, 0xA72F, 0x2, 0xA722);
   (0xA733, 0xA76F, 0x2, 0xA732); (0xA77A, 0xA77C, 0x2, 0xA779); (0xA77F, 0xA787, 0x2, 0xA77E);
   (0xA78C, 0xA78C, 0x1, 0xA78B); (0xA791, 0xA793, 0x2, 0xA790); (0xA794, 0xA794, 0x1, 0xA7C4);
   (0xA797, 0xA7A9, 0x2, 0xA796); (0xA7B5, 0xA7C3, 0x2, 0xA7B4); (0xA7C8, 0xA7CA, 0x2, 0xA7C7);
   (0xA7D1, 0xA7D1, 0x1, 0xA7D0); (0xA7D7, 0xA7D9, 0x2, 0xA7D6); (0xA7F6, 0xA7F6, 0x1, 0xA7F5);
   (0xAB53, 0xAB53, 0x1, 0xA7B3); (0xAB70, 0xABBF, 0x1, 0x13A0); (0xFF41, 0xFF5A, 0x1, 0xFF21);
   (0x10428, 0x1044F, 0x1, 0x10400); (0x104D8, 0x104FB, 0x1, 0x104B0); (0x10597, 0x105A1, 0x1, 0x10570);
   (0x105A3, 0x105B1, 0x1, 0x1057C); (0x105B3, 0x105B9, 0x1, 0x1058C); (0x105BB, 0x105BC, 0x1, 0x10594);
   (0x10CC0, 0x10CF2, 0x1, 0x10C80); (0x118C0, 0x118DF, 0x1, 0x118A0); (0x16E60, 0x16E7F, 0x1, 0x16E40);
   (0x1E922, 0x1E943, 0x1, 0x1E900)]%N.

Definition title_special : list (N * list N) :=
  [
   (0xDF, [0x53; 0x73]);
   (0x149, [0x2BC; 0x4E]);
   (0x1F0, [0x4A; 0x30C]);
   (0x390, [0x399; 0x308; 0x301]);
   (0x3B0, [0x3A5; 0x308; 0x301]);
   (0x587, [0x535; 0x582]);
   (0x1E96, [0x48; 0x331]);
   (0x1E97, [0x54; 0x308]);
   (0x1E98, [0x57; 0x30A]);
   (0x1E99, [0x59; 0x30A]);
   (0x1E9A, [0x41; 0x2BE]);
   (0x1F50, [0x3A5; 0x313]);
   (0x1F52, [0x3A5; 0x313; 0x300]);
   (0x1F54, [0x3A5; 0x313; 0x301]);
   (0x1F56, [0x3A5; 0x313; 0x342]);
   (0x1FB2, [0x1FBA; 0x345]);
   (0x1FB4, [0x386; 0x345]);
   (0x1FB6, [0x391; 0x342]);
   (0x1FB7, [0x391; 0x342; 0x345]);
   (0x1FC2, [0x1FCA; 0x345]);
   (0x1FC4, [0x389; 0x345]);
   (0x1FC6, [0x397; 0x342]);
   (0x1FC7, [0x397; 0x342; 0x345]);
   (0x1FD2, [0x399; 0x308; 0x300]);
   (0x1FD3, [0x399; 0x308; 0x301]);
   (0x1FD6, [0x399; 0x342]);
   (0x1FD7, [0x399; 0x308; 0x342]);
   (0x1FE2, [0x3A5; 0x308; 0x300]);
   (0x1FE3, [0x3A5; 0x308; 0x301]);
   (0x1FE4, [0x3A1; 0x313]);
   (0x1FE6, [0x3A5; 0x342]);
   (0x1FE7, [0x3A5; 0x308; 0x342]);
   (0x1FF2, [0x1FFA; 0x345]);
   (0x1FF4, [0x38F; 0x345]);
   (0x1FF6, [0x3A9; 0x342]);
   (0x1FF7, [0x3A9; 0x342; 0x345]);
   (0xFB00, [0x46; 0x66]);
   (0xFB01, [0x46; 0x69]);
   (0xFB02, [0x46; 0x6C]);
   (0xFB03, [0x46; 0x66; 0x69]);
   (0xFB04, [0x46; 0x66; 0x6C]);
   (0xFB05, [0x53; 0x74]);
   (0xFB06, [0x53; 0x74]);
   (0xFB13, [0x544; 0x576]);
   (0xFB14, [0x544; 0x565]);
   (0xFB15, [0x544; 0x56B]);
   (0xFB16, [0x54E; 0x576]);
   (0xFB17, [0x544; 0x56D])]%N.

Definition cased_ranges : list (N * N) :=
  [
   (0x41, 0x5A); (0x61, 0x7A); (0xAA, 0xAA); (0xB5, 0xB5); (0xBA, 0xBA);
   (0xC0, 0xD6); (0xD8, 0xF6); (0xF8, 0x1BA); (0x1BC, 0x1BF); (0x1C4, 0x293);
   (0x295, 0x2B8); (0x2C0, 0x2C1); (0x2E0, 0x2E4); (0x345, 0x345); (0x370, 0x373);
   (0x376, 0x377); (0x37A, 0x37D); (0x37F, 0x37F); (0x386, 0x386); (0x388, 0x38A);
   (0x38C, 0x38C); (0x38E, 0x3A1); (0x3A3, 0x3F5); (0x3F7, 0x481); (0x48A, 0x52F);
   (0x531, 0x556); (0x560, 0x588); (0x10A0, 0x10C5); (0x10C7, 0x10C7); (0x10CD, 0x10CD);
   (0x10D0, 0x10FA); (0x10FD, 0x10FF); (0x13A0, 0x13F5); (0x13F8, 0x13FD); (0x1C80, 0x1C88);
   (0x1C90, 0x1CBA); (0x1CBD, 0x1CBF); (0x1D00, 0x1DBF); (0x1E00, 0x1F15); (0x1F18, 0x1F1D);
   (0x1F20, 0x1F45); (0x1F48, 0x1F4D); (0x1F50, 0x1F57); (0x1F59, 0x1F59); (0x1F5B, 0x1F5B);
   (0x1F5D, 0x1F5D); (0x1F5F, 0x1F7D); (0x1F80, 0x1FB4); (0x1FB6, 0x1FBC); (0x1FBE, 0x1FBE);
   (0x1FC2, 0x1FC4); (0x1FC6, 0x1FCC); (0x1FD0, 0x1FD3); (0x1FD6, 0x1FDB); (0x1FE0, 0x1FEC);
   (0x1FF2, 0x1FF4); (0x1FF6, 0x1FFC); (0x2071, 0x2071); (0x207F, 0x207F); (0x2090, 0x209C);
   (0x2102, 0x2102); (0x2107, 0x2107); (0x210A, 0x2113); (0x2115, 0x2115); (0x2119, 0x211D);
   (0x2124, 0x2124); (0x2126, 0x2126); (0x2128, 0x2128); (0x212A, 0x212D); (0x212F, 0x2134);
   (0x2139, 0x2139); (0x213C, 0x213F); (0x2145, 0x2149); (0x214E, 0x214E); (0x2160, 0x217F);
   (0x2183, 0x2184); (0x24B6, 0x24E9); (0x2C00, 0x2CE4); (0x2CEB, 0x2CEE); (0x2CF2, 0x2CF3);
   (0x2D00, 0x2D25); (0x2D27, 0x2D27); (0x2D2D, 0x2D2D); (0xA640, 0xA66D); (0xA680, 0xA69D);
   (0xA722, 0xA787); (0xA78B, 0xA78E); (0xA790, 0xA7CA); (0xA7D0, 0xA7D1); (0xA7D3, 0xA7D3);
   (0xA7D5, 0xA7D9); (0xA7F5, 0xA7F6); (0xA7F8, 0xA7FA); (0xAB30, 0xAB5A); (0xAB5C, 0xAB68);
   (0xAB70, 0xABBF); (0xFB00, 0xFB06); (0xFB13, 0xFB17); (0xFF21, 0xFF3A); (0xFF41, 0xFF5A);
   (0x10400, 0x1044F); (0x104B0, 0x104D3); (0x104D8, 0x104FB); (0x10570, 0x1057A); (0x1057C, 0x1058A);
   (0x1058C, 0x10592); (0x10594, 0x10595); (0x10597, 0x105A1); (0x105A3, 0x105B1); (0x105B3, 0x105B9);
   (0x105BB, 0x105BC); (0x10780, 0x10780); (0x10783, 0x10785); (0x10787, 0x107B0); (0x107B2, 0x107BA);
   (0x10C80, 0x10CB2); (0x10CC0, 0x10CF2); (0x118A0, 0x118DF); (0x16E40, 0x16E7F); (0x1D400, 0x1D454);
   (0x1D456, 0x1D49C); (0x1D49E, 0x1D49F); (0x1D4A2, 0x1D4A2); (0x1D4A5, 0x1D4A6); (0x1D4A9, 0x1D4AC);
   (0x1D4AE, 0x1D4B9); (0x1D4BB, 0x1D4BB); (0x1D4BD, 0x1D4C3); (0x1D4C5, 0x1D505); (0x1D507, 0x1D50A);
   (0x1D50D, 0x1D514); (0x1D516, 0x1D51C); (0x1D51E, 0x1D539); (0x1D53B, 0x1D53E); (0x1D540, 0x1D544);
   (0x1D546, 0x1D546); (0x1D54A, 0x1D550); (0x1D552, 0x1D6A5); (0x1D6A8, 0x1D6C0); (0x1D6C2, 0x1D6DA);
   (0x1D6DC, 0x1D6FA); (0x1D6FC, 0x1D714); (0x1D716, 0x1D734); (0x1D736, 0x1D74E); (0x1D750, 0x1D76E);
   (0x1D770, 0x1D788); (0x1D78A, 0x1D7A8); (0x1D7AA, 0x1D7C2); (0x1D7C4, 0x1D7CB); (0x1DF00, 0x1DF09);
   (0x1DF0B, 0x1DF1E); (0x1E900, 0x1E943); (0x1F130, 0x1F149); (0x1F150, 0x1F169); (0x1F170, 0x1F189)]%N.

Definition case_ignorable_ranges : list (N * N) :=
  [
   (0x27, 0x27); (0x2E, 0x2E); (0x3A, 0x3A); (0x5E, 0x5E); (0x60, 0x60);
   (0xA8, 0xA8); (0xAD, 0xAD); (0xAF, 0xAF); (0xB4, 0xB4); (0xB7, 0xB8);
   (0x2B0, 0x36F); (0x374, 0x375); (0x37A, 0x37A); (0x384, 0x385); (0x387, 0x387);
   (0x483, 0x489); (0x559, 0x559); (0x55F, 0x55F); (0x591, 0x5BD); (0x5BF, 0x5BF);
   (0x5C1, 0x5C2); (0x5C4, 0x5C5); (0x5C7, 0x5C7); (0x5F4, 0x5F4); (0x600, 0x605);
   (0x610, 0x61A); (0x61C, 0x61C); (0x640, 0x640); (0x64B, 0x65F); (0x670, 0x670);
   (0x6D6, 0x6DD); (0x6DF, 0x6E8); (0x6EA, 0x6ED); (0x70F, 0x70F); (0x711, 0x711);
   (0x730, 0x74A); (0x7A6, 0x7B0); (0x7EB, 0x7F5); (0x7FA, 0x7FA); (0x7FD, 0x7FD);
   (0x816, 0x82D); (0x859, 0x85B); (0x888, 0x888); (0x890, 0x891); (0x898, 0x89F);
   (0x8C9, 0x902); (0x93A, 0x93A); (0x93C, 0x93C); (0x941, 0x948); (0x94D, 0x94D);
   (0x951, 0x957); (0x962, 0x963); (0x971, 0x971); (0x981, 0x981); (0x9BC, 0x9BC);
   (0x9C1, 0x9C4); (0x9CD, 0x9CD); (0x9E2, 0x9E3); (0x9FE, 0x9FE); (0xA01, 0xA02);
   (0xA3C, 0xA3C); (0xA41, 0xA42); (0xA47, 0xA48); (0xA4B, 0xA4D); (0xA51, 0xA51);
   (0xA70, 0xA71); (0xA75, 0xA75); (0xA81, 0xA82); (0xABC, 0xABC); (0xAC1, 0xAC5);
   (0xAC7, 0xAC8); (0xACD, 0xACD); (0xAE2, 0xAE3); (0xAFA, 0xAFF); (0xB01, 0xB01);
   (0xB3C, 0xB3C); (0xB3F, 0xB3F); (0xB41, 0xB44); (0xB4D, 0xB4D); (0xB55, 0xB56);
   (0xB62, 0xB63); (0xB82, 0xB82); (0xBC0, 0xBC0); (0xBCD, 0xBCD); (0xC00, 0xC00);
   (0xC04, 0xC04); (0xC3C, 0xC3C); (0xC3E, 0xC40); (0xC46, 0xC48); (0xC4A, 0xC4D);
   (0xC55, 0xC56); (0xC62, 0xC63); (0xC81, 0xC81); (0xCBC, 0xCBC); (0xCBF, 0xCBF);
   (0xCC6, 0xCC6); (0xCCC, 0xCCD); (0xCE2, 0xCE3); (0xD00, 0xD01); (0xD3B, 0xD3C);
   (0xD41, 0xD44); (0xD4D, 0xD4D); (0xD62, 0xD63); (0xD81, 0xD81); (0xDCA, 0xDCA);
   (0xDD2, 0xDD4); (0xDD6, 0xDD6); (0xE31, 0xE31); (0xE34, 0xE3A); (0xE46, 0xE4E);
   (0xEB1, 0xEB1); (0xEB4, 0xEBC); (0xEC6, 0xEC6); (0xEC8, 0xECD); (0xF18, 0xF19);
   (0xF35, 0xF35); (0xF37, 0xF37); (0xF39, 0xF39); (0xF71, 0xF7E); (0xF80, 0xF84);
   (0xF86, 0xF87); (0xF8D, 0xF97); (0xF99, 0xFBC); (0xFC6, 0xFC6); (0x102D, 0x1030);
   (0x1032, 0x1037); (0x1039, 0x103A); (0x103D, 0x103E); (0x1058, 0x1059); (0x105E, 0x1060);
   (0x1071, 0x1074); (0x1082, 0x1082); (0x1085, 0x1086); (0x108D, 0x108D); (0x109D, 0x109D);
   (0x10FC, 0x10FC); (0x135D, 0x135F); (0x1712, 0x1714); (0x1732, 0x1733); (0x1752, 0x1753);
   (0x1772, 0x1773); (0x17B4, 0x17B5); (0x17B7, 0x17BD); (0x17C6, 0x17C6); (0x17C9, 0x17D3);
   (0x17D7, 0x17D7); (0x17DD, 0x17DD); (0x180B, 0x180F); (0x1843, 0x1843); (0x1885, 0x1886);
   (0x18A9, 0x18A9); (0x1920, 0x1922); (0x1927, 0x1928); (0x1932, 0x1932); (0x1939, 0x193B);
   (0x1A17, 0x1A18); (0x1A1B, 0x1A1B); (0x1A56, 0x1A56); (0x1A58, 0x1A5E); (0x1A60, 0x1A60);
   (0x1A62, 0x1A62); (0x1A65, 0x1A6C); (0x1A73, 0x1A7C); (0x1A7F, 0x1A7F); (0x1AA7, 0x1AA7);
   (0x1AB0, 0x1ACE); (0x1B00, 0x1B03); (0x1B34, 0x1B34); (0x1B36, 0x1B3A); (0x1B3C, 0x1B3C);
   (0x1B42, 0x1B42); (0x1B6B, 0x1B73); (0x1B80, 0x1B81); (0x1BA2, 0x1BA5); (0x1BA8, 0x1BA9);
   (0x1BAB, 0x1BAD); (0x1BE6, 0x1BE6); (0x1BE8, 0x1BE9); (0x1BED, 0x1BED); (0x1BEF, 0x1BF1);
   (0x1C2C, 0x1C33); (0x1C36, 0x1C37); (0x1C78, 0x1C7D); (0x1CD0, 0x1CD2); (0x1CD4, 0x1CE0);
   (0x1CE2, 0x1CE8); (0x1CED, 0x1CED); (0x1CF4, 0x1CF4); (0x1CF8, 0x1CF9); (0x1D2C, 0x1D6A);
   (0x1D78, 0x1D78); (0x1D9B, 0x1DFF); (0x1FBD, 0x1FBD); (0x1FBF, 0x1FC1); (0x1FCD, 0x1FCF);
   (0x1FDD, 0x1FDF); (0x1FED, 0x1FEF); (0x1FFD, 0x1FFE); (0x200B, 0x200F); (0x2018, 0x2019);
   (0x2024, 0x2024); (0x2027, 0x2027); (0x202A, 0x202E); (0x2060, 0x2064); (0x2066, 0x206F);
   (0x2071, 0x2071); (0x207F, 0x207F); (0x2090, 0x209C); (0x20D0, 0x20F0); (0x2C7C, 0x2C7D);
   (0x2CEF, 0x2CF1); (0x2D6F, 0x2D6F); (0x2D7F, 0x2D7F); (0x2DE0, 0x2DFF); (0x2E2F, 0x2E2F);
   (0x3005, 0x3005); (0x302A, 0x302D); (0x3031, 0x3035); (0x303B, 0x303B); (0x3099, 0x309E);
   (0x30FC, 0x30FE); (0xA015, 0xA015); (0xA4F8, 0xA4FD); (0xA60C, 0xA60C); (0xA66F, 0xA672);
   (0xA674, 0xA67D); (0xA67F, 0xA67F); (0xA69C, 0xA69F); (0xA6F0, 0xA6F1); (0xA700, 0xA721);
   (0xA770, 0xA770); (0xA788, 0xA78A); (0xA7F2, 0xA7F4); (0xA7F8, 0xA7F9); (0xA802, 0xA802);
   (0xA806, 0xA806); (0xA80B, 0xA80B); (0xA825, 0xA826); (0xA82C, 0xA82C); (0xA8C4, 0xA8C5);
   (0xA8E0, 0xA8F1); (0xA8FF, 0xA8FF); (0xA926, 0xA92D); (0xA947, 0xA951); (0xA980, 0xA982);
   (0xA9B3, 0xA9B3); (0xA9B6, 0xA9B9); (0xA9BC, 0xA9BD); (0xA9CF, 0xA9CF); (0xA9E5, 0xA9E6);
   (0xAA29, 0xAA2E); (0xAA31, 0xAA32); (0xAA35, 0xAA36); (0xAA43, 0xAA43); (0xAA4C, 0xAA4C);
   (0xAA70, 0xAA70); (0xAA7C, 0xAA7C); (0xAAB0, 0xAAB0); (0xAAB2, 0xAAB4); (0xAAB7, 0xAAB8);
   (0xAABE, 0xAABF); (0xAAC1, 0xAAC1); (0xAADD, 0xAADD); (0xAAEC, 0xAAED); (0xAAF3, 0xAAF4);
   (0xAAF6, 0xAAF6); (0xAB5B, 0xAB5F); (0xAB69, 0xAB6B); (0xABE5, 0xABE5); (0xABE8, 0xABE8);
   (0xABED, 0xABED); (0xFB1E, 0xFB1E); (0xFBB2, 0xFBC2); (0xFE00, 0xFE0F); (0xFE13, 0xFE13);
   (0xFE20, 0xFE2F); (0xFE52, 0xFE52); (0xFE55, 0xFE55); (0xFEFF, 0xFEFF); (0xFF07, 0xFF07);
   (0xFF0E, 0xFF0E); (0xFF1A, 0xFF1A); (0xFF3E, 0xFF3E); (0xFF40, 0xFF40); (0xFF70, 0xFF70);
   (0xFF9E, 0xFF9F); (0xFFE3, 0xFFE3); (0xFFF9, 0xFFFB); (0x101FD, 0x101FD); (0x102E0, 0x102E0);
   (0x10376, 0x1037A); (0x10780, 0x10785); (0x10787, 0x107B0); (0x107B2, 0x107BA); (0x10A01, 0x10A03);
   (0x10A05, 0x10A06); (0x10A0C, 0x10A0F); (0x10A38, 0x10A3A); (0x10A3F, 0x10A3F); (0x10AE5, 0x10AE6);
   (0x10D24, 0x10D27); (0x10EAB, 0x10EAC); (0x10F46, 0x10F50); (0x10F82, 0x10F85); (0x11001, 0x11001);
   (0x11038, 0x11046); (0x11070, 0x11070); (0x11073, 0x11074); (0x1107F, 0x11081); (0x110B3, 0x110B6);
   (0x110B9, 0x110BA); (0x110BD, 0x110BD); (0x110C2, 0x110C2); (0x110CD, 0x110CD); (0x11100, 0x11102);
   (0x11127, 0x1112B); (0x1112D, 0x11134); (0x11173, 0x11173); (0x11180, 0x11181); (0x111B6, 0x111BE);
   (0x111C9, 0x111CC); (0x111CF, 0x111CF); (0x1122F, 0x11231); (0x11234, 0x11234); (0x11236, 0x11237);
   (0x1123E, 0x1123E); (0x112DF, 0x112DF); (0x112E3, 0x112EA); (0x11300, 0x11301); (0x1133B, 0x1133C);
   (0x11340, 0x11340); (0x11366, 0x1136C); (0x11370, 0x11374); (0x11438, 0x1143F); (0x11442, 0x11444);
   (0x11446, 0x11446); (0x1145E, 0x1145E); (0x114B3, 0x114B8); (0x114BA, 0x114BA); (0x114BF, 0x114C0);
   (0x114C2, 0x114C3); (0x115B2, 0x115B5); (0x115BC, 0x115BD); (0x115BF, 0x115C0); (0x115DC, 0x115DD);
   (0x11633, 0x1163A); (0x1163D, 0x1163D); (0x1163F, 0x11640); (0x116AB, 0x116AB); (0x116AD, 0x116AD);
   (0x116B0, 0x116B5); (0x116B7, 0x116B7); (0x1171D, 0x1171F); (0x11722, 0x11725); (0x11727, 0x1172B);
   (0x1182F, 0x11837); (0x11839, 0x1183A); (0x1193B, 0x1193C); (0x1193E, 0x1193E); (0x11943, 0x11943);
   (0x119D4, 0x119D7); (0x119DA, 0x119DB); (0x119E0, 0x119E0); (0x11A01, 0x11A0A); (0x11A33, 0x11A38);
   (0x11A3B, 0x11A3E); (0x11A47, 0x11A47); (0x11A51, 0x11A56); (0x11A59, 0x11A5B); (0x11A8A, 0x11A96);
   (0x11A98, 0x11A99); (0x11C30, 0x11C36); (0x11C38, 0x11C3D); (0x11C3F, 0x11C3F); (0x11C92, 0x11CA7);
   (0x11CAA, 0x11CB0); (0x11CB2, 0x11CB3); (0x11CB5, 0x11CB6); (0x11D31, 0x11D36); (0x11D3A, 0x11D3A);
   (0x11D3C, 0x11D3D); (0x11D3F, 0x11D45); (0x11D47, 0x11D47); (0x11D90, 0x11D91); (0x11D95, 0x11D95);
   (0x11D97, 0x11D97); (0x11EF3, 0x11EF4); (0x13430, 0x13438); (0x16AF0, 0x16AF4); (0x16B30, 0x16B36);
   (0x16B40, 0x16B43); (0x16F4F, 0x16F4F); (0x16F8F, 0x16F9F); (0x16FE0, 0x16FE1); (0x16FE3, 0x16FE4);
   (0x1AFF0, 0x1AFF3); (0x1AFF5, 0x1AFFB); (0x1AFFD, 0x1AFFE); (0x1BC9D, 0x1BC9E); (0x1BCA0, 0x1BCA3);
   (0x1CF00, 0x1CF2D); (0x1CF30, 0x1CF46); (0x1D167, 0x1D169); (0x1D173, 0x1D182); (0x1D185, 0x1D18B);
   (0x1D1AA, 0x1D1AD); (0x1D242, 0x1D244); (0x1DA00, 0x1DA36); (0x1DA3B, 0x1DA6C); (0x1DA75, 0x1DA75);
   (0x1DA84, 0x1DA84); (0x1DA9B, 0x1DA9F); (0x1DAA1, 0x1DAAF); (0x1E000, 0x1E006); (0x1E008, 0x1E018);
   (0x1E01B, 0x1E021); (0x1E023, 0x1E024); (0x1E026, 0x1E02A); (0x1E130, 0x1E13D); (0x1E2AE, 0x1E2AE);
   (0x1E2EC, 0x1E2EF); (0x1E8D0, 0x1E8D6); (0x1E944, 0x1E94B); (0x1F3FB, 0x1F3FF); (0xE0001, 0xE0001);
   (0xE0020, 0xE007F); (0xE0100, 0xE01EF)]%N.

(** The properties [Cased] and [Case_Ignorable] of a code point. *)
Definition cased (c : N) : bool := in_ranges cased_ranges c.
Definition case_ignorable (c : N) : bool := in_ranges case_ignorable_ranges c.

(** The lower-case form of a code point out of context; only U+0130 has
    one of two code points. *)
Definition lower_full (c : N) : list N :=
  if (c =? 0x130)%N then [0x69; 0x307]%N else [map_by lower_runs c].

(** The title-case form of a code point. *)
Definition title_full (c : N) : list N :=
  match List.find (fun e => (fst e =? c)%N) title_special with
  | Some e => snd e
  | None => [map_by title_runs c]
  end.

(** Whether a cased code point follows, the case-ignorable ones skipped. *)
Fixpoint cased_ahead (l : list N) : bool :=
  match l with
  | [] => false
  | c :: l' => if case_ignorable c then cased_ahead l' else cased c
  end.

(** The lower-case form of a code point where it stands: [before] tells
    whether a cased code point precedes it, the case-ignorable ones skipped,
    and [rest] is what follows. A capital sigma becomes a final sigma after
    a cased code point when none follows. *)
Definition lower_at (before : bool) (c : N) (rest : list N) : list N :=
  if (c =? 0x3A3)%N then
    [if before && negb (cased_ahead rest) then 0x3C2 else 0x3C3]%N
  else lower_full c.

(** Whether a cased code point precedes the next position, given that
    [before] tells it of [c]. *)
Definition cased_before (before : bool) (c : N) : bool :=
  if case_ignorable c then before else cased c.

(** The lower-case forms of the code points of a text, one after the
    other. *)
Fixpoint lower_from (before : bool) (l : list N) : list N :=
  match l with
  | [] => []
  | c :: l' => lower_at before c l' ++ lower_from (cased_before before c) l'
  end.

(** [str.lower] *)
Definition lower (s : string) : string := encode (lower_from false (decode s)).

(** [str.title()]: a code point takes its title-case form when the one
    before it is not cased, its lower-case form otherwise. *)
Fixpoint title_from (before previous_is_cased : bool) (l : list N) : list N :=
  match l with
  | [] => []
  | c :: l' =>
      (if previous_is_cased then lower_at before c l' else title_full c)
      ++ title_from (cased_before before c) (cased c) l'
  end.

Definition title_case (s : string) : string :=
  encode (title_from false false (decode s)).

(** [str.isspace] on a code point. *)
Definition is_space (c : N) : bool :=
  ((0x09 <=? c) && (c <=? 0x0D) || (0x1C <=? c) && (c <=? 0x20)
   || (c =? 0x85) || (c =? 0xA0) || (c =? 0x1680)
   || (0x2000 <=? c) && (c <=? 0x200A) || (c =? 0x2028) || (c =? 0x2029)
   || (c =? 0x202F) || (c =? 0x205F) || (c =? 0x3000))%N.

(** [str.lstrip()] *)
Fixpoint lstrip (l : list N) : list N :=
  match l with
  | [] => []
  | c :: l' => if is_space c then lstrip l' else l
  end.

(** [str.rstrip()] *)
Fixpoint rstrip (l : list N) : list N :=
  match l with
  | [] => []
  | c :: l' =>
      match rstrip l' with
      | [] => if is_space c then [] else [c]
      | r => c :: r
      end
  end.

(** [str.strip()] *)
Definition strip (s : string) : string := encode (rstrip (lstrip (decode s))).

(** [s[:n]] on a string. *)
Definition take_str (n : nat) (s : string) : string :=
  encode (List.firstn n (decode s)).

(** ** The store *)

(** The file at [self.data_file]: missing, bytes that are no text in the
    encoding the file is opened with, text that [json.load] rejects, or a
    JSON array of objects. *)
Inductive document :=
  | Absent
  | Undecodable
  | InvalidJson
  | JsonArray (ts : list task).

Record TaskManager := mkTaskManager {
  data_file : document;
  tasks : list task;
  next_id : Z
}.

Definition M (A : Type) : Type := TaskManager -> result A * TaskManager.

Definition ret {A} (a : A) : M A := fun s => (Ok a, s).
Definition lift {A} (r : result A) : M A := fun s => (r, s).
Definition bind {A B} (m : M A) (k : A -> M B) : M B :=
  fun s => match m s with
           | (Ok a, s') => k a s'
           | (Raise e, s') => (Raise e, s')
           end.
Definition get_tasks : M (list task) := fun s => (Ok (tasks s), s).
Definition put_tasks (ts : list task) : M unit :=
  fun s => (Ok tt, mkTaskManager (data_file s) ts (next_id s)).
Definition get_next : M Z := fun s => (Ok (next_id s), s).
Definition put_next (n : Z) : M unit :=
  fun s => (Ok tt, mkTaskManager (data_file s) (tasks s) n).

Notation "'let*' x ':=' m 'in' k" := (bind m (fun x => k))
  (at level 10, x name, m at level 100, k at level 200).
Notation "m ';;' k" := (bind m (fun _ => k))
  (at level 100, k at level 200, right associativity).

(** [os.path.exists(self.data_file)] *)
Definition path_exists (d : document) : bool :=
  match d with
  | Absent => false
  | _ => true
  end.

(** [with open(self.data_file, 'r') as f: return json.load(f)]: [open]
    raises on a missing file, reading the file decodes it, and the parser
    raises on text that is not JSON. *)
Definition read_json (d : document) : result (list task) :=
  match d with
  | Absent => Raise FileNotFoundError
  | Undecodable => Raise UnicodeDecodeError
  | InvalidJson => Raise JSONDecodeError
  | JsonArray ts => Ok ts
  end.

(** [load_tasks]: the handler catches [JSONDecodeError] and
    [FileNotFoundError]; any other exception leaves the method. *)
Definition load_tasks (d : document) : result (list task) :=
  if path_exists d then
    match read_json d with
    | Ok ts => Ok ts
    | Raise JSONDecodeError => Ok []
    | Raise FileNotFoundError => Ok []
    | Raise e => Raise e
    end
  else Ok [].

(** What becomes of a write of the file: it completes; [open] refuses and
    the file stays as it was; or the write breaks off after [open] has
    emptied the file, and leaves text that is not JSON. *)
Inductive write := Completes | Refused | BreaksOff.

(** The file after a write of the collection [ts] over the document [d]. *)
Definition written_file (w : write) (d : document) (ts : list task) : document :=
  match w with
  | Completes => JsonArray ts
  | Refused => d
  | BreaksOff => InvalidJson
  end.

(** [save_tasks]: the file is rewritten with the whole collection; a write
    that fails raises [OSError]. *)
Definition save_tasks_when (w : write) : M unit :=
  fun s =>
    (match w with Completes => Ok tt | _ => Raise OSError end,
     mkTaskManager (written_file w (data_file s) (tasks s)) (tasks s) (next_id s)).

(** [save_tasks] when the write completes. *)
Definition save_tasks : M unit := save_tasks_when Completes.

(** [max(task['id'] for task in ts)] continued from the running maximum
    [cur]: items are produced and compared one at a time. *)
Fixpoint max_id (cur : value) (ts : list task) : result value :=
  match ts with
  | [] => Ok cur
  | t :: ts' =>
      let! v := getitem t "id" in
      let! b := py_gt v cur in
      max_id (if b then v else cur) ts'
  end.

(** [get_next_id] *)
Definition get_next_id (ts : list task) : result Z :=
  match ts with
  | [] => Ok 1
  | t :: ts' =>
      let! v := getitem t "id" in
      let! m := max_id v ts' in
      py_succ m
  end.

(** [__init__] *)
Definition init (d : document) : result TaskManager :=
  let! ts := load_tasks d in
  let! n := get_next_id ts in
  Ok (mkTaskManager d ts n).

(** [add_task]; [now1] and [now2] are the two clock readings, [w] is what
    becomes of the write. *)
Definition add_task_when (w : write) (now1 now2 : string)
    (title description priority : string) : M task :=
  let* n := get_next in
  let t : task :=
    [("id", VInt n); ("title", VStr title); ("description", VStr description);
     ("priority", VStr priority); ("status", VStr "pending");
     ("created_at", VStr now1); ("updated_at", VStr now2)] in
  let* ts := get_tasks in
  put_tasks (ts ++ [t]);;
  put_next (n + 1);;
  save_tasks_when w;;
  ret t.

(** [add_task] when the write completes. *)
Definition add_task : string -> string -> string -> string -> string -> M task :=
  add_task_when Completes.

(** [for i, task in enumerate(ts): if task['id'] == task_id: ...]: the
    index and the task of the first match. *)
Fixpoint find_id (task_id : Z) (ts : list task) : result (option (nat * task)) :=
  match ts with
  | [] => Ok None
  | t :: ts' =>
      let! v := getitem t "id" in
      if py_eq v (VInt task_id) then Ok (Some (O, t))
      else
        let! r := find_id task_id ts' in
        Ok (match r with
            | Some (i, t') => Some (S i, t')
            | None => None
            end)
  end.

(** [for key, value in kwargs.items(): if key in task: task[key] = value] *)
Definition apply_kwargs (kwargs : dict string value) (t : task) : task :=
  fold_left
    (fun (t : task) (kv : string * value) =>
       if dict_in (fst kv) t then dict_set (fst kv) (snd kv) t else t)
    kwargs t.

(** [update_task]; the task found is changed in place and returned. *)
Definition update_task_when (w : write) (now : string) (task_id : Z)
    (kwargs : dict string value) : M (option task) :=
  let* ts := get_tasks in
  let* r := lift (find_id task_id ts) in
  match r with
  | Some (i, t) =>
      let t' := dict_set "updated_at" (VStr now) (apply_kwargs kwargs t) in
      put_tasks (<[i:=t']> ts);;
      save_tasks_when w;;
      ret (Some t')
  | None => ret None
  end.

(** [update_task] when the write completes. *)
Definition update_task : string -> Z -> dict string value -> M (option task) :=
  update_task_when Completes.

(** [delete_task] *)
Definition delete_task_when (w : write) (task_id : Z) : M bool :=
  let* ts := get_tasks in
  let* r := lift (find_id task_id ts) in
  match r with
  | Some (i, _) =>
      put_tasks (delete i ts);;
      save_tasks_when w;;
      ret true
  | None => ret false
  end.

(** [delete_task] when the write completes. *)
Definition delete_task : Z -> M bool := delete_task_when Completes.

(** [get_task] *)
Definition get_task (task_id : Z) : M (option task) :=
  let* ts := get_tasks in
  let* r := lift (find_id task_id ts) in
  ret (match r with
       | Some (_, t) => Some t
       | None => None
       end).

(** [[t for t in ts if p(t)]] where the condition may raise. *)
Fixpoint comprehension (p : task -> result bool) (ts : list task)
  : result (list task) :=
  match ts with
  | [] => Ok []
  | t :: ts' =>
      let! b := p t in
      let! rest := comprehension p ts' in
      Ok (if b then t :: rest else rest)
  end.

(** The condition [task[key] == v]. *)
Definition field_is (key : string) (v : value) (t : task) : result bool :=
  let! x := getitem t key in Ok (py_eq x v).

(** The keys of [sorted(ts, key=lambda x: x['id'])], computed before any
    comparison. *)
Fixpoint decorate (ts : list task) : result (list (value * task)) :=
  match ts with
  | [] => Ok []
  | t :: ts' =>
      let! k := getitem t "id" in
      let! rest := decorate ts' in
      Ok ((k, t) :: rest)
  end.

(** [sorted] is stable and compares keys with [<] only; it is modelled by a
    stable insertion sort over the same comparison, which raises when a
    comparison does. *)
Fixpoint insert_by_key (k : value) (x : task) (l : list (value * task))
  : result (list (value * task)) :=
  match l with
  | [] => Ok [(k, x)]
  | (k', y) :: l' =>
      let! b := py_lt k' k in
      if b then
        let! r := insert_by_key k x l' in Ok ((k', y) :: r)
      else Ok ((k, x) :: (k', y) :: l')
  end.

Fixpoint sort_by_key (l : list (value * task)) : result (list (value * task)) :=
  match l with
  | [] => Ok []
  | (k, x) :: l' =>
      let! r := sort_by_key l' in
      insert_by_key k x r
  end.

Definition sorted_by_id (ts : list task) : result (list task) :=
  let! d := decorate ts in
  let! r := sort_by_key d in
  Ok (map snd r).

(** [if arg: ts = [task for task in ts if task[key] == arg]]; the argument
    is [None] or a string, and both [None] and [''] are false. *)
Definition filter_if (key : string) (arg : option string) (ts : list task)
  : result (list task) :=
  match arg with
  | None => Ok ts
  | Some v =>
      if String.eqb v "" then Ok ts
      else comprehension (field_is key (VStr v)) ts
  end.

(** [list_tasks] *)
Definition list_tasks (status priority : option string) : M (list task) :=
  let* filtered_tasks := get_tasks in
  let* filtered_tasks := lift (filter_if "status" status filtered_tasks) in
  let* filtered_tasks := lift (filter_if "priority" priority filtered_tasks) in
  lift (sorted_by_id filtered_tasks).

Record Stats := mkStats {
  total : Z;
  pending : Z;
  completed : Z;
  by_priority : dict value Z
}.

(** The loop [priority_stats[priority] = priority_stats.get(priority, 0) + 1]. *)
Fixpoint count_priorities (priority_stats : dict value Z) (ts : list task)
  : result (dict value Z) :=
  match ts with
  | [] => Ok priority_stats
  | t :: ts' =>
      let! priority := getitem t "priority" in
      count_priorities
        (dict_set priority (default 0 (dict_get priority priority_stats) + 1)
           priority_stats)
        ts'
  end.

(** [get_stats] *)
Definition get_stats : M Stats :=
  let* ts := get_tasks in
  let total := Z.of_nat (length ts) in
  let* p := lift (comprehension (field_is "status" (VStr "pending")) ts) in
  let pending := Z.of_nat (length p) in
  let* c := lift (comprehension (field_is "status" (VStr "completed")) ts) in
  let completed := Z.of_nat (length c) in
  let* priority_stats := lift (count_priorities [] ts) in
  ret (mkStats total pending completed priority_stats).

(** [v.lower()]: only strings have the method. *)
Definition py_lower (v : value) : result string :=
  match v with
  | VStr s => Ok (lower s)
  | _ => Raise AttributeError
  end.

(** [q in s] on strings. *)
Fixpoint contains (q s : string) : bool :=
  String.prefix q s
  || match s with
     | EmptyString => false
     | String _ s' => contains q s'
     end.

(** The condition of [search_tasks]; [or] evaluates its right operand only
    when the left one is false. *)
Definition matches (query : string) (t : task) : result bool :=
  let! title := getitem t "title" in
  let! lt := py_lower title in
  if contains query lt then Ok true
  else
    let! description := getitem t "description" in
    let! ld := py_lower description in
    Ok (contains query ld).

(** [search_tasks] *)
Definition search_tasks (query : string) : M (list task) :=
  let query := lower query in
  let* ts := get_tasks in
  lift (comprehension (matches query) ts).

(** ** Vocabulary of the statements *)

(** The id of a task when it is an integer. *)
Definition int_id (t : task) : option Z :=
  match dict_get "id" t with
  | Some (VInt z) => Some z
  | _ => None
  end.

(** Every task carries an integer id below the counter [n]. *)
Definition ids_below (n : Z) (ts : list task) : Prop :=
  Forall (fun t => exists z, int_id t = Some z /\ z < n) ts.

(** The counter of the store is above every id in the collection. *)
Definition counter_ok (s : TaskManager) : Prop :=
  ids_below (next_id s) (tasks s).

(** Every task has the key [id]. *)
Definition all_have_id (ts : list task) : Prop :=
  Forall (fun t => is_Some (dict_get "id" t)) ts.

(** The ids of the collection are pairwise distinct. *)
Definition unique_ids (ts : list task) : Prop :=
  NoDup (dict_get "id" <$> ts).

(** A method that leaves the whole state of the store as it was. *)
Definition read_only {A} (m : M A) : Prop := forall s, snd (m s) = s.

(** The arguments of one call of [add_task], clock readings included. *)
Record add_args := mkAddArgs {
  arg_now1 : string;
  arg_now2 : string;
  arg_title : string;
  arg_description : string;
  arg_priority : string
}.

Definition add_with (a : add_args) : M task :=
  add_task (arg_now1 a) (arg_now2 a) (arg_title a) (arg_description a)
    (arg_priority a).

(** A sequence of [add_task] calls; the tasks returned, in call order. *)
Fixpoint add_all (l : list add_args) : M (list task) :=
  match l with
  | [] => ret []
  | a :: l' =>
      let* t := add_with a in
      let* r := add_all l' in
      ret (t :: r)
  end.

(** The mutating calls a client can make. *)
Inductive op :=
  | Add (a : add_args)
  | Update (now : string) (task_id : Z) (kwargs : dict string value)
  | Delete (task_id : Z).

(** The state after one call whose write, if it comes to it, has the outcome
    [w]; whatever the call returned or raised. *)
Definition run_op_when (w : write) (s : TaskManager) (o : op) : TaskManager :=
  match o with
  | Add a =>
      snd (add_task_when w (arg_now1 a) (arg_now2 a) (arg_title a)
             (arg_description a) (arg_priority a) s)
  | Update now task_id kwargs => snd (update_task_when w now task_id kwargs s)
  | Delete task_id => snd (delete_task_when w task_id s)
  end.

(** The state after one call, whatever the call returned. *)
Definition run_op (s : TaskManager) (o : op) : TaskManager :=
  match o with
  | Add a => snd (add_with a s)
  | Update now task_id kwargs => snd (update_task now task_id kwargs s)
  | Delete task_id => snd (delete_task task_id s)
  end.

Definition run_ops (s : TaskManager) (l : list op) : TaskManager :=
  fold_left run_op l s.

(** A call that does not supply the field [id] to [update_task]. *)
Definition keeps_id (o : op) : Prop :=
  match o with
  | Update _ _ kwargs => dict_in "id" kwargs = false
  | _ => True
  end.

(** The items of a list in the order of their first occurrence. *)
Fixpoint first_occurrences (l : list value) : list value :=
  match l with
  | [] => []
  | x :: l' => x :: filter (fun y => y <> x) (first_occurrences l')
  end.

(** How many items of [l] are [x]. *)
Definition occurrences (x : value) (l : list value) : Z :=
  Z.of_nat (length (filter (fun y => y = x) l)).

(** Each value of [l] with the number of its occurrences, in the order of
    first occurrence. *)
Definition tally (l : list value) : dict value Z :=
  (fun x => (x, occurrences x l)) <$> first_occurrences l.

(** The task has the field [key] with value [v]. *)
Definition field_eq (key : string) (v : value) (t : task) : Prop :=
  dict_get key t = Some v.

#[global] Instance field_eq_dec key v t : Decision (field_eq key v t).
Proof. unfold field_eq. apply _. Defined.

(** The priorities of the tasks that have one. *)
Definition priorities (ts : list task) : list value :=
  omap (dict_get "priority") ts.

(** Text of ASCII characters only. *)
Fixpoint ascii_only (s : string) : bool :=
  match s with
  | EmptyString => true
  | String c s' => (N_of_ascii c <? 0x80)%N && ascii_only s'
  end.

(** One of the letters A to Z. *)
Definition is_upper (c : ascii) : bool :=
  let n := nat_of_ascii c in Nat.leb 65 n && Nat.leb n 90.

(** The same character, or the two cases of one of the letters A to Z. *)
Definition same_letter (a b : ascii) : bool :=
  let x := nat_of_ascii a in
  let y := nat_of_ascii b in
  Nat.eqb x y || is_upper a && Nat.eqb y (x + 32)
  || is_upper b && Nat.eqb x (y + 32).

(** Two texts that differ at most in the case of letters A to Z. *)
Fixpoint same_text (q m : string) : bool :=
  match q, m with
  | EmptyString, EmptyString => true
  | String a q', String b m' => same_letter a b && same_text q' m'
  | _, _ => false
  end.

(** [q] occurs in [s] when the case of the letters A to Z is ignored: [s]
    has a substring that differs from [q] at most in their case. *)
Definition ci_substring (q s : string) : Prop :=
  exists pre mid post : string,
    s = pre +:+ mid +:+ post /\ same_text q mid = true.

(** The letters A to Z made lower case, character by character. *)
Definition lower_char (c : ascii) : ascii :=
  let n := nat_of_ascii c in
  if (Nat.leb 65 n && Nat.leb n 90)%bool then ascii_of_nat (n + 32) else c.

Fixpoint ascii_lower (s : string) : string :=
  match s with
  | EmptyString => EmptyString
  | String c s' => String (lower_char c) (ascii_lower s')
  end.

(** The title and the description of the task are strings. *)
Definition has_text (t : task) : Prop :=
  (exists x, dict_get "title" t = Some (VStr x)) /\
  (exists y, dict_get "description" t = Some (VStr y)).

(** The title and the description of the task are ASCII text. *)
Definition has_ascii_text (t : task) : Prop :=
  (exists x, dict_get "title" t = Some (VStr x) /\ ascii_only x = true) /\
  (exists y, dict_get "description" t = Some (VStr y) /\ ascii_only y = true).

(** The title or the description of the task contains [q], the case of
    the letters A to Z ignored. *)
Definition search_hit (q : string) (t : task) : Prop :=
  (exists x, dict_get "title" t = Some (VStr x) /\ ci_substring q x) \/
  (exists y, dict_get "description" t = Some (VStr y) /\ ci_substring q y).

(** The lower-case form of [q] occurs in that of the title or in that of
    the description. *)
Definition search_test (q : string) (t : task) : bool :=
  match dict_get "title" t, dict_get "description" t with
  | Some (VStr x), Some (VStr y) =>
      contains (lower q) (lower x) || contains (lower q) (lower y)
  | _, _ => false
  end.

(** What an optional filter argument of [list_tasks] asks of the field [key]:
    nothing when it is omitted or empty, equality otherwise. *)
Definition passes (key : string) (arg : option string) (t : task) : Prop :=
  match arg with
  | Some v => if decide (v = "") then True else field_eq key (VStr v) t
  | None => True
  end.

#[global] Instance passes_dec key arg t : Decision (passes key arg t).
Proof. destruct arg as [v|]; cbn; [destruct (decide (v = "")) |]; apply _. Defined.

(** Both tasks have an integer id, and the first one's is not greater. *)
Definition id_le (a b : task) : Prop :=
  match int_id a, int_id b with
  | Some x, Some y => x <= y
  | _, _ => False
  end.

(** The keys of a decorated list are the integer ids of its tasks. *)
Definition keyed (d : list (value * task)) : Prop :=
  Forall (fun kt => exists z, fst kt = VInt z /\ int_id (snd kt) = Some z) d.

(** A time stamp [a] that is a string not after the string [b]. *)
Definition stamp_le (a b : option value) : Prop :=
  match a, b with
  | Some (VStr x), Some (VStr y) => String.leb x y = true
  | _, _ => False
  end.

(** A record as [add_task] builds it. *)
Definition mk_task (i : Z) (title description priority status created updated : string)
  : task :=
  [("id", VInt i); ("title", VStr title); ("description", VStr description);
   ("priority", VStr priority); ("status", VStr status);
   ("created_at", VStr created); ("updated_at", VStr updated)].

(** A store of three tasks, as loaded from a file that holds them. *)
Definition sample_task1 : task :=
  mk_task 1 "Design api layer" "" "high" "pending"
    "2024-05-01T09:00:00" "2024-05-01T09:00:00".
Definition sample_task2 : task :=
  mk_task 2 "Write tests" "cover the api endpoint" "high" "completed"
    "2024-05-01T09:30:00" "2024-05-02T08:00:00".
Definition sample_task3 : task :=
  mk_task 3 "Buy milk" "" "low" "pending"
    "2024-05-01T10:00:00" "2024-05-01T10:00:00".

Definition sample_tasks : list task :=
  [sample_task1; sample_task2; sample_task3].

Definition sample_store : TaskManager :=
  mkTaskManager (JsonArray sample_tasks) sample_tasks 4.

(** ** The web adapter (ui_web/app.py) *)

(** The handlers are the functions that [create_app] defines. What Flask
    hands them is an argument here: the submitted form is a dictionary of
    strings, [request.form.get] is [dict_get], and the clock readings are
    passed as for the store. What a handler passes to [flash] is its result;
    every handler then redirects to the index. The first line of the file
    holds a stray word before the interpreter comment, a name that is not
    defined, so loading the module as it stands raises [NameError]; the
    handlers are modelled as they are written, on writes of the file that
    complete. *)

(** [v.strip()]: only strings have the method. *)
Definition py_strip (v : value) : result string :=
  match v with
  | VStr s => Ok (strip s)
  | _ => Raise AttributeError
  end.

(** [request.form.get(key) or default] with a string default: a missing
    field and an empty one give the default. *)
Definition form_or (x : option string) (default : string) : string :=
  match x with
  | Some v => if String.eqb v "" then default else v
  | None => default
  end.

(** [request.form.get(key) or e] where [e] is read from the task: [e] is
    evaluated only when the field is missing or empty. *)
Definition form_or_value (x : option string) (e : result value) : result value :=
  match x with
  | Some v => if String.eqb v "" then e else Ok (VStr v)
  | None => e
  end.

(** [x in ["high", "medium", "low"]] and [x in ["pending", "completed"]] *)
Definition is_priority (x : string) : bool :=
  String.eqb x "high" || String.eqb x "medium" || String.eqb x "low".

Definition is_status (x : string) : bool :=
  String.eqb x "pending" || String.eqb x "completed".

(** What a handler leaves for the next page: the message and the category
    given to [flash]. Every handler below then redirects to the index. *)
Definition flashed : Type := string * string.

Module Web.

(** [create_task], the handler of [POST /tasks]. *)
Definition create_task (now1 now2 : string) (form : dict string string)
  : M flashed :=
  let title := strip (form_or (dict_get "title" form) "") in
  let description := strip (form_or (dict_get "description" form) "") in
  let priority := lower (strip (form_or (dict_get "priority" form) "medium")) in
  if String.eqb title "" then ret ("Title is required", "danger")
  else
    let priority := if is_priority priority then priority else "medium" in
    add_task now1 now2 title description priority;;
    ret ("Task created", "success").

(** [toggle_task], the handler of [POST /tasks/<id>/toggle]. *)
Definition toggle_task (now : string) (task_id : Z) : M flashed :=
  let* task := get_task task_id in
  match task with
  | None | Some [] => ret ("Task not found", "danger")
  | Some task =>
      let new_status :=
        if negb (py_eq (default VNone (dict_get "status" task)) (VStr "completed"))
        then "completed" else "pending" in
      update_task now task_id [("status", VStr new_status)];;
      ret ("Task status toggled", "info")
  end.

(** [update_task], the handler of [POST /tasks/<id>/update]. *)
Definition update_task (now : string) (task_id : Z) (form : dict string string)
  : M flashed :=
  let* task := get_task task_id in
  match task with
  | None | Some [] => ret ("Task not found", "danger")
  | Some task =>
      let* new_title :=
        lift (let! v := form_or_value (dict_get "title" form) (getitem task "title") in
              py_strip v) in
      let* new_desc :=
        lift (let! v := form_or_value (dict_get "description" form)
                          (Ok (default (VStr "") (dict_get "description" task))) in
              py_strip v) in
      let* new_priority :=
        lift (let! v := form_or_value (dict_get "priority" form)
                          (Ok (default (VStr "medium") (dict_get "priority" task))) in
              let! x := py_strip v in Ok (lower x)) in
      let* new_status :=
        lift (let! v := form_or_value (dict_get "status" form)
                          (Ok (default (VStr "pending") (dict_get "status" task))) in
              let! x := py_strip v in Ok (lower x)) in
      let new_priority :=
        if is_priority new_priority then VStr new_priority
        else default (VStr "medium") (dict_get "priority" task) in
      let new_status :=
        if is_status new_status then VStr new_status
        else default (VStr "pending") (dict_get "status" task) in
      update_task now task_id
        [("title", VStr new_title); ("description", VStr new_desc);
         ("priority", new_priority); ("status", new_status)];;
      ret ("Task updated", "success")
  end.

(** [delete_task], the handler of [POST /tasks/<id>/delete]. *)
Definition delete_task (task_id : Z) : M flashed :=
  let* ok := delete_task task_id in
  if ok then ret ("Task deleted", "warning")
  else ret ("Task not found", "danger").

End Web.

(** The value the update handler stores for a field checked against a list:
    an accepted value, or what the task had (the default when it had
    none). *)
Definition checked_or_kept (accept : string -> bool) (fallback : string)
    (key : string) (t : task) (v : value) : Prop :=
  (exists x, v = VStr x /\ accept x = true) \/
  v = default (VStr fallback) (dict_get key t).

(** The title, the description, the priority and the status of the task
    are strings. *)
Definition text_fields (t : task) : Prop :=
  exists ti de pr st,
    dict_get "title" t = Some (VStr ti) /\
    dict_get "description" t = Some (VStr de) /\
    dict_get "priority" t = Some (VStr pr) /\
    dict_get "status" t = Some (VStr st).

(** The status the toggle handler chooses for a task. *)
Definition toggled (t : task) : string :=
  if negb (py_eq (default VNone (dict_get "status" t)) (VStr "completed"))
  then "completed" else "pending".

(** The requests that change the store, with the clock readings taken
    while they are served. *)
Inductive request :=
  | PostCreate (now1 now2 : string) (form : dict string string)
  | PostUpdate (now : string) (task_id : Z) (form : dict string string)
  | PostToggle (now : string) (task_id : Z)
  | PostDelete (task_id : Z).

Definition serve (r : request) : M flashed :=
  match r with
  | PostCreate now1 now2 form => Web.create_task now1 now2 form
  | PostUpdate now task_id form => Web.update_task now task_id form
  | PostToggle now task_id => Web.toggle_task now task_id
  | PostDelete task_id => Web.delete_task task_id
  end.

(** The store after a sequence of requests, answered or failed. *)
Definition serve_all (s : TaskManager) (rs : list request) : TaskManager :=
  fold_left (fun s r => snd (serve r s)) rs s.

(** The priority and the status of the task are among the values the
    adapters accept. *)
Definition enum_ok (t : task) : Prop :=
  (exists p, dict_get "priority" t = Some (VStr p) /\ is_priority p = true) /\
  (exists st, dict_get "status" t = Some (VStr st) /\ is_status st = true).

(** ** The console (task_manager.py) *)

(** The console program runs in a world that holds the store, the lines
    still to be typed and the text written so far. Ctrl-C is met where the
    program waits for input. [int(...)] on a typed line and the clock are
    parameters of [main]; the writes of the file complete. *)

(** What [input()] meets on standard input: a line, or Ctrl-C while it
    waits. The end of the list is the end of the input. *)
Inductive event :=
  | Line (s : string)
  | Interrupt.

(** The world of the console program: the store, the input still to come,
    the text written so far (one entry for each write, oldest first) and
    the number of clock readings taken. *)
Record world := mkWorld {
  store : TaskManager;
  stdin : list event;
  stdout : list string;
  ticks : nat
}.

(** The exceptions of the console program: those of the store and of the
    operations on values, the end of the input and Ctrl-C. *)
Inductive cexn :=
  | PyError (e : exn)
  | EOFError
  | KeyboardInterrupt.

Inductive outcome (A : Type) :=
  | Done (a : A)
  | Fail (e : cexn).
Arguments Done {A} a.
Arguments Fail {A} e.

Definition IO (A : Type) : Type := world -> outcome A * world.

Definition io_ret {A} (a : A) : IO A := fun w => (Done a, w).
Definition io_bind {A B} (m : IO A) (k : A -> IO B) : IO B :=
  fun w => match m w with
           | (Done a, w') => k a w'
           | (Fail e, w') => (Fail e, w')
           end.

Notation "'do!' x ':=' m 'in' k" := (io_bind m (fun x => k))
  (at level 10, x name, m at level 100, k at level 200).
Notation "m ';;;' k" := (io_bind m (fun _ => k))
  (at level 100, k at level 200, right associativity).

(** The line feed. *)
Definition nl : string := String (ascii_of_nat 10) EmptyString.

(** [s * n] *)
Fixpoint repeat_str (s : string) (n : nat) : string :=
  match n with
  | O => EmptyString
  | S n' => s +:+ repeat_str s n'
  end.

(** [print(x)] *)
Definition print (x : string) : IO unit :=
  fun w => (Done tt, mkWorld (store w) (stdin w) (stdout w ++ [x +:+ nl]) (ticks w)).

(** [input(prompt)]: the prompt is written, then a line is read. *)
Definition input (prompt : string) : IO string :=
  fun w =>
    let out := stdout w ++ [prompt] in
    match stdin w with
    | [] => (Fail EOFError, mkWorld (store w) [] out (ticks w))
    | Line l :: rest => (Done l, mkWorld (store w) rest out (ticks w))
    | Interrupt :: rest => (Fail KeyboardInterrupt, mkWorld (store w) rest out (ticks w))
    end.

(** A computation on values, in the console. *)
Definition io_lift {A} (r : result A) : IO A :=
  fun w => match r with
           | Ok a => (Done a, w)
           | Raise e => (Fail (PyError e), w)
           end.

(** A method of [task_manager], in the console. *)
Definition on_store {A} (m : M A) : IO A :=
  fun w => match m (store w) with
           | (Ok a, s') => (Done a, mkWorld s' (stdin w) (stdout w) (ticks w))
           | (Raise e, s') =>
               (Fail (PyError e), mkWorld s' (stdin w) (stdout w) (ticks w))
           end.

(** [str(v)], as the formatted strings insert a value. *)
Definition py_str (v : value) : string :=
  match v with
  | VNone => "None"
  | VInt z => pretty z
  | VStr s => s
  end.

(** The truth value of a value. *)
Definition py_truthy (v : value) : bool :=
  match v with
  | VNone => false
  | VInt z => negb (Z.eqb z 0)
  | VStr s => negb (String.eqb s "")
  end.

(** [v.title()]: only strings have the method. *)
Definition py_title (v : value) : result string :=
  match v with
  | VStr s => Ok (title_case s)
  | _ => Raise AttributeError
  end.

(** [v[:19]]: integers and [None] cannot be sliced. *)
Definition py_slice19 (v : value) : result string :=
  match v with
  | VStr s => Ok (take_str 19 s)
  | _ => Raise TypeError
  end.

(** [display_menu] *)
Definition display_menu : IO unit :=
  print (nl +:+ repeat_str "=" 50);;;
  print "           TASK MANAGER";;;
  print (repeat_str "=" 50);;;
  print "1. Add Task";;;
  print "2. List Tasks";;;
  print "3. Update Task";;;
  print "4. Delete Task";;;
  print "5. Search Tasks";;;
  print "6. View Statistics";;;
  print "7. Exit";;;
  print (repeat_str "=" 50).

(** The body of the loop of [display_tasks], for one task. *)
Definition display_task (t : task) : IO unit :=
  do! status := io_lift (getitem t "status") in
  let status_icon := if py_eq status (VStr "completed") then "✓" else "○" in
  do! priority := io_lift (getitem t "priority") in
  let priority_icon :=
    if py_eq priority (VStr "high") then "🔴"
    else if py_eq priority (VStr "medium") then "🟡"
    else if py_eq priority (VStr "low") then "🟢"
    else "⚪" in
  do! id := io_lift (getitem t "id") in
  do! title := io_lift (getitem t "title") in
  print (status_icon +:+ " [" +:+ py_str id +:+ "] " +:+ priority_icon +:+ " "
           +:+ py_str title);;;
  do! description := io_lift (getitem t "description") in
  (if py_truthy description then print ("    " +:+ py_str description)
   else io_ret tt);;;
  do! status := io_lift (getitem t "status") in
  do! status_title := io_lift (py_title status) in
  do! priority := io_lift (getitem t "priority") in
  do! priority_title := io_lift (py_title priority) in
  print ("    Status: " +:+ status_title +:+ " | Priority: " +:+ priority_title);;;
  do! created_at := io_lift (getitem t "created_at") in
  do! created := io_lift (py_slice19 created_at) in
  print ("    Created: " +:+ created);;;
  print "".

Fixpoint display_each (ts : list task) : IO unit :=
  match ts with
  | [] => io_ret tt
  | t :: ts' => display_task t;;; display_each ts'
  end.

(** [display_tasks] *)
Definition display_tasks (ts : list task) (title : string) : IO unit :=
  print (nl +:+ title +:+ ":");;;
  print (repeat_str "-" 60);;;
  match ts with
  | [] => print "No tasks found."
  | _ => display_each ts
  end.

(** What [get_task_input] returns when it does not return [None]. *)
Record task_data := mkTaskData {
  data_title : string;
  data_description : string;
  data_priority : string
}.

(** [get_task_input] *)
Definition get_task_input : IO (option task_data) :=
  do! title := input "Enter task title: " in
  let title := strip title in
  if String.eqb title "" then
    print "Title cannot be empty!";;;
    io_ret None
  else
    do! description := input "Enter task description (optional): " in
    let description := strip description in
    print "Priority levels: high, medium, low";;;
    do! priority := input "Enter priority (default: medium): " in
    let priority := lower (strip priority) in
    let priority := if is_priority priority then priority else "medium" in
    io_ret (Some (mkTaskData title description priority)).

(** How a round of the menu loop of [main] ends: [break], [continue], or
    on to the pause at the end of the round. *)
Inductive control := Break | Continue | Pause.

(** The loop over [stats['by_priority'].items()] of [main]. *)
Fixpoint print_counts (d : dict value Z) : IO unit :=
  match d with
  | [] => io_ret tt
  | (priority, count) :: d' =>
      do! name := io_lift (py_title priority) in
      print ("  " +:+ name +:+ ": " +:+ pretty count);;;
      print_counts d'
  end.

(** [try: choice = input("Enter your choice (1-7): ").strip()] with its
    handler of [KeyboardInterrupt]: [None] when Ctrl-C was met. *)
Definition input_choice : IO (option string) :=
  fun w =>
    match input "Enter your choice (1-7): " w with
    | (Done l, w') => (Done (Some (strip l)), w')
    | (Fail KeyboardInterrupt, w') => (Done None, w')
    | (Fail e, w') => (Fail e, w')
    end.

Section Main.

(** [int(line)] on a line read from the keyboard, [None] when it raises
    [ValueError]; and the successive readings of
    [datetime.now().isoformat()]. *)
Variable py_int : string -> option Z.
Variable clock : nat -> string.

(** [task_manager.add_task(...)]: the clock is read twice. *)
Definition io_add_task (title description priority : string) : IO task :=
  fun w =>
    match add_task (clock (ticks w)) (clock (S (ticks w))) title description
            priority (store w) with
    | (Ok t, s') => (Done t, mkWorld s' (stdin w) (stdout w) (S (S (ticks w))))
    | (Raise e, s') => (Fail (PyError e), mkWorld s' (stdin w) (stdout w) (ticks w))
    end.

(** [task_manager.update_task(...)]: the clock is read when the task is
    found. *)
Definition io_update_task (task_id : Z) (kwargs : dict string value)
  : IO (option task) :=
  fun w =>
    match update_task (clock (ticks w)) task_id kwargs (store w) with
    | (Ok (Some t), s') =>
        (Done (Some t), mkWorld s' (stdin w) (stdout w) (S (ticks w)))
    | (Ok None, s') => (Done None, mkWorld s' (stdin w) (stdout w) (ticks w))
    | (Raise e, s') => (Fail (PyError e), mkWorld s' (stdin w) (stdout w) (ticks w))
    end.

(** [main], choice 1. *)
Definition choice_add : IO control :=
  do! task_data := get_task_input in
  match task_data with
  | Some d =>
      do! t := io_add_task (data_title d) (data_description d) (data_priority d) in
      do! id := io_lift (getitem t "id") in
      print (nl +:+ "✅ Task added successfully! ID: " +:+ py_str id);;;
      io_ret Pause
  | None => io_ret Pause
  end.

(** [main], choice 2. *)
Definition choice_list : IO control :=
  print (nl +:+ "Filter options:");;;
  print "1. All tasks";;;
  print "2. Pending tasks";;;
  print "3. Completed tasks";;;
  print "4. By priority";;;
  do! filter_choice := input "Choose filter (1-4): " in
  let filter_choice := strip filter_choice in
  (if String.eqb filter_choice "1" then
     do! ts := on_store (list_tasks None None) in
     display_tasks ts "All Tasks"
   else if String.eqb filter_choice "2" then
     do! ts := on_store (list_tasks (Some "pending") None) in
     display_tasks ts "Pending Tasks"
   else if String.eqb filter_choice "3" then
     do! ts := on_store (list_tasks (Some "completed") None) in
     display_tasks ts "Completed Tasks"
   else if String.eqb filter_choice "4" then
     do! priority := input "Enter priority (high/medium/low): " in
     let priority := lower (strip priority) in
     if is_priority priority then
       do! ts := on_store (list_tasks None (Some priority)) in
       display_tasks ts (title_case priority +:+ " Priority Tasks")
     else print "Invalid priority!"
   else print "Invalid choice!");;;
  io_ret Pause.

(** [main], choice 3. *)
Definition choice_update : IO control :=
  do! line := input "Enter task ID to update: " in
  match py_int line with
  | None => print "Invalid task ID!";;; io_ret Pause
  | Some task_id =>
      do! task := on_store (get_task task_id) in
      match task with
      | None | Some [] => print "Task not found!";;; io_ret Continue
      | Some task =>
          do! title := io_lift (getitem task "title") in
          print (nl +:+ "Current task: " +:+ py_str title);;;
          print "What would you like to update?";;;
          print "1. Title";;;
          print "2. Description";;;
          print "3. Status";;;
          print "4. Priority";;;
          do! update_choice := input "Choose field (1-4): " in
          let update_choice := strip update_choice in
          (if String.eqb update_choice "1" then
             do! new_title := input "Enter new title: " in
             let new_title := strip new_title in
             if String.eqb new_title "" then io_ret tt
             else
               io_update_task task_id [("title", VStr new_title)];;;
               print "✅ Title updated!"
           else if String.eqb update_choice "2" then
             do! new_desc := input "Enter new description: " in
             let new_desc := strip new_desc in
             io_update_task task_id [("description", VStr new_desc)];;;
             print "✅ Description updated!"
           else if String.eqb update_choice "3" then
             print "Status options: pending, completed";;;
             do! new_status := input "Enter new status: " in
             let new_status := lower (strip new_status) in
             if is_status new_status then
               io_update_task task_id [("status", VStr new_status)];;;
               print "✅ Status updated!"
             else print "Invalid status!"
           else if String.eqb update_choice "4" then
             print "Priority options: high, medium, low";;;
             do! new_priority := input "Enter new priority: " in
             let new_priority := lower (strip new_priority) in
             if is_priority new_priority then
               io_update_task task_id [("priority", VStr new_priority)];;;
               print "✅ Priority updated!"
             else print "Invalid priority!"
           else print "Invalid choice!");;;
          io_ret Pause
      end
  end.

(** [main], choice 4. *)
Definition choice_delete : IO control :=
  do! line := input "Enter task ID to delete: " in
  match py_int line with
  | None => print "Invalid task ID!";;; io_ret Pause
  | Some task_id =>
      do! ok := on_store (delete_task task_id) in
      (if ok then print "✅ Task deleted successfully!"
       else print "❌ Task not found!");;;
      io_ret Pause
  end.

(** [main], choice 5. *)
Definition choice_search : IO control :=
  do! query := input "Enter search query: " in
  let query := strip query in
  (if String.eqb query "" then print "Please enter a search query!"
   else
     do! results := on_store (search_tasks query) in
     display_tasks results ("Search Results for '" +:+ query +:+ "'"));;;
  io_ret Pause.

(** [main], choice 6. *)
Definition choice_stats : IO control :=
  do! stats := on_store get_stats in
  print (nl +:+ "📊 Task Statistics:");;;
  print (repeat_str "-" 30);;;
  print ("Total Tasks: " +:+ pretty (total stats));;;
  print ("Pending: " +:+ pretty (pending stats));;;
  print ("Completed: " +:+ pretty (completed stats));;;
  print (nl +:+ "By Priority:");;;
  print_counts (by_priority stats);;;
  io_ret Pause.

(** One round of the loop of [main], after the choice was read. *)
Definition choice_round (choice : string) : IO control :=
  if String.eqb choice "1" then choice_add
  else if String.eqb choice "2" then choice_list
  else if String.eqb choice "3" then choice_update
  else if String.eqb choice "4" then choice_delete
  else if String.eqb choice "5" then choice_search
  else if String.eqb choice "6" then choice_stats
  else if String.eqb choice "7" then
    print "Thank you for using Task Manager. Goodbye!";;; io_ret Break
  else print "Invalid choice! Please enter 1-7.";;; io_ret Pause.

(** The loop of [main], for at most [rounds] rounds: [true] when the loop
    was left, [false] when the rounds were used up. *)
Fixpoint main_loop (rounds : nat) : IO bool :=
  match rounds with
  | O => io_ret false
  | S rounds' =>
      display_menu;;;
      do! choice := input_choice in
      match choice with
      | None => print (nl +:+ nl +:+ "Goodbye!");;; io_ret true
      | Some choice =>
          do! c := choice_round choice in
          match c with
          | Break => io_ret true
          | Continue => main_loop rounds'
          | Pause => input (nl +:+ "Press Enter to continue...");;; main_loop rounds'
          end
      end
  end.

(** How a run of the program ends: [TaskManager()] raised, or the loop ran
    in a world. *)
Inductive session :=
  | NotStarted (e : exn) (out : list string)
  | Ran (r : outcome bool) (w : world).

(** [main] on the file [tasks.json] and the keyboard input: every round
    reads at least one line, so one round more than there are lines is
    enough. *)
Definition main (d : document) (keys : list event) : session :=
  let out := ["Welcome to Task Manager!" +:+ nl] in
  match init d with
  | Raise e => NotStarted e out
  | Ok s =>
      let (r, w) := main_loop (S (length keys)) (mkWorld s keys out 0) in
      Ran r w
  end.

End Main.

(** What [get_task_input] returns: nothing, or a title that is not empty
    and a priority among high, medium and low. *)
Definition input_ok (r : option task_data) : Prop :=
  match r with
  | Some d => data_title d <> "" /\ is_priority (data_priority d) = true
  | None => True
  end.

(** A task that [display_tasks] can show: it has an id, a title and a
    description, and its status, priority and [created_at] are strings. *)
Definition shown_ok (t : task) : Prop :=
  is_Some (dict_get "id" t) /\
  is_Some (dict_get "title" t) /\
  is_Some (dict_get "description" t) /\
  (exists st, dict_get "status" t = Some (VStr st)) /\
  (exists pr, dict_get "priority" t = Some (VStr pr)) /\
  (exists c, dict_get "created_at" t = Some (VStr c)).

(** The world after more text was written. *)
Definition written (w : world) (out : list string) : world :=
  mkWorld (store w) (stdin w) (stdout w ++ out) (ticks w).

(** The store is well formed: distinct integer ids below the counter, and
    accepted priorities and statuses. *)
Definition store_valid (s : TaskManager) : Prop :=
  counter_ok s /\ unique_ids (tasks s) /\ Forall enum_ok (tasks s).

(** From one world to a later one no input comes back, and a well-formed
    store stays well formed. *)
Definition steady (w w' : world) : Prop :=
  (length (stdin w') <= length (stdin w))%nat /\
  (store_valid (store w) -> store_valid (store w')).

(** A console computation is steady, and what it returns satisfies [Q]. *)
Definition io_spec {A} (m : IO A) (Q : A -> Prop) : Prop :=
  forall w, steady w (snd (m w)) /\ forall a, fst (m w) = Done a -> Q a.

(** The file holds what [load_tasks] reads back as the collection. *)
Definition in_sync (s : TaskManager) : Prop :=
  load_tasks (data_file s) = Ok (tasks s).

Definition is_add (o : op) : bool :=
  match o with
  | Add _ => true
  | _ => false
  end.

(** The number of [add_task] calls in a sequence of calls. *)
Definition count_adds (ops : list op) : Z :=
  Z.of_nat (length (List.filter is_add ops)).

(** The sum of the counts of a dictionary of counts. *)
Definition sum_counts (d : dict value Z) : Z :=
  foldr Z.add 0 (snd <$> d).

Create HintDb read_only.

(** ** The state monad *)

Lemma read_only_ret {A} (a : A) : read_only (ret a).
Proof. by intros s. Qed.

Lemma read_only_lift {A} (r : result A) : read_only (lift r).
Proof. by intros s. Qed.

Lemma read_only_get_tasks : read_only get_tasks.
Proof. by intros s. Qed.

Lemma read_only_bind {A B} (m : M A) (k : A -> M B) :
  read_only m -> (forall a, read_only (k a)) -> read_only (bind m k).
Proof.
  intros Hm Hk s. unfold bind. specialize (Hm s).
  destruct (m s) as [[a|e] s']; simpl in *; subst; [apply Hk | done].
Qed.

#[local] Hint Resolve read_only_ret read_only_lift read_only_get_tasks
  read_only_bind : read_only.

(** ** Dictionaries *)

Section DictFacts.
Context {K V : Type} `{EqDecision K}.
Implicit Types (d : dict K V) (k : K) (v : V).

Lemma dict_get_set_eq k v d : dict_get k (dict_set k v d) = Some v.
Proof.
  induction d as [|[k' v'] d IH]; simpl.
  - by rewrite decide_True.
  - destruct (decide (k = k')) as [->|Hne]; simpl.
    + by rewrite decide_True.
    + by rewrite decide_False.
Qed.

Lemma dict_get_set_ne k k' v d :
  k <> k' -> dict_get k (dict_set k' v d) = dict_get k d.
Proof.
  intros Hne. induction d as [|[k0 v0] d IH]; simpl.
  - by rewrite decide_False.
  - destruct (decide (k' = k0)) as [->|Hne']; simpl.
    + by rewrite !decide_False.
    + by rewrite IH.
Qed.

Lemma dict_set_keeps_key k k' v d :
  is_Some (dict_get k d) -> is_Some (dict_get k (dict_set k' v d)).
Proof.
  intros Hk. destruct (decide (k = k')) as [->|Hne].
  - rewrite dict_get_set_eq. by eexists.
  - by rewrite dict_get_set_ne.
Qed.

Lemma dict_in_false_not_key k d :
  dict_in k d = false -> Forall (fun kv => fst kv <> k) d.
Proof.
  unfold dict_in. induction d as [|[k' v'] d IH]; simpl; intros Hd.
  - constructor.
  - destruct (decide (k = k')) as [->|Hne]; [done|].
    constructor; [by simpl; congruence | by apply IH].
Qed.
End DictFacts.

Lemma apply_kwargs_get_other (k : string) (kwargs : dict string value) (t : task) :
  dict_in k kwargs = false ->
  dict_get k (apply_kwargs kwargs t) = dict_get k t.
Proof.
  intros Hk. apply dict_in_false_not_key in Hk. unfold apply_kwargs.
  revert t. induction Hk as [|[k' v'] kw Hne _ IH]; intros t; simpl; [done|].
  rewrite IH. destruct (dict_in k' t); [|done].
  apply dict_get_set_ne. simpl in Hne. congruence.
Qed.

Lemma apply_kwargs_keeps_key (k : string) (kwargs : dict string value) (t : task) :
  is_Some (dict_get k t) -> is_Some (dict_get k (apply_kwargs kwargs t)).
Proof.
  unfold apply_kwargs. revert t.
  induction kwargs as [|[k' v'] kw IH]; intros t Hk; simpl; [done|].
  apply IH. destruct (dict_in k' t); [by apply dict_set_keeps_key | done].
Qed.

(** ** The scan for an id *)

Lemma find_id_absent (k : Z) (ts : list task) :
  Forall (fun t => exists v, dict_get "id" t = Some v /\ v <> VInt k) ts ->
  find_id k ts = Ok None.
Proof.
  induction 1 as [|t ts (v & Hv & Hne) _ IH]; simpl; [done|].
  unfold getitem. rewrite Hv. simpl. unfold py_eq.
  rewrite bool_decide_false by done. by rewrite IH.
Qed.

Lemma find_id_found (k : Z) (ts : list task) (i : nat) (t : task) :
  find_id k ts = Ok (Some (i, t)) ->
  ts !! i = Some t /\ dict_get "id" t = Some (VInt k).
Proof.
  revert i. induction ts as [|t0 ts IH]; intros i; simpl; [done|].
  unfold getitem. destruct (dict_get "id" t0) as [v|] eqn:Hv; simpl; [|done].
  unfold py_eq. case_bool_decide as Heq.
  - intros [= <- <-]. by subst v.
  - destruct (find_id k ts) as [[[j t']|]|e]; simpl; [|done..].
    intros [= <- <-]. simpl. by apply IH.
Qed.

(** The first task with id [k] is found, provided the tasks before it have
    an id. *)
Lemma find_id_first (k : Z) (ts : list task) (i : nat) (t : task) :
  ts !! i = Some t ->
  dict_get "id" t = Some (VInt k) ->
  (forall j t0, (j < i)%nat -> ts !! j = Some t0 ->
     exists v, dict_get "id" t0 = Some v /\ v <> VInt k) ->
  find_id k ts = Ok (Some (i, t)).
Proof.
  revert i. induction ts as [|t0 ts IH]; intros i Hi Hid Hbefore; [done|].
  simpl. unfold getitem. destruct i as [|i]; simpl in Hi.
  - injection Hi as ->. rewrite Hid. simpl. unfold py_eq.
    by rewrite bool_decide_true.
  - destruct (Hbefore O t0) as (v & Hv & Hne); [lia|done|].
    rewrite Hv. simpl. unfold py_eq. rewrite bool_decide_false by done.
    rewrite (IH i); [done|done|done|].
    intros j t1 Hj Hl. apply (Hbefore (S j) t1); [lia|done].
Qed.

(** ** Construction *)

(** C4 (as amended): constructing the store on a path where no file
    exists, or on a file that can be read as text and whose text
    [json.load] rejects, raises nothing and gives an empty collection with
    next id 1; the file is left as it is. *)
Theorem init_missing_or_invalid (d : document) :
  path_exists d = false \/ read_json d = Raise JSONDecodeError ->
  init d = Ok (mkTaskManager d [] 1).
Proof.
  unfold init, load_tasks. intros [H|H]; rewrite H; [done|].
  by destruct (path_exists d).
Qed.

Lemma init_missing_or_invalid_witness :
  init InvalidJson = Ok (mkTaskManager InvalidJson [] 1).
Proof. apply (init_missing_or_invalid InvalidJson). by right. Defined.

(** C4 (counterexample): a file that is present and is no JSON, because
    its bytes are not even text in the encoding it is opened with, makes
    [__init__] raise: [UnicodeDecodeError] is not among the exceptions that
    the handler of [load_tasks] catches. *)
Lemma init_undecodable_raises :
  path_exists Undecodable = true /\
  (forall ts, read_json Undecodable <> Ok ts) /\
  init Undecodable = Raise UnicodeDecodeError.
Proof. by repeat split. Qed.

(** The handler of [load_tasks] lets through every exception but the two it
    names. *)
Lemma load_tasks_raises (d : document) (e : exn) :
  load_tasks d = Raise e <->
  path_exists d = true /\ read_json d = Raise e /\
  e <> JSONDecodeError /\ e <> FileNotFoundError.
Proof.
  unfold load_tasks. destruct d; cbn; split; try done;
    try (by intros (_ & _ & ? & ?));
    try (by intros (_ & [= <-] & ? & ?)).
  by intros [= <-].
Qed.

(** A file whose records have no usable id makes [__init__] raise. *)
Example init_without_id :
  init (JsonArray [[("title", VStr "Buy milk")]]) = Raise KeyError.
Proof. reflexivity. Qed.

Example init_string_id :
  init (JsonArray [[("id", VStr "7")]]) = Raise TypeError.
Proof. reflexivity. Qed.

Example init_mixed_ids :
  init (JsonArray [[("id", VInt 1)]; [("id", VStr "7")]; []]) = Raise TypeError.
Proof. reflexivity. Qed.

(** ** Read-only methods *)

Lemma read_only_get_task (k : Z) : read_only (get_task k).
Proof. unfold get_task. eauto with read_only. Qed.

Lemma read_only_list_tasks (status priority : option string) :
  read_only (list_tasks status priority).
Proof. unfold list_tasks. eauto 10 with read_only. Qed.

Lemma read_only_search_tasks (query : string) : read_only (search_tasks query).
Proof. unfold search_tasks. eauto with read_only. Qed.

Lemma read_only_get_stats : read_only get_stats.
Proof. unfold get_stats. eauto 10 with read_only. Qed.

(** C10: [get_task], [list_tasks], [search_tasks] and [get_stats] leave the
    collection, the next-id counter and the backing file as they were, for
    every state and every argument, also when they raise. *)
Theorem queries_leave_state_unchanged (s : TaskManager) (k : Z)
    (status priority : option string) (query : string) :
  snd (get_task k s) = s /\
  snd (list_tasks status priority s) = s /\
  snd (search_tasks query s) = s /\
  snd (get_stats s) = s.
Proof.
  split; [apply read_only_get_task|].
  split; [apply read_only_list_tasks|].
  split; [apply read_only_search_tasks | apply read_only_get_stats].
Qed.

(** ** update_task *)

(** C3: when no task has id [k], [update_task] returns [None] without
    raising, and the collection, the counter and the backing file are
    unchanged. *)
Theorem update_task_absent (s : TaskManager) (now : string) (k : Z)
    (kwargs : dict string value) :
  Forall (fun t => exists v, dict_get "id" t = Some v /\ v <> VInt k) (tasks s) ->
  update_task now k kwargs s = (Ok None, s).
Proof.
  intros Habs. unfold update_task, update_task_when, bind, get_tasks, lift. simpl.
  by rewrite (find_id_absent _ _ Habs).
Qed.

Lemma update_task_absent_witness :
  update_task "2024-05-03T12:00:00" 7 [("title", VStr "x")] sample_store
  = (Ok None, sample_store).
Proof.
  apply (update_task_absent sample_store).
  repeat constructor; eexists; (split; [reflexivity | discriminate]).
Defined.

Lemma sample_store_constructed : init (JsonArray sample_tasks) = Ok sample_store.
Proof. reflexivity. Qed.

Lemma update_task_found (s : TaskManager) (now : string) (k : Z)
    (kwargs : dict string value) (i : nat) (t : task) :
  find_id k (tasks s) = Ok (Some (i, t)) ->
  let t' := dict_set "updated_at" (VStr now) (apply_kwargs kwargs t) in
  let ts' := <[i:=t']> (tasks s) in
  update_task now k kwargs s
  = (Ok (Some t'), mkTaskManager (JsonArray ts') ts' (next_id s)).
Proof.
  intros Hfind. unfold update_task, update_task_when, bind, get_tasks, lift. simpl.
  by rewrite Hfind.
Qed.

(** C2: [update_task(k, created_at=...)] overwrites [created_at], and
    [updated_at] becomes the clock reading even when it is earlier than the
    stored one. *)
Lemma update_task_overwrites_created_at :
  (exists t' s',
     update_task "2024-05-03T12:00:00" 1
       [("created_at", VStr "1999-01-01T00:00:00")] sample_store
     = (Ok (Some t'), s') /\
     dict_get "created_at" <$> (sample_tasks !! 0%nat)
     = Some (Some (VStr "2024-05-01T09:00:00")) /\
     dict_get "created_at" <$> (tasks s' !! 0%nat)
     = Some (Some (VStr "1999-01-01T00:00:00")) /\
     dict_get "created_at" t' = Some (VStr "1999-01-01T00:00:00")) /\
  (exists t' s',
     update_task "2024-05-01T23:00:00" 2 [("status", VStr "pending")] sample_store
     = (Ok (Some t'), s') /\
     dict_get "updated_at" <$> (sample_tasks !! 1%nat)
     = Some (Some (VStr "2024-05-02T08:00:00")) /\
     dict_get "updated_at" t' = Some (VStr "2024-05-01T23:00:00") /\
     ~ stamp_le (Some (VStr "2024-05-02T08:00:00")) (dict_get "updated_at" t')).
Proof.
  split; do 2 eexists; (split; [vm_compute; reflexivity|]); repeat split.
  vm_compute. discriminate.
Qed.

(** C2, as the code has it: for the first task with id [k], when
    [created_at] is not among the supplied fields, [update_task] keeps
    [created_at]; it always stores the clock reading as [updated_at], which
    is not before the previous [updated_at] whenever the reading is not. *)
Theorem update_task_timestamps (s : TaskManager) (now : string) (k : Z)
    (kwargs : dict string value) (i : nat) (t : task) :
  tasks s !! i = Some t ->
  dict_get "id" t = Some (VInt k) ->
  (forall j t0, (j < i)%nat -> tasks s !! j = Some t0 ->
     exists v, dict_get "id" t0 = Some v /\ v <> VInt k) ->
  dict_in "created_at" kwargs = false ->
  exists t' s',
    update_task now k kwargs s = (Ok (Some t'), s') /\
    tasks s' = <[i:=t']> (tasks s) /\
    data_file s' = JsonArray (tasks s') /\
    dict_get "created_at" t' = dict_get "created_at" t /\
    dict_get "updated_at" t' = Some (VStr now) /\
    (stamp_le (dict_get "updated_at" t) (Some (VStr now)) ->
     stamp_le (dict_get "updated_at" t) (dict_get "updated_at" t')).
Proof.
  intros Hi Hid Hfirst Hkw.
  pose proof (find_id_first k (tasks s) i t Hi Hid Hfirst) as Hfind.
  do 2 eexists. split; [by apply update_task_found|]. simpl.
  split; [done|]. split; [done|].
  assert (Hup : dict_get "updated_at"
                  (dict_set "updated_at" (VStr now) (apply_kwargs kwargs t))
                = Some (VStr now)) by apply dict_get_set_eq.
  split; [|split; [done | by rewrite Hup]].
  rewrite dict_get_set_ne by done. by apply apply_kwargs_get_other.
Qed.

Lemma update_task_timestamps_witness :
  exists t' s',
    update_task "2024-05-03T12:00:00" 2 [("status", VStr "pending")] sample_store
    = (Ok (Some t'), s') /\
    tasks s' = <[1%nat:=t']> sample_tasks /\
    data_file s' = JsonArray (tasks s') /\
    dict_get "created_at" t' = Some (VStr "2024-05-01T09:30:00") /\
    dict_get "updated_at" t' = Some (VStr "2024-05-03T12:00:00") /\
    (stamp_le (Some (VStr "2024-05-02T08:00:00")) (Some (VStr "2024-05-03T12:00:00")) ->
     stamp_le (Some (VStr "2024-05-02T08:00:00")) (dict_get "updated_at" t')).
Proof.
  apply (update_task_timestamps sample_store "2024-05-03T12:00:00" 2
           [("status", VStr "pending")] 1%nat sample_task2).
  - reflexivity.
  - reflexivity.
  - intros [|j] t0 Hj; [|lia]. intros [= <-]. eexists. split; [reflexivity|discriminate].
  - reflexivity.
Defined.

(** ** add_task and delete_task *)

Lemma add_task_run (s : TaskManager) (now1 now2 title description priority : string) :
  let t := mk_task (next_id s) title description priority "pending" now1 now2 in
  add_task now1 now2 title description priority s
  = (Ok t, mkTaskManager (JsonArray (tasks s ++ [t])) (tasks s ++ [t])
             (next_id s + 1)).
Proof. reflexivity. Qed.

Lemma delete_task_found (s : TaskManager) (k : Z) (i : nat) (t : task) :
  find_id k (tasks s) = Ok (Some (i, t)) ->
  delete_task k s
  = (Ok true, mkTaskManager (JsonArray (delete i (tasks s))) (delete i (tasks s))
                (next_id s)).
Proof.
  intros Hfind. unfold delete_task, delete_task_when, bind, get_tasks, lift. simpl.
  by rewrite Hfind.
Qed.

Lemma delete_task_not_found (s : TaskManager) (k : Z) :
  (forall i t, find_id k (tasks s) <> Ok (Some (i, t))) ->
  snd (delete_task k s) = s.
Proof.
  intros Hfind. unfold delete_task, delete_task_when, bind, get_tasks, lift. simpl.
  destruct (find_id k (tasks s)) as [[[i t]|]|e]; simpl; [|done..].
  by destruct (Hfind i t).
Qed.

Lemma update_task_not_found (s : TaskManager) (now : string) (k : Z)
    (kwargs : dict string value) :
  (forall i t, find_id k (tasks s) <> Ok (Some (i, t))) ->
  snd (update_task now k kwargs s) = s.
Proof.
  intros Hfind. unfold update_task, update_task_when, bind, get_tasks, lift. simpl.
  destruct (find_id k (tasks s)) as [[[i t]|]|e]; simpl; [|done..].
  by destruct (Hfind i t).
Qed.

(** ** The counter stays above the ids *)

Lemma ids_below_weaken (n m : Z) (ts : list task) :
  n <= m -> ids_below n ts -> ids_below m ts.
Proof.
  intros Hnm Hb. eapply Forall_impl; [exact Hb|].
  intros t (z & Hz & Hlt). exists z. split; [done | lia].
Qed.

Lemma ids_below_not_elem (n : Z) (ts : list task) :
  ids_below n ts -> Some (VInt n) ∉ (dict_get "id" <$> ts).
Proof.
  intros Hb Hin. apply list_elem_of_fmap in Hin as (t & Heq & Hin).
  unfold ids_below in Hb. rewrite Forall_forall in Hb.
  destruct (Hb t Hin) as (z & Hz & Hlt). unfold int_id in Hz.
  rewrite <-Heq in Hz. injection Hz as <-. lia.
Qed.

Lemma ids_below_find (n k : Z) (ts : list task) :
  ids_below n ts ->
  (exists i t, find_id k ts = Ok (Some (i, t)) /\ k < n) \/
  find_id k ts = Ok None.
Proof.
  induction 1 as [|t ts (z & Hz & Hlt) _ IH]; simpl; [by right|].
  unfold int_id in Hz. unfold getitem.
  destruct (dict_get "id" t) as [[|z'|]|]; try done. injection Hz as ->.
  simpl. unfold py_eq. case_bool_decide as Heq.
  - left. injection Heq as ->. by exists O, t.
  - destruct IH as [(i & t' & -> & Hk)| ->]; simpl; [|by right].
    left. by exists (S i), t'.
Qed.

Lemma counter_ok_add (s : TaskManager) (a : add_args) :
  counter_ok s -> counter_ok (snd (add_with a s)).
Proof.
  intros Hs. unfold add_with. rewrite add_task_run. simpl.
  unfold counter_ok. simpl. apply Forall_app. split.
  - apply (ids_below_weaken (next_id s)); [lia | done].
  - repeat constructor. exists (next_id s). split; [done | lia].
Qed.

Lemma unique_ids_add (s : TaskManager) (a : add_args) :
  counter_ok s -> unique_ids (tasks s) -> unique_ids (tasks (snd (add_with a s))).
Proof.
  intros Hs Hu. unfold add_with. rewrite add_task_run. simpl.
  unfold unique_ids. rewrite fmap_app. apply NoDup_app.
  split; [done|]. split; [|apply NoDup_singleton].
  intros x Hx Hx'. simpl in Hx'. apply list_elem_of_singleton in Hx'.
  subst x. by apply ids_below_not_elem in Hs.
Qed.

Lemma counter_ok_delete (s : TaskManager) (k : Z) :
  counter_ok s -> counter_ok (snd (delete_task k s)).
Proof.
  intros Hs. destruct (find_id k (tasks s)) as [[[i t]|]|e] eqn:Hfind.
  - rewrite (delete_task_found _ _ _ _ Hfind). by apply Forall_delete.
  - rewrite delete_task_not_found; [done | congruence].
  - rewrite delete_task_not_found; [done | congruence].
Qed.

Lemma unique_ids_delete (s : TaskManager) (k : Z) :
  unique_ids (tasks s) -> unique_ids (tasks (snd (delete_task k s))).
Proof.
  intros Hu. destruct (find_id k (tasks s)) as [[[i t]|]|e] eqn:Hfind.
  - rewrite (delete_task_found _ _ _ _ Hfind). simpl. unfold unique_ids.
    rewrite list_fmap_delete. eapply sublist_NoDup; [exact Hu|]. apply sublist_delete.
  - rewrite delete_task_not_found; [done | congruence].
  - rewrite delete_task_not_found; [done | congruence].
Qed.

Lemma update_keeps_id (now : string) (kwargs : dict string value) (t : task) :
  dict_in "id" kwargs = false ->
  dict_get "id" (dict_set "updated_at" (VStr now) (apply_kwargs kwargs t))
  = dict_get "id" t.
Proof.
  intros Hkw. rewrite dict_get_set_ne by done. by apply apply_kwargs_get_other.
Qed.

Lemma counter_ok_update (s : TaskManager) (now : string) (k : Z)
    (kwargs : dict string value) :
  dict_in "id" kwargs = false ->
  counter_ok s -> counter_ok (snd (update_task now k kwargs s)).
Proof.
  intros Hkw Hs. destruct (find_id k (tasks s)) as [[[i t]|]|e] eqn:Hfind.
  - rewrite (update_task_found _ _ _ _ _ _ Hfind). simpl.
    apply find_id_found in Hfind as [Hi Hid].
    unfold counter_ok. simpl. apply Forall_insert; [done|].
    unfold counter_ok, ids_below in Hs. rewrite Forall_lookup in Hs.
    destruct (Hs i t Hi) as (z & Hz & Hlt). exists z. split; [|done].
    unfold int_id in *. by rewrite update_keeps_id.
  - rewrite update_task_not_found; [done | congruence].
  - rewrite update_task_not_found; [done | congruence].
Qed.

Lemma unique_ids_update (s : TaskManager) (now : string) (k : Z)
    (kwargs : dict string value) :
  dict_in "id" kwargs = false ->
  unique_ids (tasks s) -> unique_ids (tasks (snd (update_task now k kwargs s))).
Proof.
  intros Hkw Hu. destruct (find_id k (tasks s)) as [[[i t]|]|e] eqn:Hfind.
  - rewrite (update_task_found _ _ _ _ _ _ Hfind). simpl.
    apply find_id_found in Hfind as [Hi Hid].
    unfold unique_ids. rewrite list_fmap_insert, update_keeps_id by done.
    rewrite list_insert_id; [done|]. rewrite list_lookup_fmap.
    exact (f_equal (fmap (M:=option) (dict_get "id")) Hi).
  - rewrite update_task_not_found; [done | congruence].
  - rewrite update_task_not_found; [done | congruence].
Qed.

(** ** get_next_id *)

Lemma max_id_int (cur : value) (ts : list task) (m : Z) :
  max_id cur ts = Ok (VInt m) ->
  (exists c, cur = VInt c /\ c <= m) /\ ids_below (m + 1) ts.
Proof.
  revert cur. induction ts as [|t ts IH]; intros cur; simpl.
  - intros [= ->]. split; [exists m; split; [done | lia] | constructor].
  - unfold getitem. destruct (dict_get "id" t) as [v|] eqn:Hv; simpl; [|done].
    unfold py_gt.
    destruct cur as [|c|c], v as [|z|z]; simpl; try done.
    + intros Hmax. apply IH in Hmax as [(c' & Hc' & Hle) Hb].
      assert (c <= m /\ z <= m) as [Hc Hz].
      { destruct (Z.ltb_spec c z); injection Hc' as <-; lia. }
      split; [by exists c|]. constructor; [|done].
      exists z. unfold int_id. rewrite Hv. split; [done | lia].
    + intros Hmax. apply IH in Hmax as [(c' & Hc' & _) _].
      by destruct (String.ltb c z).
Qed.

Lemma max_id_below (c n : Z) (ts : list task) :
  c < n -> ids_below n ts ->
  exists m, max_id (VInt c) ts = Ok (VInt m) /\ c <= m < n.
Proof.
  intros Hc Hb. revert c Hc.
  induction Hb as [|t ts (z & Hz & Hlt) _ IH]; intros c Hc; simpl.
  - exists c. split; [done | lia].
  - unfold int_id in Hz. unfold getitem.
    destruct (dict_get "id" t) as [[|z'|]|]; try done. injection Hz as ->.
    simpl. destruct (Z.ltb_spec c z) as [Hcz|Hcz].
    + destruct (IH z Hlt) as (m & -> & Hm). exists m. split; [done | lia].
    + destruct (IH c Hc) as (m & -> & Hm). exists m. split; [done | lia].
Qed.

(** A successful [get_next_id] returns a number above every id. *)
Lemma get_next_id_above (ts : list task) (n : Z) :
  get_next_id ts = Ok n -> ids_below n ts.
Proof.
  destruct ts as [|t ts]; simpl; [constructor|].
  unfold getitem. destruct (dict_get "id" t) as [v|] eqn:Hv; simpl; [|done].
  destruct (max_id v ts) as [[|m|]|] eqn:Hmax; simpl; try done.
  intros [= <-]. apply max_id_int in Hmax as [(c & -> & Hc) Hb].
  constructor; [|done]. exists c. unfold int_id. rewrite Hv.
  split; [done | lia].
Qed.

(** Below a bound [n] on the ids, [get_next_id] succeeds, and on a
    collection that is not empty it returns at most [n]. *)
Lemma get_next_id_below (ts : list task) (n : Z) :
  ids_below n ts ->
  exists m, get_next_id ts = Ok m /\ (ts <> [] -> m <= n).
Proof.
  destruct 1 as [|t ts (z & Hz & Hlt) Hb]; simpl; [by exists 1|].
  unfold int_id in Hz. unfold getitem.
  destruct (dict_get "id" t) as [[|z'|]|]; try done. injection Hz as ->.
  simpl. destruct (max_id_below z n ts Hlt Hb) as (m & -> & Hm). simpl.
  exists (m + 1). split; [done | lia].
Qed.

(** [get_next_id] returns [n] when the ids are below [n] and [n - 1] is
    one of them. *)
Lemma get_next_id_exact (ts : list task) (n : Z) :
  ids_below n ts ->
  (exists t, t ∈ ts /\ int_id t = Some (n - 1)) ->
  get_next_id ts = Ok n.
Proof.
  intros Hb (t & Hin & Hid).
  destruct (get_next_id_below ts n Hb) as (m & Hm & Hle).
  pose proof (get_next_id_above ts m Hm) as Ha.
  unfold ids_below in Ha. rewrite Forall_forall in Ha.
  destruct (Ha t Hin) as (z & Hz & Hlt).
  assert (ts <> []) as Hne by (intros ->; by apply elem_of_nil in Hin).
  specialize (Hle Hne). rewrite Hm. f_equal. rewrite Hid in Hz.
  injection Hz as <-. lia.
Qed.

(** Every store that [__init__] builds has its counter above its ids. *)
Lemma init_counter_ok (d : document) (s : TaskManager) :
  init d = Ok s -> counter_ok s.
Proof.
  unfold init. destruct (load_tasks d) as [ts|]; [|done]. cbn [rbind].
  destruct (get_next_id ts) as [n|] eqn:Hn; [|done].
  simpl. intros [= <-]. by apply get_next_id_above.
Qed.

Lemma init_empty (d : document) (s : TaskManager) :
  init d = Ok s -> tasks s = [] -> next_id s = 1.
Proof.
  unfold init. destruct (load_tasks d) as [ts|]; [|done]. cbn [rbind].
  destruct (get_next_id ts) as [n|] eqn:Hn; [|done].
  simpl. intros [= <-]. simpl. intros Hts. rewrite Hts in Hn. simpl in Hn.
  congruence.
Qed.

Lemma find_id_none (k : Z) (ts : list task) :
  find_id k ts = Ok None ->
  Forall (fun t => dict_get "id" t <> Some (VInt k)) ts.
Proof.
  induction ts as [|t ts IH]; simpl; [constructor|].
  unfold getitem. destruct (dict_get "id" t) as [v|] eqn:Hv; simpl; [|done].
  unfold py_eq. case_bool_decide as Heq; [done|].
  destruct (find_id k ts) as [[[j t']|]|e]; simpl; [done| |done].
  intros _. constructor; [congruence | by apply IH].
Qed.

(** ** Sequences of calls *)

(** No call removes the key [id] from a task: in every state reached from a
    constructed store, whatever the calls, every task has an id. *)
Lemma run_op_all_have_id (s : TaskManager) (o : op) :
  all_have_id (tasks s) -> all_have_id (tasks (run_op s o)).
Proof.
  intros Hs. destruct o as [a|now k kwargs|k]; cbn [run_op].
  - unfold add_with. rewrite add_task_run. cbn [snd tasks].
    apply Forall_app. split; [done|]. repeat constructor. by eexists.
  - destruct (find_id k (tasks s)) as [[[i t]|]|e] eqn:Hfind.
    + rewrite (update_task_found _ _ _ _ _ _ Hfind). cbn [snd tasks].
      apply find_id_found in Hfind as [Hi Hid].
      apply Forall_insert; [done|].
      apply dict_set_keeps_key, apply_kwargs_keeps_key. rewrite Hid. by eexists.
    + rewrite update_task_not_found; [done | congruence].
    + rewrite update_task_not_found; [done | congruence].
  - destruct (find_id k (tasks s)) as [[[i t]|]|e] eqn:Hfind.
    + rewrite (delete_task_found _ _ _ _ Hfind). by apply Forall_delete.
    + rewrite delete_task_not_found; [done | congruence].
    + rewrite delete_task_not_found; [done | congruence].
Qed.

Lemma reachable_all_have_id (d : document) (s : TaskManager) (ops : list op) :
  init d = Ok s -> all_have_id (tasks (run_ops s ops)).
Proof.
  intros Hinit. assert (all_have_id (tasks s)) as Hs.
  { apply init_counter_ok in Hinit. eapply Forall_impl; [exact Hinit|].
    intros t (z & Hz & _). unfold int_id in Hz.
    destruct (dict_get "id" t); [by eexists | done]. }
  clear Hinit. revert s Hs. unfold run_ops.
  induction ops as [|o ops IH]; intros s Hs; [done|].
  cbn [fold_left]. by apply IH, run_op_all_have_id.
Qed.

(** C9: from the store loaded with three tasks of distinct ids,
    [update_task(1, id=2)] leaves two tasks with id 2. *)
Lemma update_task_can_duplicate_id :
  init (JsonArray sample_tasks) = Ok sample_store /\
  unique_ids (tasks sample_store) /\
  ~ unique_ids
      (tasks (run_ops sample_store
                [Update "2024-05-03T12:00:00" 1 [("id", VInt 2)]])).
Proof.
  split; [reflexivity|]. split.
  - unfold unique_ids. apply (bool_decide_unpack _). by vm_compute.
  - unfold unique_ids. apply (bool_decide_unpack _). by vm_compute.
Qed.

(** C9, as the code has it: in a store whose ids are distinct integers
    below the counter, as [__init__] leaves it, every sequence of
    [add_task], [delete_task] and [update_task] calls that do not supply the
    field [id] leaves the ids pairwise distinct (and below the counter). *)
Theorem unique_ids_preserved (s : TaskManager) (ops : list op) :
  counter_ok s ->
  unique_ids (tasks s) ->
  Forall keeps_id ops ->
  unique_ids (tasks (run_ops s ops)) /\ counter_ok (run_ops s ops).
Proof.
  intros Hc Hu Hops. revert s Hc Hu. unfold run_ops.
  induction Hops as [|o ops Ho _ IH]; intros s Hc Hu; simpl; [done|].
  destruct o as [a|now k kwargs|k]; simpl in *.
  - apply IH; [by apply counter_ok_add | by apply unique_ids_add].
  - apply IH; [by apply counter_ok_update | by apply unique_ids_update].
  - apply IH; [by apply counter_ok_delete | by apply unique_ids_delete].
Qed.

Lemma unique_ids_preserved_witness :
  let ops :=
    [Add (mkAddArgs "2024-05-03T12:00:00" "2024-05-03T12:00:01" "Call Bob" "" "medium");
     Delete 2;
     Update "2024-05-03T13:00:00" 4 [("status", VStr "completed")];
     Add (mkAddArgs "2024-05-03T14:00:00" "2024-05-03T14:00:00" "Pay rent" "" "high")] in
  unique_ids (tasks (run_ops sample_store ops)) /\
  counter_ok (run_ops sample_store ops).
Proof.
  intros ops. apply (unique_ids_preserved sample_store ops).
  - apply (init_counter_ok (JsonArray sample_tasks)). reflexivity.
  - unfold unique_ids. apply (bool_decide_unpack _). by vm_compute.
  - repeat constructor.
Defined.

(** C1: in the store loaded with tasks 1, 2 and 3, deleting task 3 and
    adding a task gives the new task id 4, although the greatest remaining
    id is 2 and [get_next_id] on the remaining tasks is 3. *)
Lemma delete_then_add_skips_id :
  exists s1 t s2,
    init (JsonArray sample_tasks) = Ok sample_store /\
    delete_task 3 sample_store = (Ok true, s1) /\
    add_task "2024-05-03T12:00:00" "2024-05-03T12:00:00" "Call Bob" "" "medium" s1
    = (Ok t, s2) /\
    (dict_get "id" <$> tasks s1) = [Some (VInt 1); Some (VInt 2)] /\
    get_next_id (tasks s1) = Ok 3 /\
    dict_get "id" t = Some (VInt 4).
Proof.
  do 3 eexists. split; [reflexivity|].
  split; [vm_compute; reflexivity|]. split; [vm_compute; reflexivity|].
  repeat split.
Qed.

(** C1, as the code has it: in a store whose counter is above its ids, as
    [__init__] leaves it, deleting a task with id [k] and then adding a task
    gives the new task the value of the counter: it is not [k], it is above
    every remaining id, it is at least what [get_next_id] (1 + the greatest
    id) computes from the remaining tasks when some remain, and it is equal
    to that when a task with id counter - 1 remains. *)
Theorem delete_then_add (s : TaskManager) (k : Z) (a : add_args) :
  counter_ok s ->
  (exists t0, t0 ∈ tasks s /\ dict_get "id" t0 = Some (VInt k)) ->
  exists s1 t s2,
    delete_task k s = (Ok true, s1) /\
    add_with a s1 = (Ok t, s2) /\
    dict_get "id" t = Some (VInt (next_id s)) /\
    next_id s <> k /\
    ids_below (next_id s) (tasks s1) /\
    (exists m, get_next_id (tasks s1) = Ok m /\
               (tasks s1 <> [] -> m <= next_id s)) /\
    ((exists t1, t1 ∈ tasks s1 /\ int_id t1 = Some (next_id s - 1)) ->
     get_next_id (tasks s1) = Ok (next_id s)).
Proof.
  intros Hc (t0 & Hin & Hid).
  destruct (ids_below_find (next_id s) k (tasks s) Hc)
    as [(i & t1 & Hfind & Hk)|Hnone].
  - do 3 eexists. split; [by apply (delete_task_found s k i t1)|].
    unfold add_with. rewrite add_task_run. simpl. split; [done|].
    split; [done|]. split; [lia|].
    assert (ids_below (next_id s) (delete i (tasks s))) as Hb
      by by apply Forall_delete.
    split; [done|]. split; [by apply get_next_id_below|].
    by apply get_next_id_exact.
  - apply find_id_none in Hnone. rewrite Forall_forall in Hnone.
    by destruct (Hnone t0 Hin).
Qed.

Lemma delete_then_add_witness :
  exists s1 t s2,
    delete_task 2 sample_store = (Ok true, s1) /\
    add_with (mkAddArgs "2024-05-03T12:00:00" "2024-05-03T12:00:00" "Call Bob" ""
                "medium") s1 = (Ok t, s2) /\
    dict_get "id" t = Some (VInt 4) /\
    4 <> 2 /\
    ids_below 4 (tasks s1) /\
    (exists m, get_next_id (tasks s1) = Ok m /\ (tasks s1 <> [] -> m <= 4)) /\
    ((exists t1, t1 ∈ tasks s1 /\ int_id t1 = Some (4 - 1)) ->
     get_next_id (tasks s1) = Ok 4).
Proof.
  apply (delete_then_add sample_store 2).
  - apply (init_counter_ok (JsonArray sample_tasks)). reflexivity.
  - exists sample_task2. split; [|reflexivity].
    apply list_elem_of_lookup. by exists 1%nat.
Defined.

(** ** Adding to an empty store *)

Lemma add_all_ids (l : list add_args) (s : TaskManager) :
  exists rs s',
    add_all l s = (Ok rs, s') /\
    (dict_get "id" <$> rs)
    = (fun i => Some (VInt (next_id s + Z.of_nat i))) <$> seq 0 (length l) /\
    tasks s' = tasks s ++ rs.
Proof.
  revert s. induction l as [|a l IH]; intros s.
  - exists [], s. simpl. by rewrite app_nil_r.
  - cbn [add_all]. unfold bind at 1. unfold add_with at 1. rewrite add_task_run.
    set (t := mk_task _ _ _ _ _ _ _).
    set (s1 := mkTaskManager _ _ _).
    destruct (IH s1) as (rs & s' & Hrun & Hids & Hts).
    exists (t :: rs), s'. unfold bind. rewrite Hrun.
    split; [done|]. split.
    + replace (seq 0 (length (a :: l))) with (O :: (S <$> seq 0 (length l)))
        by (cbn [length seq]; by rewrite fmap_S_seq).
      rewrite !fmap_cons, Hids, <-list_fmap_compose.
      f_equal; [cbn; do 2 f_equal; lia|].
      apply list_fmap_ext. intros _ i _. cbn. do 2 f_equal. lia.
    + rewrite Hts. cbn. by rewrite <-app_assoc.
Qed.

(** C8: on a store constructed with an empty collection, [N] calls of
    [add_task] return tasks with the ids 1, 2, ..., N in call order, and
    these are the tasks of the store afterwards. *)
Theorem add_all_from_empty (d : document) (s : TaskManager) (l : list add_args) :
  init d = Ok s ->
  tasks s = [] ->
  exists rs s',
    add_all l s = (Ok rs, s') /\
    (dict_get "id" <$> rs)
    = (fun i => Some (VInt (Z.of_nat i))) <$> seq 1 (length l) /\
    tasks s' = rs.
Proof.
  intros Hinit Hts. pose proof (init_empty d s Hinit Hts) as Hn.
  destruct (add_all_ids l s) as (rs & s' & Hrun & Hids & Hts').
  exists rs, s'. split; [done|]. split; [|by rewrite Hts', Hts].
  rewrite Hids, Hn, <-(fmap_S_seq 0), <-list_fmap_compose.
  apply list_fmap_ext. intros _ i _. simpl. do 2 f_equal. lia.
Qed.

Lemma add_all_from_empty_witness :
  exists rs s',
    add_all
      [mkAddArgs "2024-05-03T12:00:00" "2024-05-03T12:00:00" "Call Bob" "" "medium";
       mkAddArgs "2024-05-03T12:05:00" "2024-05-03T12:05:00" "Pay rent" "" "high"]
      (mkTaskManager Absent [] 1) = (Ok rs, s') /\
    (dict_get "id" <$> rs) = [Some (VInt 1); Some (VInt 2)] /\
    tasks s' = rs.
Proof.
  apply (add_all_from_empty Absent (mkTaskManager Absent [] 1)); reflexivity.
Defined.

(** ** List comprehensions *)

Lemma comprehension_filter (p : task -> result bool) (P : task -> Prop)
    `{forall t, Decision (P t)} (ts : list task) :
  Forall (fun t => p t = Ok (bool_decide (P t))) ts ->
  comprehension p ts = Ok (filter P ts).
Proof.
  induction 1 as [|t ts Ht _ IH]; [done|].
  cbn [comprehension]. rewrite Ht, IH. cbn [rbind].
  rewrite filter_cons. by case_bool_decide; destruct (decide (P t)).
Qed.

Lemma field_is_decides (key : string) (v : value) (t : task) :
  is_Some (dict_get key t) ->
  field_is key v t = Ok (bool_decide (field_eq key v t)).
Proof.
  intros [x Hx]. unfold field_is, getitem, py_eq. rewrite Hx.
  cbn [rbind]. f_equal. apply bool_decide_ext. unfold field_eq. rewrite Hx.
  split; congruence.
Qed.

Lemma comprehension_field_is (key : string) (v : value) (ts : list task) :
  Forall (fun t => is_Some (dict_get key t)) ts ->
  comprehension (field_is key v) ts = Ok (filter (field_eq key v) ts).
Proof.
  intros Hts. apply comprehension_filter.
  eapply Forall_impl; [exact Hts|]. intros t. apply field_is_decides.
Qed.

(** ** Counting by priority *)

Lemma elem_of_first_occurrences (x : value) (l : list value) :
  x ∈ first_occurrences l <-> x ∈ l.
Proof.
  induction l as [|y l IH]; [done|]. cbn [first_occurrences].
  rewrite !elem_of_cons, list_elem_of_filter, IH.
  destruct (decide (x = y)); tauto.
Qed.

Lemma NoDup_first_occurrences (l : list value) : NoDup (first_occurrences l).
Proof.
  induction l as [|y l IH]; [constructor|]. cbn [first_occurrences].
  constructor; [|by apply NoDup_filter].
  rewrite list_elem_of_filter. by intros [Hne _].
Qed.

Lemma first_occurrences_snoc (l : list value) (x : value) :
  first_occurrences (l ++ [x])
  = if decide (x ∈ l) then first_occurrences l else first_occurrences l ++ [x].
Proof.
  induction l as [|y l IH].
  - cbn. rewrite decide_False; [done | by apply not_elem_of_nil].
  - cbn [app first_occurrences]. rewrite IH.
    destruct (decide (x ∈ l)) as [Hin|Hin].
    + rewrite decide_True; [done | by right].
    + rewrite filter_app. destruct (decide (x = y)) as [->|Hne].
      * rewrite decide_True by left.
        rewrite filter_cons_False by (intros Hne; by apply Hne).
        by rewrite filter_nil, app_nil_r.
      * rewrite decide_False by (rewrite elem_of_cons; tauto).
        by rewrite filter_cons_True.
Qed.

Lemma occurrences_snoc (y x : value) (l : list value) :
  occurrences y (l ++ [x])
  = occurrences y l + (if decide (y = x) then 1 else 0).
Proof.
  unfold occurrences. rewrite filter_app, length_app, Nat2Z.inj_add.
  f_equal. rewrite filter_cons. destruct (decide (x = y)) as [->|Hne].
  - by rewrite decide_True.
  - by rewrite decide_False.
Qed.

Lemma occurrences_absent (x : value) (l : list value) :
  x ∉ l -> occurrences x l = 0.
Proof.
  intros Hx. unfold occurrences.
  replace (filter (fun y => y = x) l) with (@nil value); [done|].
  induction l as [|y l IH]; [done|].
  apply not_elem_of_cons in Hx as [Hne Hx].
  rewrite filter_cons_False by congruence. by apply IH.
Qed.

Lemma dict_get_keyed (c : value -> Z) (x : value) (ks : list value) :
  dict_get x ((fun y => (y, c y)) <$> ks)
  = if decide (x ∈ ks) then Some (c x) else None.
Proof.
  induction ks as [|k ks IH]; [done|]. rewrite fmap_cons. cbn [dict_get].
  destruct (decide (x = k)) as [->|Hne].
  - rewrite decide_True; [done | left].
  - rewrite IH. destruct (decide (x ∈ ks)) as [Hin|Hin].
    + rewrite decide_True; [done | by right].
    + rewrite decide_False; [done|]. rewrite elem_of_cons. tauto.
Qed.

Lemma dict_set_keyed_new (c : value -> Z) (x : value) (v : Z) (ks : list value) :
  x ∉ ks ->
  dict_set x v ((fun y => (y, c y)) <$> ks)
  = ((fun y => (y, c y)) <$> ks) ++ [(x, v)].
Proof.
  induction ks as [|k ks IH]; intros Hx; [done|].
  apply not_elem_of_cons in Hx as [Hne Hx].
  rewrite fmap_cons. cbn [dict_set]. rewrite decide_False by done.
  by rewrite IH.
Qed.

Lemma dict_set_keyed_old (c : value -> Z) (x : value) (v : Z) (ks : list value) :
  NoDup ks -> x ∈ ks ->
  dict_set x v ((fun y => (y, c y)) <$> ks)
  = (fun y => (y, if decide (y = x) then v else c y)) <$> ks.
Proof.
  induction 1 as [|k ks Hk Hnd IH]; intros Hx; [by apply elem_of_nil in Hx|].
  rewrite !fmap_cons. cbn [dict_set].
  destruct (decide (x = k)) as [->|Hne].
  - rewrite decide_True by done. f_equal.
    apply list_fmap_ext. intros j y Hy. apply list_elem_of_lookup_2 in Hy.
    rewrite decide_False; [done | congruence].
  - rewrite decide_False by congruence. f_equal. apply IH.
    apply elem_of_cons in Hx as [?|?]; [congruence | done].
Qed.

(** One round of the loop of [get_stats] on the tally of the priorities
    seen so far. *)
Lemma tally_snoc (l : list value) (x : value) :
  dict_set x (default 0 (dict_get x (tally l)) + 1) (tally l) = tally (l ++ [x]).
Proof.
  unfold tally. rewrite dict_get_keyed, first_occurrences_snoc.
  destruct (decide (x ∈ l)) as [Hin|Hin].
  - rewrite decide_True by by apply elem_of_first_occurrences.
    rewrite dict_set_keyed_old;
      [|apply NoDup_first_occurrences | by apply elem_of_first_occurrences].
    apply list_fmap_ext. intros _ y _. cbn. f_equal.
    rewrite occurrences_snoc. destruct (decide (y = x)) as [->|]; [done | lia].
  - rewrite decide_False by by rewrite elem_of_first_occurrences.
    rewrite dict_set_keyed_new by by rewrite elem_of_first_occurrences.
    rewrite fmap_app. cbn. f_equal.
    + apply list_fmap_ext. intros j y Hy. apply list_elem_of_lookup_2 in Hy.
      rewrite elem_of_first_occurrences in Hy. cbn. f_equal.
      rewrite occurrences_snoc, decide_False; [lia | by intros ->].
    + rewrite occurrences_snoc, decide_True, occurrences_absent by done.
      done.
Qed.

Lemma count_priorities_tally (seen : list value) (ts : list task) :
  Forall (fun t => is_Some (dict_get "priority" t)) ts ->
  count_priorities (tally seen) ts = Ok (tally (seen ++ priorities ts)).
Proof.
  intros Hts. revert seen.
  induction Hts as [|t ts [x Hx] _ IH]; intros seen.
  - cbn. by rewrite app_nil_r.
  - cbn [count_priorities]. unfold getitem, priorities. rewrite Hx.
    cbn [rbind omap list_omap]. rewrite Hx, tally_snoc, IH.
    by rewrite <-app_assoc.
Qed.

Lemma count_priorities_from_empty (ts : list task) :
  Forall (fun t => is_Some (dict_get "priority" t)) ts ->
  count_priorities [] ts = Ok (tally (priorities ts)).
Proof. apply (count_priorities_tally []). Qed.

(** ** get_stats *)

(** C7: when every task has a status and a priority, [get_stats] returns the
    size of the collection, the number of tasks whose status is ["pending"],
    the number whose status is ["completed"], and each priority of the
    collection with its number of tasks, keyed in the order of first
    occurrence; the store is unchanged. *)
Theorem get_stats_counts (s : TaskManager) :
  Forall (fun t => is_Some (dict_get "status" t) /\
                   is_Some (dict_get "priority" t)) (tasks s) ->
  get_stats s
  = (Ok {| total := Z.of_nat (length (tasks s));
           pending :=
             Z.of_nat (length (filter (field_eq "status" (VStr "pending")) (tasks s)));
           completed :=
             Z.of_nat (length (filter (field_eq "status" (VStr "completed")) (tasks s)));
           by_priority := tally (priorities (tasks s)) |}, s).
Proof.
  intros Hts. unfold get_stats, bind, get_tasks, lift, ret.
  rewrite !comprehension_field_is
    by (eapply Forall_impl; [exact Hts | by intros t [? ?]]).
  rewrite count_priorities_from_empty
    by (eapply Forall_impl; [exact Hts | by intros t [? ?]]).
  done.
Qed.

Lemma get_stats_counts_witness :
  let ts : list task :=
    [[("priority", VStr "high"); ("status", VStr "pending")];
     [("priority", VStr "high"); ("status", VStr "completed")];
     [("priority", VStr "low"); ("status", VStr "pending")]] in
  get_stats (mkTaskManager (JsonArray ts) ts 1)
  = (Ok {| total := 3; pending := 2; completed := 1;
           by_priority := [(VStr "high", 2); (VStr "low", 1)] |},
     mkTaskManager (JsonArray ts) ts 1).
Proof.
  intros ts. apply (get_stats_counts (mkTaskManager (JsonArray ts) ts 1)).
  repeat constructor; by eexists.
Defined.

(** ** Substrings and case *)

Lemma append_String (c : ascii) (a b : string) :
  String c a +:+ b = String c (a +:+ b).
Proof. reflexivity. Qed.

Lemma append_empty (b : string) : EmptyString +:+ b = b.
Proof. reflexivity. Qed.

Lemma prefix_spec (q s : string) :
  String.prefix q s = true <-> exists post, s = q +:+ post.
Proof.
  revert s. induction q as [|a q IH]; intros s.
  - split; [by exists s | by destruct s].
  - destruct s as [|b s]; cbn [String.prefix]; setoid_rewrite append_String.
    + split; [done | intros [post ?]; discriminate].
    + destruct (ascii_dec a b) as [->|Hne].
      * rewrite IH. split; intros [post Hpost]; exists post; congruence.
      * split; [done | intros [post Hpost]; congruence].
Qed.

Lemma contains_spec (q s : string) :
  contains q s = true <-> exists pre post, s = pre +:+ q +:+ post.
Proof.
  induction s as [|b s IH]; cbn [contains].
  - rewrite orb_false_r, prefix_spec. split.
    + intros [post Hpost]. by exists EmptyString, post.
    + intros ([|c pre] & post & Hs); [by exists post | done].
  - rewrite orb_true_iff, prefix_spec, IH. split.
    + intros [[post Hpost] | (pre & post & ->)].
      * by exists EmptyString, post.
      * by exists (String b pre), post.
    + intros ([|c pre] & post & Hs).
      * left. by exists post.
      * right. exists pre, post. rewrite append_String in Hs. congruence.
Qed.

Lemma ascii_lower_app (a b : string) :
  ascii_lower (a +:+ b) = ascii_lower a +:+ ascii_lower b.
Proof.
  induction a as [|c a IH]; [done|].
  rewrite append_String. cbn [ascii_lower]. by rewrite IH, append_String.
Qed.

Lemma ascii_lower_split (x a b : string) :
  ascii_lower x = a +:+ b ->
  exists x1 x2, x = x1 +:+ x2 /\ ascii_lower x1 = a /\ ascii_lower x2 = b.
Proof.
  revert x. induction a as [|c a IH]; intros x.
  - rewrite append_empty. intros Hx. by exists EmptyString, x.
  - rewrite append_String. destruct x as [|d x]; cbn [ascii_lower]; [done|].
    intros [= Hc Hx]. destruct (IH x Hx) as (x1 & x2 & -> & <- & <-).
    exists (String d x1), x2. cbn [ascii_lower]. by rewrite Hc.
Qed.

(** The code of a character made lower case. *)
Lemma lower_char_code (c : ascii) :
  nat_of_ascii (lower_char c)
  = if is_upper c then (nat_of_ascii c + 32)%nat else nat_of_ascii c.
Proof.
  unfold lower_char, is_upper.
  destruct (Nat.leb 65 (nat_of_ascii c) && Nat.leb (nat_of_ascii c) 90) eqn:E;
    [|done].
  apply andb_true_iff in E as [_ E]. apply Nat.leb_le in E.
  apply nat_ascii_embedding. lia.
Qed.

Lemma same_letter_lower (a b : ascii) :
  same_letter a b = true <-> lower_char a = lower_char b.
Proof.
  assert (lower_char a = lower_char b
          <-> nat_of_ascii (lower_char a) = nat_of_ascii (lower_char b)) as ->.
  { split; [by intros -> |]. intros H.
    by rewrite <- (ascii_nat_embedding (lower_char a)), H, ascii_nat_embedding. }
  rewrite !lower_char_code. unfold same_letter, is_upper.
  destruct (Nat.leb_spec 65 (nat_of_ascii a)), (Nat.leb_spec (nat_of_ascii a) 90),
    (Nat.leb_spec 65 (nat_of_ascii b)), (Nat.leb_spec (nat_of_ascii b) 90);
    cbn [andb orb]; rewrite ?orb_false_r, ?orb_true_iff, ?Nat.eqb_eq; lia.
Qed.

Lemma same_text_lower (q m : string) :
  same_text q m = true <-> ascii_lower q = ascii_lower m.
Proof.
  revert m. induction q as [|a q IH]; intros [|b m]; cbn [same_text ascii_lower];
    try done.
  rewrite andb_true_iff, same_letter_lower, IH. split.
  - by intros [-> ->].
  - by intros [= -> ->].
Qed.

(** ASCII text is its own UTF-8 form, one code point for each byte. *)
Lemma decode_ascii_char (b : ascii) (s : string) :
  (N_of_ascii b <? 0x80)%N = true ->
  decode (String b s) = N_of_ascii b :: decode s.
Proof.
  intros H. cbn [decode]. rewrite H.
  assert ((N_of_ascii b <? 0xC2)%N = true) as ->; [|done].
  apply N.ltb_lt in H. apply N.ltb_lt. lia.
Qed.

Lemma encode_char_ascii (c : ascii) :
  (N_of_ascii c <? 0x80)%N = true ->
  encode_char (N_of_ascii c) = String c EmptyString.
Proof. intros H. unfold encode_char. by rewrite H, ascii_N_embedding. Qed.

(** On an ASCII character the table gives the letters A to Z their
    lower-case forms and leaves the others, whatever stands around. *)
Lemma lower_at_ascii (before : bool) (c : ascii) (rest : list N) :
  (N_of_ascii c <? 0x80)%N = true ->
  lower_at before (N_of_ascii c) rest = [N_of_ascii (lower_char c)] /\
  (N_of_ascii (lower_char c) <? 0x80)%N = true.
Proof.
  destruct c as [[] [] [] [] [] [] [] []]; vm_compute; intros H;
    first [discriminate H | by split].
Qed.

Lemma lower_from_ascii (before : bool) (s : string) :
  ascii_only s = true ->
  encode (lower_from before (decode s)) = ascii_lower s.
Proof.
  revert before. induction s as [|c s IH]; intros before; [done|].
  cbn [ascii_only]. intros [Hc Hs]%andb_true_iff.
  rewrite (decode_ascii_char c s Hc). cbn [lower_from ascii_lower].
  destruct (lower_at_ascii before c (decode s) Hc) as [-> Hl].
  cbn [app encode]. by rewrite (encode_char_ascii _ Hl), IH.
Qed.

(** [str.lower] on ASCII text folds the letters A to Z and nothing else. *)
Lemma lower_ascii (s : string) : ascii_only s = true -> lower s = ascii_lower s.
Proof. apply lower_from_ascii. Qed.

(** The test of [search_tasks] on one string of ASCII text. *)
Lemma contains_lower (q x : string) :
  ascii_only q = true ->
  ascii_only x = true ->
  contains (lower q) (lower x) = true <-> ci_substring q x.
Proof.
  intros Hq Hx. rewrite (lower_ascii q Hq), (lower_ascii x Hx), contains_spec.
  split.
  - intros (a & b & Hs).
    apply ascii_lower_split in Hs as (pre & rest & -> & <- & Hrest).
    apply ascii_lower_split in Hrest as (mid & post & -> & Hmid & <-).
    exists pre, mid, post. split; [done|]. by apply same_text_lower.
  - intros (pre & mid & post & -> & Hmid%same_text_lower).
    exists (ascii_lower pre), (ascii_lower post).
    by rewrite !ascii_lower_app, Hmid.
Qed.

(** ** search_tasks *)

Lemma matches_decides (q : string) (t : task) (x y : string) :
  dict_get "title" t = Some (VStr x) ->
  dict_get "description" t = Some (VStr y) ->
  matches (lower q) t
  = Ok (contains (lower q) (lower x) || contains (lower q) (lower y)).
Proof.
  intros Hx Hy. unfold matches, getitem. rewrite Hx, Hy.
  cbn [rbind py_lower]. by destruct (contains (lower q) (lower x)).
Qed.

Lemma comprehension_bool (p : task -> result bool) (f : task -> bool)
    (ts : list task) :
  Forall (fun t => p t = Ok (f t)) ts ->
  comprehension p ts = Ok (List.filter f ts).
Proof.
  induction 1 as [|t ts Ht _ IH]; [done|].
  cbn [comprehension List.filter]. by rewrite Ht, IH.
Qed.

Lemma search_test_hit (q : string) (t : task) :
  ascii_only q = true ->
  has_ascii_text t ->
  search_test q t = true <-> search_hit q t.
Proof.
  intros Hq [(x & Hx & Hax) (y & Hy & Hay)]. unfold search_test, search_hit.
  rewrite Hx, Hy, orb_true_iff, !contains_lower by done. split.
  - intros [H|H]; [left; by exists x | right; by exists y].
  - intros [(x' & [= <-] & H)|(y' & [= <-] & H)]; [by left | by right].
Qed.

(** What [search_tasks] computes on tasks whose title and description are
    strings. *)
Lemma search_tasks_run (s : TaskManager) (query : string) :
  Forall has_text (tasks s) ->
  search_tasks query s = (Ok (List.filter (search_test query) (tasks s)), s).
Proof.
  intros Hts. unfold search_tasks, bind, get_tasks, lift.
  rewrite (comprehension_bool _ (search_test query)); [done|].
  eapply Forall_impl; [exact Hts|]. intros t [[x Hx] [y Hy]].
  rewrite (matches_decides query t x y Hx Hy).
  unfold search_test. by rewrite Hx, Hy.
Qed.

(** C6 (as amended): when every task has a string title and a string
    description, [search_tasks] returns, in the order of the collection, the
    tasks for which the lower-case form of the query occurs in the
    lower-case form of the title or of the description, and the store is
    unchanged. For a query and a task of ASCII text that is: the title or
    the description contains the query, the case of letters ignored. *)
Theorem search_tasks_selects (s : TaskManager) (query : string) :
  Forall has_text (tasks s) ->
  search_tasks query s
  = (Ok (List.filter (search_test query) (tasks s)), s) /\
  (ascii_only query = true ->
   forall t, has_ascii_text t ->
     search_test query t = true <-> search_hit query t).
Proof.
  intros Hts. split; [by apply search_tasks_run|].
  intros Hq t Ht. by apply search_test_hit.
Qed.

Lemma search_tasks_selects_witness :
  search_tasks "API" sample_store
  = (Ok [sample_task1; sample_task2], sample_store) /\
  search_hit "API" sample_task1 /\
  search_hit "API" sample_task2 /\
  ~ search_hit "API" sample_task3.
Proof.
  destruct (search_tasks_selects sample_store "API") as [Hrun Hhit].
  { repeat constructor; by eexists. }
  specialize (Hhit eq_refl).
  split; [exact Hrun|].
  split; [|split].
  - apply Hhit; [|done]. split; eexists; (split; [reflexivity|done]).
  - apply Hhit; [|done]. split; eexists; (split; [reflexivity|done]).
  - intros H. apply Hhit in H; [done|].
    split; eexists; (split; [reflexivity|done]).
Defined.

(** C6 (counterexample): the title [ΑΣΑ] contains the query [ΑΣ] as it
    stands, and yet [search_tasks] does not return the task. The sigma that
    ends the query becomes a final sigma in lower case, the one inside the
    title does not, so the lower-case query does not occur in the
    lower-case title. *)
Lemma search_tasks_misses_final_sigma :
  let t := mk_task 1 "ΑΣΑ" "" "medium" "pending"
             "2024-05-01T09:00:00" "2024-05-01T09:00:00" in
  let s := mkTaskManager (JsonArray [t]) [t] 2 in
  lower "ΑΣ" = "ας" /\
  lower "ΑΣΑ" = "ασα" /\
  search_hit "ΑΣ" t /\
  search_tasks "ΑΣ" s = (Ok [], s).
Proof.
  intros t s. split; [by vm_compute|]. split; [by vm_compute|].
  split; [|by vm_compute].
  left. exists "ΑΣΑ". split; [done|].
  by exists "", "ΑΣ", "Α".
Qed.

(** On the sample store the query ["API"] finds the task titled
    ["Design api layer"] and the task whose description mentions
    ["api endpoint"], and not the third task. *)
Example search_api :
  fst (search_tasks "API" sample_store) = Ok [sample_task1; sample_task2].
Proof. by vm_compute. Qed.

(** Outside ASCII the lower-case form is that of Unicode. *)
Example lower_accented : lower "ÉCOLE" = "école".
Proof. by vm_compute. Qed.

Example search_accented :
  let t := mk_task 1 "ÉCOLE" "" "medium" "pending"
             "2024-05-01T09:00:00" "2024-05-01T09:00:00" in
  let s := mkTaskManager (JsonArray [t]) [t] 2 in
  search_tasks "école" s = (Ok [t], s).
Proof. by vm_compute. Qed.

(** ** sorted *)

Lemma decorate_keyed (ts : list task) :
  Forall (fun t => is_Some (int_id t)) ts ->
  exists d, decorate ts = Ok d /\ keyed d /\ snd <$> d = ts.
Proof.
  induction 1 as [|t ts [z Hz] _ (d & Hd & Hk & Hsnd)].
  - exists []. split; [done|]. split; [constructor | done].
  - exists ((VInt z, t) :: d). cbn [decorate]. rewrite Hd.
    unfold int_id in Hz. unfold getitem.
    destruct (dict_get "id" t) as [[|z'|]|] eqn:Hid; try done.
    injection Hz as ->. split; [done|]. split.
    + constructor; [|done]. exists z. cbn [fst snd]. unfold int_id.
      by rewrite Hid.
    + by rewrite fmap_cons, Hsnd.
Qed.

Lemma id_le_trans (a b c : task) : id_le a b -> id_le b c -> id_le a c.
Proof.
  unfold id_le. destruct (int_id a), (int_id b), (int_id c); try done. lia.
Qed.

Lemma insert_by_key_sorted (z : Z) (x : task) (l : list (value * task)) :
  int_id x = Some z ->
  keyed l ->
  StronglySorted id_le (snd <$> l) ->
  exists r,
    insert_by_key (VInt z) x l = Ok r /\
    snd <$> r ≡ₚ x :: (snd <$> l) /\
    keyed r /\
    StronglySorted id_le (snd <$> r).
Proof.
  intros Hx Hk. induction Hk as [|[k' y] l (z' & Hk' & Hy) Hk IH]; intros Hs.
  - exists [(VInt z, x)]. split; [done|]. split; [done|]. split.
    + repeat constructor. by exists z.
    + repeat constructor.
  - cbn in Hk', Hy. subst k'. rewrite fmap_cons in Hs. cbn [snd] in Hs.
    apply StronglySorted_inv in Hs as [Hs Hall].
    cbn [insert_by_key py_lt rbind]. destruct (Z.ltb_spec z' z) as [Hlt|Hge].
    + destruct (IH Hs) as (r & -> & Hperm & Hkr & Hsr). cbn [rbind].
      exists ((VInt z', y) :: r). split; [done|]. rewrite !fmap_cons. cbn [snd].
      split; [by rewrite Hperm, Permutation_swap|].
      split; [constructor; [by exists z' | done]|].
      constructor; [done|]. rewrite Hperm. constructor; [|done].
      unfold id_le. rewrite Hy, Hx. lia.
    + exists ((VInt z, x) :: (VInt z', y) :: l). split; [done|].
      rewrite !fmap_cons. cbn [snd]. split; [done|].
      split; [constructor; [by exists z|]; constructor; [by exists z' | done]|].
      assert (id_le x y) as Hxy by (unfold id_le; rewrite Hx, Hy; lia).
      constructor; [by constructor|]. constructor; [done|].
      eapply Forall_impl; [exact Hall|]. intros t. by apply id_le_trans.
Qed.

Lemma sort_by_key_sorted (d : list (value * task)) :
  keyed d ->
  exists r,
    sort_by_key d = Ok r /\
    snd <$> r ≡ₚ snd <$> d /\
    keyed r /\
    StronglySorted id_le (snd <$> r).
Proof.
  induction 1 as [|[k x] d (z & Hk & Hx) _ (r0 & Hr0 & Hperm & Hkr & Hsr)].
  - exists []. split; [done|]. split; [done|]. split; constructor.
  - cbn in Hk, Hx. subst k. cbn [sort_by_key]. rewrite Hr0. cbn [rbind].
    destruct (insert_by_key_sorted z x r0 Hx Hkr Hsr) as (r & Hr & Hp & Hk' & Hs).
    exists r. split; [done|]. split; [|done].
    rewrite Hp, fmap_cons. cbn [snd]. by rewrite Hperm.
Qed.

(** On tasks with integer ids [sorted(ts, key=lambda x: x['id'])] returns
    the same tasks in non-decreasing order of id. *)
Lemma sorted_by_id_sorted (ts : list task) :
  Forall (fun t => is_Some (int_id t)) ts ->
  exists l, sorted_by_id ts = Ok l /\ l ≡ₚ ts /\ StronglySorted id_le l.
Proof.
  intros Hts. destruct (decorate_keyed ts Hts) as (d & Hd & Hk & Hsnd).
  destruct (sort_by_key_sorted d Hk) as (r & Hr & Hperm & _ & Hs).
  exists (snd <$> r). unfold sorted_by_id. rewrite Hd. cbn [rbind].
  rewrite Hr. cbn [rbind]. split; [done|]. split; [by rewrite Hperm, Hsnd | done].
Qed.

(** ** list_tasks *)

Lemma filter_all (P : task -> Prop) `{forall t, Decision (P t)} (ts : list task) :
  (forall t, P t) -> filter P ts = ts.
Proof.
  intros HP. induction ts as [|t ts IH]; [done|].
  by rewrite filter_cons_True, IH.
Qed.

(** One filtering step of [list_tasks]. *)
Lemma filter_if_passes (key : string) (arg : option string) (ts : list task) :
  Forall (fun t => is_Some (dict_get key t)) ts ->
  filter_if key arg ts = Ok (filter (passes key arg) ts).
Proof.
  intros Hts. destruct arg as [v|]; cbn [filter_if].
  - destruct (String.eqb_spec v "") as [->|Hne].
    + by rewrite filter_all.
    + rewrite comprehension_field_is by done. f_equal.
      apply list_filter_iff. intros t. cbn. by rewrite decide_False.
  - by rewrite filter_all.
Qed.

(** C5: when every task has an integer id, a status and a priority,
    [list_tasks] returns the tasks that pass every filter supplied and not
    empty, each once per occurrence in the collection, in non-decreasing
    order of id; without filters these are all the tasks. The store is
    unchanged. *)
Theorem list_tasks_filters_and_sorts (s : TaskManager)
    (status priority : option string) :
  Forall (fun t => is_Some (int_id t) /\
                   is_Some (dict_get "status" t) /\
                   is_Some (dict_get "priority" t)) (tasks s) ->
  exists l,
    list_tasks status priority s = (Ok l, s) /\
    l ≡ₚ filter (fun t => passes "priority" priority t /\
                          passes "status" status t) (tasks s) /\
    StronglySorted id_le l /\
    (status = None -> priority = None -> l ≡ₚ tasks s).
Proof.
  intros Hts.
  assert (Forall (fun t => is_Some (dict_get "status" t)) (tasks s)) as Hst
    by (eapply Forall_impl; [exact Hts | by intros t (? & ? & ?)]).
  assert (Forall (fun t => is_Some (dict_get "priority" t))
            (filter (passes "status" status) (tasks s))) as Hpr.
  { apply Forall_forall. intros t Ht. apply list_elem_of_filter in Ht as [_ Ht].
    rewrite Forall_forall in Hts. by destruct (Hts t Ht) as (? & ? & ?). }
  set (sel := filter (fun t => passes "priority" priority t /\
                               passes "status" status t) (tasks s)).
  assert (Forall (fun t => is_Some (int_id t)) sel) as Hid.
  { apply Forall_forall. intros t Ht. apply list_elem_of_filter in Ht as [_ Ht].
    rewrite Forall_forall in Hts. by destruct (Hts t Ht) as (? & ? & ?). }
  destruct (sorted_by_id_sorted sel Hid) as (l & Hl & Hperm & Hsorted).
  exists l. split; [|split; [done|split; [done|]]].
  - unfold list_tasks, bind, get_tasks, lift.
    rewrite (filter_if_passes "status" status (tasks s) Hst).
    rewrite (filter_if_passes "priority" priority _ Hpr).
    rewrite list_filter_filter. fold sel. by rewrite Hl.
  - intros -> ->. rewrite Hperm. unfold sel. by rewrite filter_all.
Qed.

Lemma list_tasks_filters_and_sorts_witness :
  exists l,
    list_tasks (Some "completed") None sample_store = (Ok l, sample_store) /\
    l ≡ₚ filter (fun t => passes "priority" None t /\
                          passes "status" (Some "completed") t) sample_tasks /\
    StronglySorted id_le l /\
    (Some "completed" = None -> @None string = None -> l ≡ₚ sample_tasks).
Proof.
  apply (list_tasks_filters_and_sorts sample_store (Some "completed") None).
  repeat constructor; by eexists.
Defined.

(** Whatever the order of the collection, [list_tasks()] is in order of
    id. *)
Example list_all_sorted :
  let ts := [sample_task3; sample_task1; sample_task2] in
  fst (list_tasks None None (mkTaskManager (JsonArray ts) ts 4))
  = Ok [sample_task1; sample_task2; sample_task3].
Proof. reflexivity. Qed.

(** On the sample store [list_tasks(status="completed")] is the one
    completed task. *)
Example list_completed :
  fst (list_tasks (Some "completed") None sample_store) = Ok [sample_task2].
Proof. reflexivity. Qed.

(** * Further properties of the store *)

(** ** The scan never raises on tasks that have an id *)

Lemma find_id_total (k : Z) (ts : list task) :
  all_have_id ts -> exists r, find_id k ts = Ok r.
Proof.
  induction 1 as [|t ts [v Hv] _ [r IH]]; cbn [find_id]; [by eexists|].
  unfold getitem. rewrite Hv. cbn [rbind].
  destruct (py_eq v (VInt k)); [by eexists|]. rewrite IH. by eexists.
Qed.

Lemma find_id_before (k : Z) (ts : list task) (i : nat) (t : task) :
  find_id k ts = Ok (Some (i, t)) ->
  forall j t0, (j < i)%nat -> ts !! j = Some t0 ->
    exists v, dict_get "id" t0 = Some v /\ v <> VInt k.
Proof.
  revert i. induction ts as [|t1 ts IH]; intros i; cbn [find_id]; [done|].
  unfold getitem. destruct (dict_get "id" t1) as [v|] eqn:Hv; cbn [rbind]; [|done].
  unfold py_eq. case_bool_decide as Heq.
  - intros [= <- <-] j t0 Hj. lia.
  - destruct (find_id k ts) as [[[i' t']|]|e]; cbn [rbind]; [|done..].
    intros [= <- <-] [|j] t0 Hj Hl.
    + injection Hl as <-. by exists v.
    + apply (IH i' eq_refl j t0); [lia | done].
Qed.

(** ** What a call does to the state *)

(** A call leaves the state as it was, or it rewrote the collection and
    saved it, keeping the counter or adding one to it. *)
Lemma run_op_effect (s : TaskManager) (o : op) :
  run_op s o = s \/
  exists ts n, run_op s o = mkTaskManager (JsonArray ts) ts n /\
               n = next_id s + (if is_add o then 1 else 0).
Proof.
  destruct o as [a|now k kwargs|k]; cbn [run_op is_add].
  - right. unfold add_with. rewrite add_task_run. cbn [snd]. by do 2 eexists.
  - destruct (find_id k (tasks s)) as [[[i t]|]|e] eqn:Hfind.
    + right. rewrite (update_task_found _ _ _ _ _ _ Hfind). cbn [snd].
      do 2 eexists. split; [done | lia].
    + left. rewrite update_task_not_found; [done | congruence].
    + left. rewrite update_task_not_found; [done | congruence].
  - destruct (find_id k (tasks s)) as [[[i t]|]|e] eqn:Hfind.
    + right. rewrite (delete_task_found _ _ _ _ Hfind). cbn [snd].
      do 2 eexists. split; [done | lia].
    + left. rewrite delete_task_not_found; [done | congruence].
    + left. rewrite delete_task_not_found; [done | congruence].
Qed.

Lemma run_ops_snoc (s : TaskManager) (ops : list op) (o : op) :
  run_ops s (ops ++ [o]) = run_op (run_ops s ops) o.
Proof. unfold run_ops. by rewrite fold_left_app. Qed.

Lemma init_in_sync (d : document) (s : TaskManager) : init d = Ok s -> in_sync s.
Proof.
  unfold init, in_sync. destruct (load_tasks d) as [ts|] eqn:Hl; [|done].
  cbn [rbind]. destruct (get_next_id ts); [|done]. cbn [rbind]. by intros [= <-].
Qed.

Lemma run_ops_in_sync (s : TaskManager) (ops : list op) :
  in_sync s -> in_sync (run_ops s ops).
Proof.
  intros Hs. induction ops as [|o ops IH] using rev_ind; [done|].
  rewrite run_ops_snoc.
  destruct (run_op_effect (run_ops s ops) o) as [->|(ts & n & -> & _)]; done.
Qed.

(** What the outcome of the write changes in a call: the file and nothing
    else. The call leaves the state as it was and does not come to the
    write, or it changes the collection as it does when the write
    completes, and the file is what the write makes of it. *)
Lemma run_op_when_effect (w : write) (s : TaskManager) (o : op) :
  (run_op s o = s /\ run_op_when w s o = s) \/
  exists ts n,
    run_op s o = mkTaskManager (JsonArray ts) ts n /\
    run_op_when w s o = mkTaskManager (written_file w (data_file s) ts) ts n.
Proof.
  destruct o as [a|now k kwargs|k]; cbn [run_op run_op_when].
  - right. unfold add_with. rewrite add_task_run. cbn [snd].
    do 2 eexists. split; [done|]. by destruct w.
  - destruct (find_id k (tasks s)) as [[[i t]|]|e] eqn:Hfind.
    + right. rewrite (update_task_found _ _ _ _ _ _ Hfind). cbn [snd].
      do 2 eexists. split; [done|].
      unfold update_task_when, bind, get_tasks, lift. simpl. rewrite Hfind.
      by destruct w.
    + left. split; [rewrite update_task_not_found; [done | congruence]|].
      unfold update_task_when, bind, get_tasks, lift. simpl. by rewrite Hfind.
    + left. split; [rewrite update_task_not_found; [done | congruence]|].
      unfold update_task_when, bind, get_tasks, lift. simpl. by rewrite Hfind.
  - destruct (find_id k (tasks s)) as [[[i t]|]|e] eqn:Hfind.
    + right. rewrite (delete_task_found _ _ _ _ Hfind). cbn [snd].
      do 2 eexists. split; [done|].
      unfold delete_task_when, bind, get_tasks, lift. simpl. rewrite Hfind.
      by destruct w.
    + left. split; [rewrite delete_task_not_found; [done | congruence]|].
      unfold delete_task_when, bind, get_tasks, lift. simpl. by rewrite Hfind.
    + left. split; [rewrite delete_task_not_found; [done | congruence]|].
      unfold delete_task_when, bind, get_tasks, lift. simpl. by rewrite Hfind.
Qed.

(** A call whose write fails raises [OSError] after it has changed the
    collection. *)
Example add_task_refused :
  let a := mkAddArgs "2024-05-03T12:00:00" "2024-05-03T12:00:01" "Call Bob" ""
             "medium" in
  let t := mk_task 4 "Call Bob" "" "medium" "pending" "2024-05-03T12:00:00"
             "2024-05-03T12:00:01" in
  add_task_when Refused (arg_now1 a) (arg_now2 a) (arg_title a)
    (arg_description a) (arg_priority a) sample_store
  = (Raise OSError,
     mkTaskManager (JsonArray sample_tasks) (sample_tasks ++ [t]) 5).
Proof. reflexivity. Qed.



(** X2: the counter moves only on [add_task], by one each time: after any
    sequence of calls it is the counter before plus the number of
    [add_task] calls; it never goes down. *)
Theorem counter_counts_adds (s : TaskManager) (ops : list op) :
  next_id (run_ops s ops) = next_id s + count_adds ops.
Proof.
  induction ops as [|o ops IH] using rev_ind.
  - unfold count_adds. cbn. lia.
  - rewrite run_ops_snoc. unfold count_adds in *.
    rewrite List.filter_app, length_app, Nat2Z.inj_add.
    destruct (run_op_effect (run_ops s ops) o) as [Heq|(ts & n & Heq & ->)].
    + rewrite Heq, IH. destruct o as [a| |]; cbn; [|lia..].
      exfalso. cbn [run_op] in Heq. unfold add_with in Heq.
      rewrite add_task_run in Heq.
      apply (f_equal next_id) in Heq. cbn in Heq. lia.
    + rewrite Heq. cbn [next_id]. rewrite IH. destruct o; cbn; lia.
Qed.

(** ** Reloading the file *)

Lemma run_ops_counter_ok (s : TaskManager) (ops : list op) :
  counter_ok s -> Forall keeps_id ops -> counter_ok (run_ops s ops).
Proof.
  intros Hs Hops. revert s Hs. unfold run_ops.
  induction Hops as [|o ops Ho _ IH]; intros s Hs; [done|]. cbn [fold_left].
  apply IH. destruct o as [a|now k kwargs|k]; cbn [run_op].
  - by apply counter_ok_add.
  - by apply counter_ok_update.
  - by apply counter_ok_delete.
Qed.

Lemma init_reload (s : TaskManager) :
  in_sync s -> counter_ok s ->
  exists n, init (data_file s) = Ok (mkTaskManager (data_file s) (tasks s) n) /\
            (tasks s <> [] -> n <= next_id s).
Proof.
  intros Hsync Hc. unfold init. rewrite Hsync. cbn [rbind].
  destruct (get_next_id_below (tasks s) (next_id s) Hc) as (m & -> & Hm).
  by exists m.
Qed.

(** X3: after any sequence of [add_task], [delete_task] and [update_task]
    calls that do not supply [id] on a constructed store, all with
    completed writes, constructing a store from the file again succeeds and
    gives the same collection, in the same order; its counter is not above
    the old one when tasks remain. After a further call whose write fails,
    constructing a store from the file succeeds too, and gives the
    collection as it was before that call, or the empty collection when
    the write broke off: what the call changed is lost. *)
Theorem reload_gives_collection (d : document) (s : TaskManager) (ops : list op)
    (w : write) (o : op) :
  init d = Ok s ->
  Forall keeps_id ops ->
  let s0 := run_ops s ops in
  (exists s',
     init (data_file s0) = Ok s' /\
     tasks s' = tasks s0 /\
     (tasks s' <> [] -> next_id s' <= next_id s0)) /\
  (w <> Completes ->
   exists s',
     init (data_file (run_op_when w s0 o)) = Ok s' /\
     (w = Refused -> tasks s' = tasks s0) /\
     (tasks s' = tasks s0 \/ tasks s' = [])).
Proof.
  intros Hinit Hops s0.
  destruct (init_reload s0) as (n & Hn & Hle).
  { by apply run_ops_in_sync, (init_in_sync d). }
  { by apply run_ops_counter_ok; [apply (init_counter_ok d)|]. }
  split; [eexists; split; [exact Hn|]; by split|].
  intros Hw.
  destruct (run_op_when_effect w s0 o) as [[_ ->]|(ts & m & _ & ->)].
  - eexists. split; [exact Hn|]. split; [done | by left].
  - cbn [data_file]. destruct w; [done| |]; cbn [written_file].
    + eexists. split; [exact Hn|]. split; [done | by left].
    + eexists. split; [reflexivity|]. split; [done | by right].
Qed.

Lemma reload_gives_collection_witness :
  let ops :=
    [Add (mkAddArgs "2024-05-03T12:00:00" "2024-05-03T12:00:01" "Call Bob" "" "medium");
     Delete 4; Update "2024-05-03T13:00:00" 1 [("status", VStr "completed")]] in
  let s0 := run_ops sample_store ops in
  (exists s',
     init (data_file s0) = Ok s' /\
     tasks s' = tasks s0 /\
     (tasks s' <> [] -> next_id s' <= next_id s0)) /\
  (BreaksOff <> Completes ->
   exists s',
     init (data_file (run_op_when BreaksOff s0 (Delete 3))) = Ok s' /\
     (BreaksOff = Refused -> tasks s' = tasks s0) /\
     (tasks s' = tasks s0 \/ tasks s' = [])).
Proof.
  intros ops.
  apply (reload_gives_collection (JsonArray sample_tasks) sample_store ops
           BreaksOff (Delete 3)).
  - reflexivity.
  - repeat constructor.
Defined.

(** X4: right after an [add_task] on a store whose counter is above its
    ids, constructing a store from the file gives back the very same state,
    counter included. *)
Theorem reload_after_add (s : TaskManager) (a : add_args) :
  counter_ok s ->
  init (data_file (snd (add_with a s))) = Ok (snd (add_with a s)).
Proof.
  intros Hc. pose proof (counter_ok_add s a Hc) as Hc'. revert Hc'.
  unfold add_with. rewrite add_task_run. cbn [snd]. intros Hc'.
  unfold init. cbn [data_file load_tasks path_exists read_json rbind].
  rewrite (get_next_id_exact _ (next_id s + 1)); [done | exact Hc' |].
  eexists. split; [apply elem_of_app; right; apply list_elem_of_singleton; done|].
  unfold int_id. cbn. f_equal. lia.
Qed.

Lemma reload_after_add_witness :
  let a := mkAddArgs "2024-05-03T12:00:00" "2024-05-03T12:00:01" "Call Bob" ""
             "medium" in
  init (data_file (snd (add_with a sample_store))) = Ok (snd (add_with a sample_store)).
Proof.
  intros a. apply reload_after_add.
  apply (init_counter_ok (JsonArray sample_tasks)). reflexivity.
Defined.

Lemma unique_ids_others (ts : list task) (i j : nat) (t t0 : task) :
  unique_ids ts ->
  ts !! i = Some t -> ts !! j = Some t0 -> i <> j ->
  dict_get "id" t0 <> dict_get "id" t.
Proof.
  intros Hu Hi Hj Hij Heq. apply Hij.
  apply (NoDup_lookup _ i j (dict_get "id" t) Hu).
  - rewrite list_lookup_fmap.
    exact (f_equal (fmap (M:=option) (dict_get "id")) Hi).
  - rewrite list_lookup_fmap, <-Heq.
    exact (f_equal (fmap (M:=option) (dict_get "id")) Hj).
Qed.

(** With distinct ids, no other task has the id of the task deleted. *)
Lemma unique_ids_delete_absent (ts : list task) (i : nat) (t : task) :
  unique_ids ts ->
  ts !! i = Some t ->
  Forall (fun t0 => dict_get "id" t0 <> dict_get "id" t) (delete i ts).
Proof.
  intros Hu Hi. apply Forall_lookup. intros j t0 Hj.
  destruct (decide (j < i)%nat) as [Hlt|Hge].
  - rewrite list_lookup_delete_lt in Hj by done.
    apply (unique_ids_others ts i j t t0 Hu Hi Hj). lia.
  - rewrite list_lookup_delete_ge in Hj by lia.
    apply (unique_ids_others ts i (S j) t t0 Hu Hi Hj). lia.
Qed.

(** X5: the counter is not stored in the file. With distinct ids of which
    [k >= 1] is the greatest, deleting task [k] and constructing a store
    from the file gives a counter of at most [k]: the next [add_task]
    returns an id not above [k], and [k] itself when a task with id
    [k - 1] remains. *)
Theorem reload_after_delete_reuses_id (s : TaskManager) (k : Z) (a : add_args) :
  unique_ids (tasks s) ->
  ids_below (k + 1) (tasks s) ->
  1 <= k ->
  (exists t0, t0 ∈ tasks s /\ dict_get "id" t0 = Some (VInt k)) ->
  exists s1 s2 t s3 n,
    delete_task k s = (Ok true, s1) /\
    init (data_file s1) = Ok s2 /\
    add_with a s2 = (Ok t, s3) /\
    dict_get "id" t = Some (VInt n) /\
    n <= k /\
    ((exists t1, t1 ∈ tasks s1 /\ int_id t1 = Some (k - 1)) -> n = k).
Proof.
  intros Hu Hb Hk (t0 & Hin & Hid0).
  destruct (ids_below_find (k + 1) k (tasks s) Hb) as [(i & t & Hfind & _)|Hnone].
  2:{ apply find_id_none in Hnone. rewrite Forall_forall in Hnone.
      by destruct (Hnone t0 Hin). }
  pose proof (find_id_found _ _ _ _ Hfind) as [Hi Hid].
  assert (ids_below k (delete i (tasks s))) as Hrest.
  { pose proof (unique_ids_delete_absent _ _ _ Hu Hi) as Hne.
    pose proof (Forall_delete _ _ i Hb) as Hb'.
    unfold ids_below. rewrite Forall_forall in Hne, Hb'. apply Forall_forall.
    intros t1 Ht1. destruct (Hb' t1 Ht1) as (z & Hz & Hlt).
    exists z. split; [done|]. assert (z <> k); [|lia]. intros ->.
    apply (Hne t1 Ht1). rewrite Hid. unfold int_id in Hz.
    by destruct (dict_get "id" t1) as [[| |]|]; simplify_eq. }
  destruct (get_next_id_below _ _ Hrest) as (n & Hn & Hle).
  exists (mkTaskManager (JsonArray (delete i (tasks s))) (delete i (tasks s))
            (next_id s)).
  do 3 eexists. exists n.
  split; [by apply (delete_task_found s k i t)|].
  split; [unfold init; cbn [data_file load_tasks path_exists read_json rbind]; by rewrite Hn|].
  unfold add_with. rewrite add_task_run. cbn [next_id tasks].
  split; [done|]. split; [done|]. split.
  - destruct (delete i (tasks s)) as [|t1 l] eqn:Hl; [|by apply Hle].
    cbn in Hn. injection Hn as <-. done.
  - intros Hpred. pose proof (get_next_id_exact _ k Hrest Hpred). congruence.
Qed.

Lemma reload_after_delete_reuses_id_witness :
  let a := mkAddArgs "2024-05-03T12:00:00" "2024-05-03T12:00:01" "Call Bob" ""
             "medium" in
  exists s1 s2 t s3 n,
    delete_task 3 sample_store = (Ok true, s1) /\
    init (data_file s1) = Ok s2 /\
    add_with a s2 = (Ok t, s3) /\
    dict_get "id" t = Some (VInt n) /\
    n <= 3 /\
    ((exists t1, t1 ∈ tasks s1 /\ int_id t1 = Some (3 - 1)) -> n = 3).
Proof.
  intros a. apply (reload_after_delete_reuses_id sample_store 3 a).
  - unfold unique_ids. apply (bool_decide_unpack _). by vm_compute.
  - change (counter_ok sample_store).
    apply (init_counter_ok (JsonArray sample_tasks)). reflexivity.
  - lia.
  - exists sample_task3. split; [|reflexivity].
    apply list_elem_of_lookup. by exists 2%nat.
Defined.

(** ** delete_task and get_task *)

(** X6: when no task has id [k], [delete_task] returns [False] without
    raising and does not touch the collection, the counter or the file. *)
Theorem delete_task_absent (s : TaskManager) (k : Z) :
  Forall (fun t => exists v, dict_get "id" t = Some v /\ v <> VInt k) (tasks s) ->
  delete_task k s = (Ok false, s).
Proof.
  intros Habs. unfold delete_task, delete_task_when, bind, get_tasks, lift.
  by rewrite (find_id_absent _ _ Habs).
Qed.

Lemma delete_task_absent_witness :
  delete_task 7 sample_store = (Ok false, sample_store).
Proof.
  apply (delete_task_absent sample_store).
  repeat constructor; eexists; (split; [reflexivity | discriminate]).
Defined.

Lemma get_task_run (s : TaskManager) (k : Z) :
  get_task k s
  = (match find_id k (tasks s) with
     | Ok (Some (_, t)) => Ok (Some t)
     | Ok None => Ok None
     | Raise e => Raise e
     end, s).
Proof.
  unfold get_task, bind, get_tasks, lift, ret.
  by destruct (find_id k (tasks s)) as [[[i t]|]|e].
Qed.

(** X7: with distinct ids, deleting the task with id [k] removes that task
    and nothing else: the other tasks keep their order, the counter is
    unchanged, the file holds the new collection, and [get_task(k)] then
    returns [None]. *)
Theorem delete_task_removes (s : TaskManager) (k : Z) (i : nat) (t : task) :
  unique_ids (tasks s) ->
  all_have_id (tasks s) ->
  tasks s !! i = Some t ->
  dict_get "id" t = Some (VInt k) ->
  exists s',
    delete_task k s = (Ok true, s') /\
    tasks s' = delete i (tasks s) /\
    next_id s' = next_id s /\
    data_file s' = JsonArray (tasks s') /\
    get_task k s' = (Ok None, s').
Proof.
  intros Hu Hall Hi Hid.
  assert (find_id k (tasks s) = Ok (Some (i, t))) as Hfind.
  { apply find_id_first; [done..|]. intros j t0 Hj Hl.
    unfold all_have_id in Hall. rewrite Forall_lookup in Hall.
    destruct (Hall j t0 Hl) as [v Hv]. exists v. split; [done|]. intros ->.
    apply (unique_ids_others (tasks s) i j t t0 Hu Hi Hl); [lia | congruence]. }
  eexists. split; [by apply (delete_task_found s k i t)|].
  cbn [tasks next_id data_file].
  split; [done|]. split; [done|]. split; [done|].
  rewrite get_task_run. cbn [tasks]. rewrite find_id_absent; [done|].
  pose proof (unique_ids_delete_absent _ _ _ Hu Hi) as Hne.
  pose proof (Forall_delete _ _ i Hall) as Hall'.
  rewrite Forall_forall in Hne, Hall'. apply Forall_forall. intros t1 Ht1.
  destruct (Hall' t1 Ht1) as [v Hv]. exists v. split; [done|]. intros ->.
  apply (Hne t1 Ht1). congruence.
Qed.

Lemma delete_task_removes_witness :
  exists s',
    delete_task 2 sample_store = (Ok true, s') /\
    tasks s' = delete 1%nat sample_tasks /\
    next_id s' = 4 /\
    data_file s' = JsonArray (tasks s') /\
    get_task 2 s' = (Ok None, s').
Proof.
  apply (delete_task_removes sample_store 2 1%nat sample_task2).
  - unfold unique_ids. apply (bool_decide_unpack _). by vm_compute.
  - repeat constructor; by eexists.
  - reflexivity.
  - reflexivity.
Defined.

(** X8: when every task has the key [id], [get_task] does not raise; it
    returns a task of the collection whose id is [k], or [None] when no
    task has id [k]. *)
Theorem get_task_finds (s : TaskManager) (k : Z) :
  all_have_id (tasks s) ->
  exists r,
    get_task k s = (Ok r, s) /\
    match r with
    | Some t => t ∈ tasks s /\ dict_get "id" t = Some (VInt k)
    | None => Forall (fun t => dict_get "id" t <> Some (VInt k)) (tasks s)
    end.
Proof.
  intros Hall. rewrite get_task_run.
  destruct (find_id_total k _ Hall) as [[[i t]|] Hr]; rewrite Hr.
  - exists (Some t). split; [done|].
    apply find_id_found in Hr as [Hi Hid]. split; [|done].
    apply list_elem_of_lookup. by exists i.
  - exists None. split; [done|]. by apply find_id_none.
Qed.

Lemma get_task_finds_witness :
  exists r,
    get_task 3 sample_store = (Ok r, sample_store) /\
    match r with
    | Some t => t ∈ sample_tasks /\ dict_get "id" t = Some (VInt 3)
    | None => Forall (fun t => dict_get "id" t <> Some (VInt 3)) sample_tasks
    end.
Proof.
  apply (get_task_finds sample_store 3). repeat constructor; by eexists.
Defined.

(** X9: in a store whose counter is above its ids, the task that
    [add_task] returns is the last of the collection, and [get_task] with
    its id returns it. *)
Theorem get_task_after_add (s : TaskManager) (a : add_args) :
  counter_ok s ->
  exists t s',
    add_with a s = (Ok t, s') /\
    tasks s' = tasks s ++ [t] /\
    dict_get "id" t = Some (VInt (next_id s)) /\
    get_task (next_id s) s' = (Ok (Some t), s').
Proof.
  intros Hc. unfold add_with. rewrite add_task_run.
  do 2 eexists. split; [done|]. split; [done|]. split; [done|].
  rewrite get_task_run. cbn [tasks].
  rewrite (find_id_first _ _ (length (tasks s)) (mk_task (next_id s) (arg_title a)
             (arg_description a) (arg_priority a) "pending" (arg_now1 a)
             (arg_now2 a))); [done | | done |].
  - by rewrite list_lookup_middle.
  - intros j t0 Hj Hl. rewrite lookup_app_l in Hl by done.
    unfold counter_ok, ids_below in Hc. rewrite Forall_lookup in Hc.
    destruct (Hc j t0 Hl) as (z & Hz & Hlt). unfold int_id in Hz.
    destruct (dict_get "id" t0) as [[|z'|]|]; try done. injection Hz as ->.
    exists (VInt z). split; [done|]. intros [= ->]. lia.
Qed.

Lemma get_task_after_add_witness :
  let a := mkAddArgs "2024-05-03T12:00:00" "2024-05-03T12:00:01" "Call Bob" ""
             "medium" in
  exists t s',
    add_with a sample_store = (Ok t, s') /\
    tasks s' = sample_tasks ++ [t] /\
    dict_get "id" t = Some (VInt 4) /\
    get_task 4 s' = (Ok (Some t), s').
Proof.
  intros a. apply (get_task_after_add sample_store a).
  apply (init_counter_ok (JsonArray sample_tasks)). reflexivity.
Defined.

(** ** What update_task writes *)

Section DictKeys.
Context {K V : Type} `{EqDecision K}.
Implicit Types (d : dict K V) (k : K) (v : V).

Lemma dict_set_keys k v d :
  fst <$> dict_set k v d
  = if dict_in k d then fst <$> d else (fst <$> d) ++ [k].
Proof.
  unfold dict_in. induction d as [|[k' v'] d IH]; [done|].
  cbn [dict_set dict_get]. destruct (decide (k = k')) as [->|Hne]; [done|].
  rewrite !fmap_cons, IH. by destruct (dict_get k d).
Qed.

Lemma dict_in_set k k' v d : dict_in k d = true -> dict_in k (dict_set k' v d) = true.
Proof.
  unfold dict_in. intros Hk.
  destruct (dict_set_keeps_key k k' v d) as [x ->]; [|done].
  by destruct (dict_get k d); [eexists|].
Qed.

Lemma dict_in_elem_of k d : dict_in k d = true <-> k ∈ (fst <$> d).
Proof.
  unfold dict_in. induction d as [|[k' v'] d IH].
  - split; [done | by intros ?%elem_of_nil].
  - rewrite fmap_cons, elem_of_cons. cbn [dict_get fst].
    destruct (decide (k = k')) as [->|Hne]; [by split; [left|]|].
    rewrite IH. split; [by right | by intros [?|?]].
Qed.

Lemma dict_in_same_keys k (d1 d2 : dict K V) :
  fst <$> d1 = fst <$> d2 -> dict_in k d1 = dict_in k d2.
Proof.
  intros Hkeys. pose proof (dict_in_elem_of k d1) as H1.
  pose proof (dict_in_elem_of k d2) as H2. rewrite Hkeys in H1.
  destruct (dict_in k d1), (dict_in k d2); try done.
  - symmetry. by apply H2, H1.
  - by apply H1, H2.
Qed.

Lemma dict_get_not_key k d : k ∉ (fst <$> d) -> dict_get k d = None.
Proof.
  induction d as [|[k' v'] d IH]; [done|]. rewrite fmap_cons, not_elem_of_cons.
  cbn [fst dict_get]. intros [Hne Hk]. rewrite decide_False by done. by apply IH.
Qed.
End DictKeys.

Lemma apply_kwargs_keys (kwargs : dict string value) (t : task) :
  fst <$> apply_kwargs kwargs t = fst <$> t.
Proof.
  unfold apply_kwargs. revert t.
  induction kwargs as [|[k v] kw IH]; intros t; [done|]. cbn [fold_left fst snd].
  rewrite IH. destruct (dict_in k t) eqn:Hk; [|done].
  by rewrite dict_set_keys, Hk.
Qed.

(** The value of a key after the loop over [kwargs], whose keys are
    distinct as in every Python dictionary. *)
Lemma apply_kwargs_get (key : string) (kwargs : dict string value) (t : task) :
  NoDup (fst <$> kwargs) ->
  dict_get key (apply_kwargs kwargs t)
  = match dict_get key kwargs with
    | Some v => if dict_in key t then Some v else None
    | None => dict_get key t
    end.
Proof.
  unfold apply_kwargs. intros Hnd. revert t.
  induction kwargs as [|[k v] kw IH]; intros t; [done|].
  rewrite fmap_cons in Hnd. apply NoDup_cons in Hnd as [Hk Hnd].
  cbn [fold_left fst snd dict_get]. rewrite (IH Hnd).
  destruct (decide (key = k)) as [->|Hne].
  - rewrite (dict_get_not_key k kw Hk). unfold dict_in.
    destruct (dict_get k t) eqn:Ht; [|done]. by rewrite dict_get_set_eq.
  - destruct (dict_in k t); [|done].
    destruct (dict_get key kw); [|by apply dict_get_set_ne].
    unfold dict_in. by rewrite dict_get_set_ne.
Qed.

(** X10: [update_task] never adds a key besides [updated_at] and never
    removes or moves one: the keys of the updated task are those it had, in
    the same order, with [updated_at] appended when it was missing. The
    collection keeps its length and the counter its value. *)
Theorem update_task_keeps_keys (s : TaskManager) (now : string) (k : Z)
    (kwargs : dict string value) (i : nat) (t : task) :
  tasks s !! i = Some t ->
  dict_get "id" t = Some (VInt k) ->
  (forall j t0, (j < i)%nat -> tasks s !! j = Some t0 ->
     exists v, dict_get "id" t0 = Some v /\ v <> VInt k) ->
  exists t' s',
    update_task now k kwargs s = (Ok (Some t'), s') /\
    tasks s' = <[i:=t']> (tasks s) /\
    length (tasks s') = length (tasks s) /\
    next_id s' = next_id s /\
    fst <$> t'
    = if dict_in "updated_at" t then fst <$> t else (fst <$> t) ++ ["updated_at"].
Proof.
  intros Hi Hid Hfirst.
  pose proof (find_id_first k (tasks s) i t Hi Hid Hfirst) as Hfind.
  do 2 eexists. split; [by apply update_task_found|]. cbn [tasks next_id].
  split; [done|]. split; [by rewrite length_insert|]. split; [done|].
  rewrite dict_set_keys, apply_kwargs_keys.
  by rewrite (dict_in_same_keys _ _ t (apply_kwargs_keys kwargs t)).
Qed.

Lemma update_task_keeps_keys_witness :
  exists t' s',
    update_task "2024-05-03T12:00:00" 2
      [("status", VStr "pending"); ("owner", VStr "Bob")] sample_store
    = (Ok (Some t'), s') /\
    tasks s' = <[1%nat:=t']> sample_tasks /\
    length (tasks s') = length sample_tasks /\
    next_id s' = 4 /\
    fst <$> t'
    = if dict_in "updated_at" sample_task2 then fst <$> sample_task2
      else (fst <$> sample_task2) ++ ["updated_at"].
Proof.
  apply (update_task_keeps_keys sample_store "2024-05-03T12:00:00" 2
           [("status", VStr "pending"); ("owner", VStr "Bob")] 1%nat sample_task2).
  - reflexivity.
  - reflexivity.
  - intros [|j] t0 Hj; [|lia]. intros [= <-]. eexists.
    split; [reflexivity | discriminate].
Defined.

(** X11: for every key other than [updated_at], the updated task holds the
    supplied value when the key is supplied and the task had it, nothing
    when the key is supplied and the task did not have it, and its old
    value when the key is not supplied. *)
Theorem update_task_applies_fields (s : TaskManager) (now : string) (k : Z)
    (kwargs : dict string value) (i : nat) (t : task) (key : string) :
  tasks s !! i = Some t ->
  dict_get "id" t = Some (VInt k) ->
  (forall j t0, (j < i)%nat -> tasks s !! j = Some t0 ->
     exists v, dict_get "id" t0 = Some v /\ v <> VInt k) ->
  NoDup (fst <$> kwargs) ->
  key <> "updated_at" ->
  exists t' s',
    update_task now k kwargs s = (Ok (Some t'), s') /\
    dict_get key t'
    = match dict_get key kwargs with
      | Some v => if dict_in key t then Some v else None
      | None => dict_get key t
      end.
Proof.
  intros Hi Hid Hfirst Hnd Hkey.
  pose proof (find_id_first k (tasks s) i t Hi Hid Hfirst) as Hfind.
  do 2 eexists. split; [by apply update_task_found|].
  rewrite dict_get_set_ne by done. by apply apply_kwargs_get.
Qed.

Lemma update_task_applies_fields_witness :
  exists t' s',
    update_task "2024-05-03T12:00:00" 2
      [("status", VStr "pending"); ("owner", VStr "Bob")] sample_store
    = (Ok (Some t'), s') /\
    dict_get "status" t'
    = match dict_get "status" [("status", VStr "pending"); ("owner", VStr "Bob")] with
      | Some v => if dict_in "status" sample_task2 then Some v else None
      | None => dict_get "status" sample_task2
      end.
Proof.
  apply (update_task_applies_fields sample_store "2024-05-03T12:00:00" 2
           [("status", VStr "pending"); ("owner", VStr "Bob")] 1%nat sample_task2).
  - reflexivity.
  - reflexivity.
  - intros [|j] t0 Hj; [|lia]. intros [= <-]. eexists.
    split; [reflexivity | discriminate].
  - apply (bool_decide_unpack _). by vm_compute.
  - discriminate.
Defined.

(** ** The totals of get_stats *)

Lemma sum_counts_bump (x : value) (d : dict value Z) :
  sum_counts (dict_set x (default 0 (dict_get x d) + 1) d) = sum_counts d + 1.
Proof.
  unfold sum_counts. induction d as [|[k v] d IH]; [done|].
  cbn [dict_set dict_get]. destruct (decide (x = k)) as [->|Hne].
  - rewrite !fmap_cons. cbn. lia.
  - rewrite !fmap_cons. cbn [foldr snd]. rewrite IH. lia.
Qed.

Lemma count_priorities_sum (acc r : dict value Z) (ts : list task) :
  count_priorities acc ts = Ok r ->
  sum_counts r = sum_counts acc + Z.of_nat (length ts).
Proof.
  revert acc. induction ts as [|t ts IH]; intros acc; cbn [count_priorities].
  - intros [= ->]. cbn. lia.
  - unfold getitem. destruct (dict_get "priority" t) as [x|]; cbn [rbind]; [|done].
    intros Hr. rewrite (IH _ Hr), sum_counts_bump. cbn [length]. lia.
Qed.

Lemma length_filter_disjoint (P Q : task -> Prop)
    `{forall t, Decision (P t)} `{forall t, Decision (Q t)} (ts : list task) :
  (forall t, P t -> Q t -> False) ->
  (length (filter P ts) + length (filter Q ts) <= length ts)%nat.
Proof.
  intros Hdis. induction ts as [|t ts IH]; [done|].
  rewrite !filter_cons. destruct (decide (P t)) as [HP|HP].
  - rewrite decide_False by (intros HQ; apply (Hdis t HP HQ)). cbn. lia.
  - destruct (decide (Q t)); cbn; lia.
Qed.

(** X12: when every task has a status and a priority, the counts that
    [get_stats] returns add up: the counts by priority sum to [total], and
    [pending + completed] is at most [total]. *)
Theorem get_stats_totals (s : TaskManager) :
  Forall (fun t => is_Some (dict_get "status" t) /\
                   is_Some (dict_get "priority" t)) (tasks s) ->
  exists st,
    get_stats s = (Ok st, s) /\
    sum_counts (by_priority st) = total st /\
    0 <= pending st /\ 0 <= completed st /\
    pending st + completed st <= total st.
Proof.
  intros Hts.
  assert (Forall (fun t => is_Some (dict_get "status" t)) (tasks s)) as Hst
    by (eapply Forall_impl; [exact Hts | by intros t [? ?]]).
  assert (Forall (fun t => is_Some (dict_get "priority" t)) (tasks s)) as Hpr
    by (eapply Forall_impl; [exact Hts | by intros t [? ?]]).
  eexists. unfold get_stats, bind, get_tasks, lift, ret.
  rewrite !comprehension_field_is by done.
  rewrite (count_priorities_from_empty _ Hpr). split; [done|].
  cbn [by_priority total pending completed].
  split; [|split; [lia|split; [lia|]]].
  - rewrite (count_priorities_sum [] _ (tasks s)); [done|].
    by apply count_priorities_from_empty.
  - pose proof (length_filter_disjoint (field_eq "status" (VStr "pending"))
                  (field_eq "status" (VStr "completed")) (tasks s)) as Hle.
    unfold field_eq in Hle at 1 2. specialize (Hle ltac:(congruence)). lia.
Qed.

Lemma get_stats_totals_witness :
  exists st,
    get_stats sample_store = (Ok st, sample_store) /\
    sum_counts (by_priority st) = total st /\
    0 <= pending st /\ 0 <= completed st /\
    pending st + completed st <= total st.
Proof.
  apply (get_stats_totals sample_store). repeat constructor; by eexists.
Defined.

Lemma comprehension_field_is_missing (key : string) (v : value) (ts : list task)
    (t : task) :
  t ∈ ts -> dict_get key t = None ->
  comprehension (field_is key v) ts = Raise KeyError.
Proof.
  intros Hin Ht. induction ts as [|t0 ts IH]; [by apply elem_of_nil in Hin|].
  cbn [comprehension]. unfold field_is at 1, getitem.
  destruct (dict_get key t0) as [x|] eqn:Hx; cbn [rbind]; [|done].
  apply elem_of_cons in Hin as [->|Hin]; [congruence|]. by rewrite IH.
Qed.

Lemma count_priorities_missing (acc : dict value Z) (ts : list task) (t : task) :
  t ∈ ts -> dict_get "priority" t = None ->
  count_priorities acc ts = Raise KeyError.
Proof.
  intros Hin Ht. revert acc.
  induction ts as [|t0 ts IH]; intros acc; [by apply elem_of_nil in Hin|].
  cbn [count_priorities]. unfold getitem.
  destruct (dict_get "priority" t0) as [x|] eqn:Hx; cbn [rbind]; [|done].
  apply elem_of_cons in Hin as [->|Hin]; [congruence|]. by apply IH.
Qed.

(** X13: a single task without the key [status], or without the key
    [priority], makes [get_stats] raise [KeyError], whatever the other
    tasks; the store is left as it was. *)
Theorem get_stats_missing_key (s : TaskManager) (t : task) :
  t ∈ tasks s ->
  dict_get "status" t = None \/ dict_get "priority" t = None ->
  get_stats s = (Raise KeyError, s).
Proof.
  intros Hin Hmiss. unfold get_stats, bind, get_tasks, lift, ret.
  destruct (decide (Forall (fun t => is_Some (dict_get "status" t)) (tasks s)))
    as [Hall|Hnot].
  - rewrite !comprehension_field_is by done.
    destruct Hmiss as [Hst|Hpr].
    + rewrite Forall_forall in Hall. destruct (Hall t Hin) as [x Hx]. congruence.
    + by rewrite (count_priorities_missing [] _ t Hin Hpr).
  - apply not_Forall_Exists in Hnot; [|apply _].
    apply Exists_exists in Hnot as (t0 & Hin0 & Hnone).
    rewrite (comprehension_field_is_missing "status" _ _ t0 Hin0); [done|].
    unfold compose in Hnone.
    destruct (dict_get "status" t0); [|done]. destruct Hnone. by eexists.
Qed.

Lemma get_stats_missing_key_witness :
  let ts : list task := [sample_task1; [("id", VInt 2); ("title", VStr "Buy milk")]] in
  init (JsonArray ts) = Ok (mkTaskManager (JsonArray ts) ts 3) /\
  get_stats (mkTaskManager (JsonArray ts) ts 3)
  = (Raise KeyError, mkTaskManager (JsonArray ts) ts 3).
Proof.
  intros ts. split; [reflexivity|].
  apply (get_stats_missing_key (mkTaskManager (JsonArray ts) ts 3)
           [("id", VInt 2); ("title", VStr "Buy milk")]).
  - apply list_elem_of_lookup. by exists 1%nat.
  - by left.
Defined.

(** ** list_tasks on missing keys and on sorted collections *)

(** X14: with a status filter that is not empty, a single task without the
    key [status] makes [list_tasks] raise [KeyError], whatever the other
    tasks and the priority filter; the store is left as it was. *)
Theorem list_tasks_missing_status (s : TaskManager) (t : task)
    (status : string) (priority : option string) :
  status <> "" ->
  t ∈ tasks s ->
  dict_get "status" t = None ->
  list_tasks (Some status) priority s = (Raise KeyError, s).
Proof.
  intros Hne Hin Ht. unfold list_tasks, bind, get_tasks, lift. cbn [filter_if].
  destruct (String.eqb_spec status "") as [->|_]; [done|].
  by rewrite (comprehension_field_is_missing "status" _ _ t Hin Ht).
Qed.

Lemma list_tasks_missing_status_witness :
  let ts : list task := [sample_task1; [("id", VInt 2); ("title", VStr "Buy milk")]] in
  list_tasks (Some "pending") None (mkTaskManager (JsonArray ts) ts 3)
  = (Raise KeyError, mkTaskManager (JsonArray ts) ts 3).
Proof.
  intros ts.
  apply (list_tasks_missing_status (mkTaskManager (JsonArray ts) ts 3)
           [("id", VInt 2); ("title", VStr "Buy milk")]).
  - discriminate.
  - apply list_elem_of_lookup. by exists 1%nat.
  - reflexivity.
Defined.

Lemma sort_by_key_sorted_input (d : list (value * task)) :
  keyed d ->
  StronglySorted id_le (snd <$> d) ->
  sort_by_key d = Ok d.
Proof.
  induction 1 as [|[k x] d (z & Hk & Hx) Hd IH]; [done|].
  cbn [fst snd] in Hk, Hx. subst k. rewrite fmap_cons. cbn [snd].
  intros Hs. apply StronglySorted_inv in Hs as [Hs Hall].
  cbn [sort_by_key]. rewrite (IH Hs). cbn [rbind].
  destruct Hd as [|[k' y] d (z' & Hk' & Hy) Hd]; [done|].
  cbn [fst snd] in Hk', Hy. subst k'. cbn [insert_by_key py_lt rbind].
  rewrite fmap_cons in Hall. apply Forall_cons in Hall as [Hxy _].
  cbn [snd] in Hxy. unfold id_le in Hxy. rewrite Hx, Hy in Hxy.
  destruct (Z.ltb_spec z' z); [lia | done].
Qed.

Lemma sorted_by_id_sorted_input (ts : list task) :
  Forall (fun t => is_Some (int_id t)) ts ->
  StronglySorted id_le ts ->
  sorted_by_id ts = Ok ts.
Proof.
  intros Hts Hs. destruct (decorate_keyed ts Hts) as (d & Hd & Hk & Hsnd).
  unfold sorted_by_id. rewrite Hd. cbn [rbind].
  rewrite sort_by_key_sorted_input; [|done | by rewrite Hsnd].
  cbn [rbind]. f_equal. exact Hsnd.
Qed.

Lemma StronglySorted_filter_tasks (P : task -> Prop) `{forall t, Decision (P t)}
    (ts : list task) :
  StronglySorted id_le ts -> StronglySorted id_le (filter P ts).
Proof.
  induction 1 as [|t ts Hs IH Hall]; [constructor|].
  rewrite filter_cons. destruct (decide (P t)); [|done].
  constructor; [done|]. apply Forall_forall. intros t0 Ht0.
  apply list_elem_of_filter in Ht0 as [_ Ht0].
  rewrite Forall_forall in Hall. by apply Hall.
Qed.

(** X15: on a collection already in non-decreasing order of id,
    [list_tasks] keeps the order of the collection, also among tasks of
    equal id: it returns the tasks that pass the filters as they follow each
    other in the collection. *)
Theorem list_tasks_keeps_sorted_order (s : TaskManager)
    (status priority : option string) :
  Forall (fun t => is_Some (int_id t) /\
                   is_Some (dict_get "status" t) /\
                   is_Some (dict_get "priority" t)) (tasks s) ->
  StronglySorted id_le (tasks s) ->
  list_tasks status priority s
  = (Ok (filter (fun t => passes "priority" priority t /\
                          passes "status" status t) (tasks s)), s).
Proof.
  intros Hts Hs.
  assert (Forall (fun t => is_Some (dict_get "status" t)) (tasks s)) as Hst
    by (eapply Forall_impl; [exact Hts | by intros t (? & ? & ?)]).
  assert (Forall (fun t => is_Some (dict_get "priority" t))
            (filter (passes "status" status) (tasks s))) as Hpr.
  { apply Forall_forall. intros t Ht. apply list_elem_of_filter in Ht as [_ Ht].
    rewrite Forall_forall in Hts. by destruct (Hts t Ht) as (? & ? & ?). }
  unfold list_tasks, bind, get_tasks, lift.
  rewrite (filter_if_passes "status" status (tasks s) Hst).
  rewrite (filter_if_passes "priority" priority _ Hpr).
  rewrite list_filter_filter, sorted_by_id_sorted_input; [done| |].
  - apply Forall_forall. intros t Ht. apply list_elem_of_filter in Ht as [_ Ht].
    rewrite Forall_forall in Hts. by destruct (Hts t Ht) as (? & ? & ?).
  - by apply StronglySorted_filter_tasks.
Qed.

Lemma list_tasks_keeps_sorted_order_witness :
  list_tasks (Some "pending") (Some "") sample_store
  = (Ok (filter (fun t => passes "priority" (Some "") t /\
                          passes "status" (Some "pending") t) sample_tasks),
     sample_store).
Proof.
  apply (list_tasks_keeps_sorted_order sample_store (Some "pending") (Some "")).
  - repeat constructor; by eexists.
  - repeat constructor; by vm_compute.
Defined.

(** ** Stores that started empty stay in order of id *)

Lemma StronglySorted_delete_tasks (ts : list task) (i : nat) :
  StronglySorted id_le ts -> StronglySorted id_le (delete i ts).
Proof.
  intros Hs. revert i. induction Hs as [|t ts Hs IH Hall]; intros i.
  - destruct i; constructor.
  - destruct i as [|i]; cbn; [done|].
    constructor; [by apply IH | by apply Forall_delete].
Qed.

Lemma StronglySorted_insert_same_id (ts : list task) (i : nat) (t t' : task) :
  ts !! i = Some t ->
  int_id t' = int_id t ->
  StronglySorted id_le ts -> StronglySorted id_le (<[i:=t']> ts).
Proof.
  intros Hi Hid Hs. revert i Hi.
  induction Hs as [|t0 ts Hs IH Hall]; intros i Hi; [done|].
  destruct i as [|i].
  - cbn in Hi. injection Hi as ->. cbn. constructor; [done|].
    eapply Forall_impl; [exact Hall|]. intros x. unfold id_le. by rewrite Hid.
  - cbn in Hi. cbn. constructor; [by apply IH|].
    apply Forall_insert; [done|].
    rewrite Forall_lookup in Hall. specialize (Hall i t Hi).
    unfold id_le in *. by rewrite Hid.
Qed.

Lemma StronglySorted_snoc_above (ts : list task) (t : task) (n : Z) :
  ids_below n ts ->
  int_id t = Some n ->
  StronglySorted id_le ts -> StronglySorted id_le (ts ++ [t]).
Proof.
  intros Hb Ht Hs. induction Hs as [|t0 ts Hs IH Hall]; [repeat constructor|].
  apply Forall_cons in Hb as [(z & Hz & Hlt) Hb]. cbn [app].
  constructor; [by apply IH|]. apply Forall_app. split; [done|].
  repeat constructor. unfold id_le. rewrite Hz, Ht. lia.
Qed.

Lemma run_op_sorted (s : TaskManager) (o : op) :
  keeps_id o ->
  counter_ok s ->
  StronglySorted id_le (tasks s) ->
  StronglySorted id_le (tasks (run_op s o)).
Proof.
  intros Ho Hc Hs. destruct o as [a|now k kwargs|k]; cbn [run_op].
  - unfold add_with. rewrite add_task_run. cbn [snd tasks].
    by apply (StronglySorted_snoc_above _ _ (next_id s)).
  - destruct (find_id k (tasks s)) as [[[i t]|]|e] eqn:Hfind.
    + rewrite (update_task_found _ _ _ _ _ _ Hfind). cbn [snd tasks].
      apply find_id_found in Hfind as [Hi Hid].
      apply (StronglySorted_insert_same_id _ _ t); [done| |done].
      unfold int_id. by rewrite update_keeps_id.
    + rewrite update_task_not_found; [done | congruence].
    + rewrite update_task_not_found; [done | congruence].
  - destruct (find_id k (tasks s)) as [[[i t]|]|e] eqn:Hfind.
    + rewrite (delete_task_found _ _ _ _ Hfind).
      by apply StronglySorted_delete_tasks.
    + rewrite delete_task_not_found; [done | congruence].
    + rewrite delete_task_not_found; [done | congruence].
Qed.

Lemma run_op_counter_ok (s : TaskManager) (o : op) :
  keeps_id o -> counter_ok s -> counter_ok (run_op s o).
Proof.
  intros Ho Hc. destruct o as [a|now k kwargs|k]; cbn [run_op].
  - by apply counter_ok_add.
  - by apply counter_ok_update.
  - by apply counter_ok_delete.
Qed.

Lemma run_ops_sorted (s : TaskManager) (ops : list op) :
  Forall keeps_id ops ->
  counter_ok s ->
  StronglySorted id_le (tasks s) ->
  StronglySorted id_le (tasks (run_ops s ops)).
Proof.
  intros Hops. revert s. unfold run_ops.
  induction Hops as [|o ops Ho _ IH]; intros s Hc Hs; [done|]. cbn [fold_left].
  apply IH; [by apply run_op_counter_ok | by apply run_op_sorted].
Qed.

(** X16: a store constructed with an empty collection keeps its tasks in
    increasing order of id through [add_task], [delete_task] and
    [update_task] calls that do not supply [id]; [list_tasks()] then returns
    the collection as it is, in the order the tasks were added. *)
Theorem list_tasks_insertion_order (d : document) (s : TaskManager)
    (ops : list op) :
  init d = Ok s ->
  tasks s = [] ->
  Forall keeps_id ops ->
  StronglySorted id_le (tasks (run_ops s ops)) /\
  list_tasks None None (run_ops s ops)
  = (Ok (tasks (run_ops s ops)), run_ops s ops).
Proof.
  intros Hinit Hempty Hops.
  pose proof (init_counter_ok d s Hinit) as Hc.
  assert (StronglySorted id_le (tasks (run_ops s ops))) as Hs.
  { apply run_ops_sorted; [done..|]. rewrite Hempty. constructor. }
  split; [done|].
  pose proof (run_ops_counter_ok s ops Hc Hops) as Hc'.
  unfold list_tasks, bind, get_tasks, lift. cbn [filter_if].
  rewrite sorted_by_id_sorted_input; [done| |done].
  eapply Forall_impl; [exact Hc'|]. intros t (z & Hz & _). by exists z.
Qed.

Lemma list_tasks_insertion_order_witness :
  let ops :=
    [Add (mkAddArgs "2024-05-03T12:00:00" "2024-05-03T12:00:01" "Call Bob" "" "medium");
     Add (mkAddArgs "2024-05-03T12:05:00" "2024-05-03T12:05:00" "Pay rent" "" "high");
     Delete 1;
     Add (mkAddArgs "2024-05-03T12:09:00" "2024-05-03T12:09:00" "Buy milk" "" "low")] in
  let s := mkTaskManager Absent [] 1 in
  StronglySorted id_le (tasks (run_ops s ops)) /\
  list_tasks None None (run_ops s ops)
  = (Ok (tasks (run_ops s ops)), run_ops s ops).
Proof.
  intros ops s. apply (list_tasks_insertion_order Absent s ops).
  - reflexivity.
  - reflexivity.
  - repeat constructor.
Defined.

(** ** search_tasks reads the description only when the title fails *)

(** X17: when the query and the titles are ASCII text and every title
    contains the query, the case of letters ignored, [search_tasks] returns
    the whole collection and reads no description: tasks without the key
    [description] do not make it raise. In particular the empty query
    returns every task. *)
Theorem search_tasks_title_only (s : TaskManager) (query : string) :
  ascii_only query = true ->
  Forall (fun t => exists x, dict_get "title" t = Some (VStr x) /\
                             ascii_only x = true /\
                             ci_substring query x) (tasks s) ->
  search_tasks query s = (Ok (tasks s), s).
Proof.
  intros Hquery Hts. unfold search_tasks, bind, get_tasks, lift. f_equal.
  induction Hts as [|t ts (x & Hx & Hax & Hq) _ IH]; [done|].
  cbn [comprehension]. unfold matches at 1, getitem. rewrite Hx.
  cbn [rbind py_lower]. apply (contains_lower query x Hquery Hax) in Hq.
  rewrite Hq. cbn [rbind]. by rewrite IH.
Qed.

Lemma search_tasks_title_only_witness :
  let ts : list task := [sample_task1; [("id", VInt 2); ("title", VStr "Buy milk")]] in
  search_tasks "I" (mkTaskManager (JsonArray ts) ts 3)
  = (Ok ts, mkTaskManager (JsonArray ts) ts 3).
Proof.
  intros ts. apply (search_tasks_title_only (mkTaskManager (JsonArray ts) ts 3) "I").
  - reflexivity.
  - repeat constructor; eexists; (split; [reflexivity|]); (split; [reflexivity|]).
    + by exists "Des", "i", "gn api layer".
    + by exists "Buy m", "i", "lk".
Defined.

(** * The web adapter *)


Lemma bind_raise {A B} (m : M A) (k : A -> M B) (s s' : TaskManager) (e : exn) :
  m s = (Raise e, s') -> bind m k s = (Raise e, s').
Proof. unfold bind. by intros ->. Qed.

Lemma is_priority_spec (x : string) :
  is_priority x = true <-> x = "high" \/ x = "medium" \/ x = "low".
Proof.
  unfold is_priority. rewrite !orb_true_iff, !String.eqb_eq. tauto.
Qed.

Lemma is_status_spec (x : string) :
  is_status x = true <-> x = "pending" \/ x = "completed".
Proof. unfold is_status. by rewrite orb_true_iff, !String.eqb_eq. Qed.

(** ** create_task *)


(** White space is that of Unicode: a title that is a no-break space
    (U+00A0) is blank, and the form is refused. *)
Example strip_unicode_space :
  strip (encode [0xA0; 0x20; 0x78; 0x3000; 0x0A]%N) = "x".
Proof. by vm_compute. Qed.

Example web_create_task_no_break_space :
  Web.create_task "2024-05-03T12:00:00" "2024-05-03T12:00:01"
    [("title", encode [0xA0%N])] sample_store
  = (Ok ("Title is required", "danger"), sample_store).
Proof. by vm_compute. Qed.

(** ** update_task and toggle_task *)

(** The update handler raises before it writes, reports a missing task, or
    calls the store's [update_task] once, with the four fields [title],
    [description], [priority] and [status]. *)
Lemma web_update_task_run (s : TaskManager) (now : string) (k : Z)
    (form : dict string string) :
  (exists e, Web.update_task now k form s = (Raise e, s)) \/
  Web.update_task now k form s = (Ok ("Task not found", "danger"), s) \/
  exists i t nt nd pv sv,
    find_id k (tasks s) = Ok (Some (i, t)) /\
    (let! v := form_or_value (dict_get "title" form) (getitem t "title") in
     py_strip v) = Ok nt /\
    (let! v := form_or_value (dict_get "description" form)
                 (Ok (default (VStr "") (dict_get "description" t))) in
     py_strip v) = Ok nd /\
    checked_or_kept is_priority "medium" "priority" t pv /\
    checked_or_kept is_status "pending" "status" t sv /\
    Web.update_task now k form s
    = (Ok ("Task updated", "success"),
       snd (update_task now k
              [("title", VStr nt); ("description", VStr nd);
               ("priority", pv); ("status", sv)] s)).
Proof.
  destruct (Web.update_task now k form s) as [r s'] eqn:Hrun.
  unfold Web.update_task in Hrun. unfold bind at 1 in Hrun.
  rewrite get_task_run in Hrun.
  destruct (find_id k (tasks s)) as [[[i t]|]|e] eqn:Hfind;
    [|right; left; exact (eq_sym Hrun) | left; exists e; exact (eq_sym Hrun)].
  destruct t as [|kv t0]; [right; left; exact (eq_sym Hrun)|].
  set (t := kv :: t0) in *.
  unfold bind at 1, lift at 1 in Hrun.
  destruct (let! v := form_or_value (dict_get "title" form) (getitem t "title") in
            py_strip v) as [nt|e] eqn:Hnt;
    [|left; exists e; exact (eq_sym Hrun)].
  unfold bind at 1, lift at 1 in Hrun.
  destruct (let! v := form_or_value (dict_get "description" form)
                        (Ok (default (VStr "") (dict_get "description" t))) in
            py_strip v) as [nd|e] eqn:Hnd;
    [|left; exists e; exact (eq_sym Hrun)].
  unfold bind at 1, lift at 1 in Hrun.
  destruct (let! v := form_or_value (dict_get "priority" form)
                        (Ok (default (VStr "medium") (dict_get "priority" t))) in
            let! x := py_strip v in Ok (lower x)) as [np|e] eqn:Hnp;
    [|left; exists e; exact (eq_sym Hrun)].
  unfold bind at 1, lift at 1 in Hrun.
  destruct (let! v := form_or_value (dict_get "status" form)
                        (Ok (default (VStr "pending") (dict_get "status" t))) in
            let! x := py_strip v in Ok (lower x)) as [ns|e] eqn:Hns;
    [|left; exists e; exact (eq_sym Hrun)].
  right. right.
  exists i, t, nt, nd,
    (if is_priority np then VStr np
     else default (VStr "medium") (dict_get "priority" t)),
    (if is_status ns then VStr ns
     else default (VStr "pending") (dict_get "status" t)).
  split; [done|]. split; [done|]. split; [done|]. split; [|split].
  - unfold checked_or_kept.
    destruct (is_priority np) eqn:Hp; [left; by exists np | by right].
  - unfold checked_or_kept.
    destruct (is_status ns) eqn:Hp; [left; by exists ns | by right].
  - rewrite <-Hrun. unfold bind.
    by rewrite (update_task_found _ _ _ _ _ _ Hfind).
Qed.

Lemma web_toggle_task_run (s : TaskManager) (now : string) (k : Z) :
  (exists e, Web.toggle_task now k s = (Raise e, s)) \/
  Web.toggle_task now k s = (Ok ("Task not found", "danger"), s) \/
  exists i t,
    find_id k (tasks s) = Ok (Some (i, t)) /\
    Web.toggle_task now k s
    = (Ok ("Task status toggled", "info"),
       snd (update_task now k [("status", VStr (toggled t))] s)).
Proof.
  destruct (Web.toggle_task now k s) as [r s'] eqn:Hrun.
  unfold Web.toggle_task in Hrun. unfold bind at 1 in Hrun.
  rewrite get_task_run in Hrun.
  destruct (find_id k (tasks s)) as [[[i t]|]|e] eqn:Hfind;
    [|right; left; exact (eq_sym Hrun) | left; exists e; exact (eq_sym Hrun)].
  destruct t as [|kv t0]; [right; left; exact (eq_sym Hrun)|].
  right. right. exists i, (kv :: t0). split; [done|].
  rewrite <-Hrun. unfold bind, toggled.
  by rewrite (update_task_found _ _ _ _ _ _ Hfind).
Qed.

(** The fields of the task after the store's [update_task] is called with
    distinct keys. *)
Lemma update_task_found_fields (s : TaskManager) (now : string) (k : Z)
    (kwargs : dict string value) (i : nat) (t : task) :
  find_id k (tasks s) = Ok (Some (i, t)) ->
  NoDup (fst <$> kwargs) ->
  exists t',
    snd (update_task now k kwargs s)
    = mkTaskManager (JsonArray (<[i:=t']> (tasks s))) (<[i:=t']> (tasks s))
        (next_id s) /\
    dict_get "updated_at" t' = Some (VStr now) /\
    forall key, key <> "updated_at" ->
      dict_get key t'
      = match dict_get key kwargs with
        | Some v => if dict_in key t then Some v else None
        | None => dict_get key t
        end.
Proof.
  intros Hfind Hnd. eexists. rewrite (update_task_found _ _ _ _ _ _ Hfind).
  split; [done|]. split; [apply dict_get_set_eq|]. intros key Hkey.
  rewrite dict_get_set_ne by done. by apply apply_kwargs_get.
Qed.

Lemma checked_or_kept_enum (accept : string -> bool) (fallback key : string)
    (t : task) (v : value) (x : string) :
  checked_or_kept accept fallback key t v ->
  dict_get key t = Some (VStr x) -> accept x = true ->
  exists y, v = VStr y /\ accept y = true.
Proof.
  intros [(y & -> & Hy)| ->] Hx Hacc; [by exists y|]. rewrite Hx. by exists x.
Qed.


Lemma web_toggle_task_found (s : TaskManager) (now : string) (k : Z)
    (i : nat) (t : task) :
  find_id k (tasks s) = Ok (Some (i, t)) ->
  exists t',
    Web.toggle_task now k s
    = (Ok ("Task status toggled", "info"),
       mkTaskManager (JsonArray (<[i:=t']> (tasks s))) (<[i:=t']> (tasks s))
         (next_id s)) /\
    dict_get "updated_at" t' = Some (VStr now) /\
    dict_get "status" t'
    = (if dict_in "status" t then Some (VStr (toggled t)) else None) /\
    forall key, key <> "status" -> key <> "updated_at" ->
      dict_get key t' = dict_get key t.
Proof.
  intros Hfind.
  destruct (update_task_found_fields s now k [("status", VStr (toggled t))]
              i t Hfind) as (t' & Hrun & Hup & Hget).
  { apply (bool_decide_unpack _). by vm_compute. }
  exists t'. split; [|split; [done|split]].
  - rewrite <-Hrun. unfold Web.toggle_task. unfold bind at 1.
    rewrite get_task_run, Hfind.
    assert (t <> []) as Hne.
    { apply find_id_found in Hfind as [_ Hid]. by intros ->. }
    destruct t as [|kv t1]; [done|]. unfold bind, toggled.
    by rewrite (update_task_found _ _ _ _ _ _ Hfind).
  - rewrite Hget by done. cbn [dict_get]. by rewrite decide_True.
  - intros key Hk1 Hk2. rewrite Hget by done. cbn [dict_get].
    by rewrite decide_False.
Qed.

Lemma find_id_after_insert (k : Z) (ts : list task) (i : nat) (t t' : task) :
  find_id k ts = Ok (Some (i, t)) ->
  dict_get "id" t' = dict_get "id" t ->
  find_id k (<[i:=t']> ts) = Ok (Some (i, t')).
Proof.
  intros Hfind Hid'. pose proof (find_id_found _ _ _ _ Hfind) as [Hi Hid].
  apply find_id_first.
  - apply list_lookup_insert_eq. by eapply lookup_lt_Some.
  - congruence.
  - intros j t0 Hj Hl. rewrite list_lookup_insert_ne in Hl by lia.
    by apply (find_id_before k ts i t Hfind j t0).
Qed.

(** X20: toggling the first task with id [k] marks it completed unless it
    is completed already, in which case it marks it pending; a task without
    the key [status] gets none. Every other field but [updated_at] keeps
    its value, and so do the other tasks and the counter. *)
Theorem web_toggle_task_flips (s : TaskManager) (now : string) (k : Z)
    (i : nat) (t : task) :
  tasks s !! i = Some t ->
  dict_get "id" t = Some (VInt k) ->
  (forall j t0, (j < i)%nat -> tasks s !! j = Some t0 ->
     exists v, dict_get "id" t0 = Some v /\ v <> VInt k) ->
  exists t' s',
    Web.toggle_task now k s = (Ok ("Task status toggled", "info"), s') /\
    tasks s' = <[i:=t']> (tasks s) /\
    next_id s' = next_id s /\
    dict_get "status" t'
    = match dict_get "status" t with
      | Some v => Some (VStr (if bool_decide (v = VStr "completed")
                              then "pending" else "completed"))
      | None => None
      end /\
    dict_get "updated_at" t' = Some (VStr now) /\
    forall key, key <> "status" -> key <> "updated_at" ->
      dict_get key t' = dict_get key t.
Proof.
  intros Hi Hid Hfirst.
  pose proof (find_id_first k (tasks s) i t Hi Hid Hfirst) as Hfind.
  destruct (web_toggle_task_found s now k i t Hfind)
    as (t' & Hrun & Hup & Hst & Hother).
  exists t'. eexists. split; [exact Hrun|]. cbn [tasks next_id].
  split; [done|]. split; [done|]. split; [|by split].
  rewrite Hst. unfold dict_in, toggled, py_eq.
  destruct (dict_get "status" t) as [v|]; [|done]. cbn [default].
  unfold id. by case_bool_decide.
Qed.

(** X21: toggling a task twice gives back its status when that was pending
    or completed: after the two requests every field of the task but
    [updated_at] has the value it had, and the other tasks were never
    touched. *)
Theorem web_toggle_task_twice (s : TaskManager) (now1 now2 : string) (k : Z)
    (i : nat) (t : task) (st : string) :
  tasks s !! i = Some t ->
  dict_get "id" t = Some (VInt k) ->
  (forall j t0, (j < i)%nat -> tasks s !! j = Some t0 ->
     exists v, dict_get "id" t0 = Some v /\ v <> VInt k) ->
  dict_get "status" t = Some (VStr st) ->
  is_status st = true ->
  exists s1 t2 s2,
    Web.toggle_task now1 k s = (Ok ("Task status toggled", "info"), s1) /\
    Web.toggle_task now2 k s1 = (Ok ("Task status toggled", "info"), s2) /\
    tasks s2 = <[i:=t2]> (tasks s) /\
    dict_get "updated_at" t2 = Some (VStr now2) /\
    forall key, key <> "updated_at" -> dict_get key t2 = dict_get key t.
Proof.
  intros Hi Hid Hfirst Hst Hok.
  pose proof (find_id_first k (tasks s) i t Hi Hid Hfirst) as Hfind.
  destruct (web_toggle_task_found s now1 k i t Hfind)
    as (t1 & Hrun1 & _ & Hst1 & Hother1).
  set (s1 := mkTaskManager (JsonArray (<[i:=t1]> (tasks s))) (<[i:=t1]> (tasks s))
               (next_id s)) in *.
  assert (find_id k (tasks s1) = Ok (Some (i, t1))) as Hfind1.
  { apply (find_id_after_insert k (tasks s) i t t1 Hfind). by apply Hother1. }
  destruct (web_toggle_task_found s1 now2 k i t1 Hfind1)
    as (t2 & Hrun2 & Hup2 & Hst2 & Hother2).
  exists s1, t2. eexists. split; [exact Hrun1|]. split; [exact Hrun2|].
  cbn [tasks s1]. split; [by rewrite list_insert_insert_eq|]. split; [done|].
  intros key Hkey. destruct (decide (key = "status")) as [->|Hne].
  - rewrite Hst2. unfold dict_in. rewrite Hst1. unfold dict_in. rewrite Hst.
    unfold toggled, py_eq. rewrite Hst1. unfold dict_in, toggled, py_eq.
    rewrite Hst. cbn [default]. unfold id.
    apply is_status_spec in Hok as [-> | ->]; by vm_compute.
  - rewrite Hother2, Hother1 by done. done.
Qed.

Lemma web_toggle_task_twice_witness :
  exists s1 t2 s2,
    Web.toggle_task "2024-05-03T12:00:00" 2 sample_store
    = (Ok ("Task status toggled", "info"), s1) /\
    Web.toggle_task "2024-05-03T12:01:00" 2 s1
    = (Ok ("Task status toggled", "info"), s2) /\
    tasks s2 = <[1%nat:=t2]> sample_tasks /\
    dict_get "updated_at" t2 = Some (VStr "2024-05-03T12:01:00") /\
    forall key, key <> "updated_at" -> dict_get key t2 = dict_get key sample_task2.
Proof.
  apply (web_toggle_task_twice sample_store "2024-05-03T12:00:00"
           "2024-05-03T12:01:00" 2 1%nat sample_task2 "completed").
  - reflexivity.
  - reflexivity.
  - intros [|j] t0 Hj; [|lia]. intros [= <-]. eexists.
    split; [reflexivity | discriminate].
  - reflexivity.
  - reflexivity.
Defined.

Lemma web_toggle_task_flips_witness :
  exists t' s',
    Web.toggle_task "2024-05-03T12:00:00" 2 sample_store
    = (Ok ("Task status toggled", "info"), s') /\
    tasks s' = <[1%nat:=t']> sample_tasks /\
    next_id s' = 4 /\
    dict_get "status" t'
    = match dict_get "status" sample_task2 with
      | Some v => Some (VStr (if bool_decide (v = VStr "completed")
                              then "pending" else "completed"))
      | None => None
      end /\
    dict_get "updated_at" t' = Some (VStr "2024-05-03T12:00:00") /\
    forall key, key <> "status" -> key <> "updated_at" ->
      dict_get key t' = dict_get key sample_task2.
Proof.
  apply (web_toggle_task_flips sample_store "2024-05-03T12:00:00" 2 1%nat
           sample_task2).
  - reflexivity.
  - reflexivity.
  - intros [|j] t0 Hj; [|lia]. intros [= <-]. eexists.
    split; [reflexivity | discriminate].
Defined.

Lemma form_or_value_text (x : option string) (v : string) :
  form_or_value x (Ok (VStr v)) = Ok (VStr (form_or x v)).
Proof. destruct x as [w|]; [|done]. cbn. by destruct (String.eqb w ""). Qed.

(** X22: on a task whose text fields are strings, the update form stores
    as title the submitted title, or the old title when none or an empty
    one is submitted, without surrounding white space; likewise for the
    description. So a title made of white space only, which the create form
    refuses, empties the title, and an empty description field cannot clear
    a description. *)
Theorem web_update_task_text (s : TaskManager) (now : string) (k : Z)
    (form : dict string string) (i : nat) (t : task) (ti de pr st : string) :
  tasks s !! i = Some t ->
  dict_get "id" t = Some (VInt k) ->
  (forall j t0, (j < i)%nat -> tasks s !! j = Some t0 ->
     exists v, dict_get "id" t0 = Some v /\ v <> VInt k) ->
  dict_get "title" t = Some (VStr ti) ->
  dict_get "description" t = Some (VStr de) ->
  dict_get "priority" t = Some (VStr pr) ->
  dict_get "status" t = Some (VStr st) ->
  exists t' s',
    Web.update_task now k form s = (Ok ("Task updated", "success"), s') /\
    tasks s' = <[i:=t']> (tasks s) /\
    dict_get "title" t'
    = Some (VStr (strip (form_or (dict_get "title" form) ti))) /\
    dict_get "description" t'
    = Some (VStr (strip (form_or (dict_get "description" form) de))).
Proof.
  intros Hi Hid Hfirst Hti Hde Hpr Hst.
  pose proof (find_id_first k (tasks s) i t Hi Hid Hfirst) as Hfind.
  assert (Web.update_task now k form s
          = (Ok ("Task updated", "success"),
             snd (update_task now k
                    [("title", VStr (strip (form_or (dict_get "title" form) ti)));
                     ("description",
                      VStr (strip (form_or (dict_get "description" form) de)));
                     ("priority",
                      if is_priority
                           (lower (strip (form_or (dict_get "priority" form) pr)))
                      then VStr (lower (strip (form_or (dict_get "priority" form) pr)))
                      else VStr pr);
                     ("status",
                      if is_status
                           (lower (strip (form_or (dict_get "status" form) st)))
                      then VStr (lower (strip (form_or (dict_get "status" form) st)))
                      else VStr st)] s))) as Hrun.
  { unfold Web.update_task. unfold bind at 1. rewrite get_task_run, Hfind.
    destruct t as [|kv t1]; [done|]. set (t := kv :: t1) in *.
    unfold getitem. rewrite Hti, Hde, Hpr, Hst. cbn [default]. unfold id.
    rewrite !form_or_value_text. cbn [rbind py_strip].
    unfold bind, lift. cbv beta iota.
    by rewrite (update_task_found _ _ _ _ _ _ Hfind). }
  match type of Hrun with
  | _ = (_, snd (update_task _ _ ?kw _)) =>
      destruct (update_task_found_fields s now k kw i t Hfind)
        as (t' & Hs' & _ & Hget); [|rewrite Hs' in Hrun]
  end.
  { apply (bool_decide_unpack _). by vm_compute. }
  exists t'. eexists. split; [exact Hrun|]. cbn [tasks].
  split; [done|]. split.
  - rewrite Hget by done. cbn [dict_get]. rewrite decide_True by done.
    unfold dict_in. by rewrite Hti.
  - rewrite Hget by done. cbn. unfold dict_in. by rewrite Hde.
Qed.

Lemma web_update_task_text_witness :
  exists t' s',
    Web.update_task "2024-05-03T12:00:00" 2 [("title", "   "); ("description", "")]
      sample_store = (Ok ("Task updated", "success"), s') /\
    tasks s' = <[1%nat:=t']> sample_tasks /\
    dict_get "title" t' = Some (VStr "") /\
    dict_get "description" t' = Some (VStr "cover the api endpoint").
Proof.
  apply (web_update_task_text sample_store "2024-05-03T12:00:00" 2
           [("title", "   "); ("description", "")] 1%nat sample_task2
           "Write tests" "cover the api endpoint" "high" "completed").
  - reflexivity.
  - reflexivity.
  - intros [|j] t0 Hj; [|lia]. intros [= <-]. eexists.
    split; [reflexivity | discriminate].
  - reflexivity.
  - reflexivity.
  - reflexivity.
  - reflexivity.
Defined.

(** ** Sequences of requests *)

Lemma enum_ok_insert (ts : list task) (i : nat) (t t' : task) :
  ts !! i = Some t ->
  (enum_ok t -> enum_ok t') ->
  Forall enum_ok ts -> Forall enum_ok (<[i:=t']> ts).
Proof.
  intros Hi Ht Hall. apply Forall_insert; [done|]. apply Ht.
  rewrite Forall_lookup in Hall. by apply (Hall i t).
Qed.

(** The state after a request is the state before, or the state after one
    call of the store that does not supply [id] and leaves accepted
    priorities and statuses accepted. *)
Lemma serve_effect (s : TaskManager) (r : request) :
  snd (serve r s) = s \/
  exists o,
    keeps_id o /\ snd (serve r s) = run_op s o /\
    (Forall enum_ok (tasks s) -> Forall enum_ok (tasks (run_op s o))).
Proof.
  destruct r as [now1 now2 form|now k form|now k|k]; cbn [serve].
  - unfold Web.create_task.
    destruct (String.eqb _ ""); [by left|]. right.
    set (p0 := if is_priority _ then _ else _).
    exists (Add (mkAddArgs now1 now2 (strip (form_or (dict_get "title" form) ""))
                   (strip (form_or (dict_get "description" form) "")) p0)).
    split; [done|]. cbn [run_op]. unfold add_with, bind. cbn [arg_now1 arg_now2
      arg_title arg_description arg_priority]. rewrite add_task_run.
    split; [done|]. cbn [snd tasks]. intros Hall. apply Forall_app.
    split; [done|]. repeat constructor.
    + exists p0. split; [done|]. unfold p0.
      destruct (is_priority _) eqn:E; [exact E | done].
    + by exists "pending".
  - destruct (web_update_task_run s now k form)
      as [[e ->]|[->|(i & t & nt & nd & pv & sv & Hfind & _ & _ & Hpv & Hsv & ->)]];
      [by left..|].
    right. eexists (Update now k _). split; [|split; [reflexivity|]].
    + reflexivity.
    + cbn [run_op snd]. intros Hall.
      destruct (update_task_found_fields s now k
                  [("title", VStr nt); ("description", VStr nd);
                   ("priority", pv); ("status", sv)] i t Hfind)
        as (t' & -> & _ & Hget).
      { apply (bool_decide_unpack _). by vm_compute. }
      cbn [tasks]. apply find_id_found in Hfind as [Hi _].
      apply (enum_ok_insert _ _ t); [done| |done].
      intros [(p & Hp & Hpok) (st & Hst & Hstok)].
      destruct (checked_or_kept_enum _ _ _ _ _ _ Hpv Hp Hpok) as (p' & -> & Hp').
      destruct (checked_or_kept_enum _ _ _ _ _ _ Hsv Hst Hstok)
        as (st' & -> & Hst').
      split.
      * exists p'. rewrite Hget by done. cbn. unfold dict_in. by rewrite Hp.
      * exists st'. rewrite Hget by done. cbn. unfold dict_in. by rewrite Hst.
  - destruct (web_toggle_task_run s now k)
      as [[e ->]|[->|(i & t & Hfind & ->)]]; [by left..|].
    right. eexists (Update now k _). split; [|split; [reflexivity|]].
    + reflexivity.
    + cbn [run_op snd]. intros Hall.
      destruct (update_task_found_fields s now k [("status", VStr (toggled t))]
                  i t Hfind) as (t' & -> & _ & Hget).
      { apply (bool_decide_unpack _). by vm_compute. }
      cbn [tasks]. apply find_id_found in Hfind as [Hi _].
      apply (enum_ok_insert _ _ t); [done| |done].
      intros [(p & Hp & Hpok) (st & Hst & Hstok)]. split.
      * exists p. rewrite Hget by done. cbn. by rewrite Hp.
      * exists (toggled t). rewrite Hget by done. cbn. unfold dict_in.
        rewrite Hst. split; [done|]. unfold toggled.
        by destruct (negb _).
  - right. exists (Delete k). split; [done|]. cbn [run_op]. split.
    + unfold Web.delete_task, bind.
      destruct (delete_task k s) as [[[|]|e] s']; done.
    + intros Hall. destruct (find_id k (tasks s)) as [[[i t]|]|e] eqn:Hfind.
      * rewrite (delete_task_found _ _ _ _ Hfind). by apply Forall_delete.
      * rewrite delete_task_not_found; [done | congruence].
      * rewrite delete_task_not_found; [done | congruence].
Qed.

(** X23: through the web adapter the store stays well formed. From a store
    with distinct ids below the counter and accepted priorities and
    statuses, every sequence of create, update, toggle and delete requests,
    whatever the forms hold and whether the requests succeed, leaves
    distinct ids below the counter, and every priority among high, medium
    and low and every status among pending and completed. *)
Theorem web_requests_keep_store_valid (s : TaskManager) (rs : list request) :
  counter_ok s ->
  unique_ids (tasks s) ->
  Forall enum_ok (tasks s) ->
  counter_ok (serve_all s rs) /\
  unique_ids (tasks (serve_all s rs)) /\
  Forall enum_ok (tasks (serve_all s rs)).
Proof.
  revert s. unfold serve_all.
  induction rs as [|r rs IH]; intros s Hc Hu He; [done|]. cbn [fold_left].
  destruct (serve_effect s r) as [->|(o & Ho & -> & Henum)]; [by apply IH|].
  apply IH; [by apply run_op_counter_ok| |by apply Henum].
  destruct o as [a|now k kwargs|k]; cbn [run_op].
  - by apply unique_ids_add.
  - by apply unique_ids_update.
  - by apply unique_ids_delete.
Qed.

Lemma web_requests_keep_store_valid_witness :
  let rs :=
    [PostCreate "2024-05-03T12:00:00" "2024-05-03T12:00:01"
       [("title", " Call Bob "); ("priority", "URGENT")];
     PostUpdate "2024-05-03T12:01:00" 2 [("status", "archived"); ("priority", "Low")];
     PostToggle "2024-05-03T12:02:00" 1;
     PostDelete 3] in
  counter_ok (serve_all sample_store rs) /\
  unique_ids (tasks (serve_all sample_store rs)) /\
  Forall enum_ok (tasks (serve_all sample_store rs)).
Proof.
  intros rs. apply (web_requests_keep_store_valid sample_store rs).
  - apply (init_counter_ok (JsonArray sample_tasks)). reflexivity.
  - unfold unique_ids. apply (bool_decide_unpack _). by vm_compute.
  - repeat constructor; by eexists.
Defined.

(** * The console *)

(** ** Steady computations *)

Lemma steady_refl (w : world) : steady w w.
Proof. by split. Qed.

Lemma steady_trans (w1 w2 w3 : world) : steady w1 w2 -> steady w2 w3 -> steady w1 w3.
Proof. intros [H1 H1'] [H2 H2']. split; [lia | auto]. Qed.

Lemma io_spec_ret {A} (a : A) (Q : A -> Prop) : Q a -> io_spec (io_ret a) Q.
Proof. intros Ha w. split; [apply steady_refl|]. by intros a' [= <-]. Qed.

Lemma io_spec_bind {A B} (m : IO A) (k : A -> IO B) (Q : A -> Prop)
    (Q' : B -> Prop) :
  io_spec m Q -> (forall a, Q a -> io_spec (k a) Q') -> io_spec (io_bind m k) Q'.
Proof.
  intros Hm Hk w. unfold io_bind. destruct (Hm w) as [Hs Hq].
  destruct (m w) as [[a|e] w'] eqn:Hmw; cbn [fst snd] in *.
  - destruct (Hk a (Hq a eq_refl) w') as [Hs' Hq'].
    split; [by eapply steady_trans | done].
  - split; [done | by intros a].
Qed.

Lemma io_spec_weaken {A} (m : IO A) (Q Q' : A -> Prop) :
  io_spec m Q -> (forall a, Q a -> Q' a) -> io_spec m Q'.
Proof. intros Hm HQ w. destruct (Hm w) as [Hs Hq]. split; [done | auto]. Qed.

Lemma io_spec_print (x : string) : io_spec (print x) (fun _ => True).
Proof. intros w. by split. Qed.

Lemma io_spec_input (prompt : string) : io_spec (input prompt) (fun _ => True).
Proof.
  intros w. unfold input. split; [|done].
  destruct (stdin w) as [|[l|] rest] eqn:Hin; unfold steady; cbn [snd stdin store];
    rewrite ?Hin; cbn [length]; (split; [lia | done]).
Qed.

Lemma io_spec_lift {A} (r : result A) : io_spec (io_lift r) (fun _ => True).
Proof. intros w. unfold io_lift. destruct r; by split. Qed.

Lemma io_spec_input_choice : io_spec input_choice (fun _ => True).
Proof.
  intros w. unfold input_choice. destruct (io_spec_input "Enter your choice (1-7): " w)
    as [Hs _].
  destruct (input _ w) as [[l|[e| |]] w']; by split.
Qed.

(** A method that does not change the store is steady in the console. *)
Lemma io_spec_on_store_read_only {A} (m : M A) :
  read_only m -> io_spec (on_store m) (fun _ => True).
Proof.
  intros Hm w. unfold on_store. specialize (Hm (store w)).
  destruct (m (store w)) as [[a|e] s']; cbn [snd] in *; subst s'; by split.
Qed.

Lemma io_spec_ret_any {A} (a : A) : io_spec (io_ret a) (fun _ => True).
Proof. by apply io_spec_ret. Qed.

Create HintDb io_spec.
#[local] Hint Resolve io_spec_print io_spec_input io_spec_lift
  io_spec_input_choice io_spec_ret_any : io_spec.
#[local] Hint Extern 1 (io_spec (io_ret _) _) => by apply io_spec_ret : io_spec.

(** One step through a console computation: a bind whose first part is
    known to be steady, a test, a case analysis, or a return. *)
Ltac io_step :=
  lazymatch goal with
  | |- io_spec (io_bind (if ?b then _ else _) _) _ => destruct b eqn:?
  | |- io_spec (io_bind (match ?x with _ => _ end) _) _ => destruct x eqn:?
  | |- io_spec (io_bind (io_bind _ _) _) _ =>
      eapply (io_spec_bind _ _ (fun _ => True)); [|intros ? ?]
  | |- io_spec (io_bind _ _) _ =>
      eapply io_spec_bind; [solve [eauto with io_spec] | intros ? ?]
  | |- io_spec (if ?b then _ else _) _ => destruct b eqn:?
  | |- io_spec (match ?x with _ => _ end) _ => destruct x eqn:?
  | |- io_spec (let _ := _ in _) _ => cbv zeta
  | |- io_spec _ _ => solve [eauto with io_spec]
  end.

Lemma io_spec_display_menu : io_spec display_menu (fun _ => True).
Proof. unfold display_menu. repeat io_step. Qed.

Lemma io_spec_display_task (t : task) : io_spec (display_task t) (fun _ => True).
Proof. unfold display_task. repeat io_step. Qed.

#[local] Hint Resolve io_spec_display_menu io_spec_display_task : io_spec.

Lemma io_spec_display_each (ts : list task) : io_spec (display_each ts) (fun _ => True).
Proof. induction ts as [|t ts IH]; cbn [display_each]; repeat io_step. Qed.

#[local] Hint Resolve io_spec_display_each : io_spec.

Lemma io_spec_display_tasks (ts : list task) (title : string) :
  io_spec (display_tasks ts title) (fun _ => True).
Proof. unfold display_tasks. repeat io_step. Qed.

Lemma io_spec_print_counts (d : dict value Z) : io_spec (print_counts d) (fun _ => True).
Proof.
  induction d as [|[p c] d IH]; cbn [print_counts]; repeat io_step.
Qed.

#[local] Hint Resolve io_spec_display_tasks io_spec_print_counts : io_spec.

Lemma io_spec_get_task_input : io_spec get_task_input input_ok.
Proof.
  unfold get_task_input. repeat io_step.
  apply io_spec_ret. cbn. split.
  - match goal with
    | H : String.eqb _ _ = false |- _ => by apply String.eqb_neq in H
    end.
  - match goal with
    | |- is_priority (if is_priority ?x then _ else _) = true =>
        destruct (is_priority x) eqn:E; [exact E | reflexivity]
    end.
Qed.

(** ** The store through the console *)

Lemma add_task_store_valid (s : TaskManager) (now1 now2 title description priority : string) :
  is_priority priority = true ->
  store_valid s ->
  store_valid (snd (add_task now1 now2 title description priority s)).
Proof.
  intros Hp (Hc & Hu & He).
  pose (a := mkAddArgs now1 now2 title description priority).
  change (add_task now1 now2 title description priority) with (add_with a).
  split; [by apply counter_ok_add|]. split; [by apply unique_ids_add|].
  unfold add_with. rewrite add_task_run. cbn [snd tasks].
  apply Forall_app. split; [done|]. repeat constructor.
  - by exists priority.
  - by exists "pending".
Qed.

Lemma delete_task_store_valid (s : TaskManager) (k : Z) :
  store_valid s -> store_valid (snd (delete_task k s)).
Proof.
  intros (Hc & Hu & He).
  split; [by apply counter_ok_delete|]. split; [by apply unique_ids_delete|].
  destruct (find_id k (tasks s)) as [[[i t]|]|e] eqn:Hfind.
  - rewrite (delete_task_found _ _ _ _ Hfind). by apply Forall_delete.
  - rewrite delete_task_not_found; [done | congruence].
  - rewrite delete_task_not_found; [done | congruence].
Qed.

(** An update that supplies distinct keys, not [id], and only accepted
    values for [priority] and [status] keeps the store well formed. *)
Lemma update_task_store_valid (s : TaskManager) (now : string) (k : Z)
    (kwargs : dict string value) :
  NoDup (fst <$> kwargs) ->
  dict_in "id" kwargs = false ->
  (forall v, dict_get "priority" kwargs = Some v ->
     exists p, v = VStr p /\ is_priority p = true) ->
  (forall v, dict_get "status" kwargs = Some v ->
     exists x, v = VStr x /\ is_status x = true) ->
  store_valid s ->
  store_valid (snd (update_task now k kwargs s)).
Proof.
  intros Hnd Hid Hpr Hst (Hc & Hu & He).
  split; [by apply counter_ok_update|]. split; [by apply unique_ids_update|].
  destruct (find_id k (tasks s)) as [[[i t]|]|e] eqn:Hfind.
  - destruct (update_task_found_fields s now k kwargs i t Hfind Hnd)
      as (t' & -> & _ & Hget).
    cbn [tasks]. apply find_id_found in Hfind as [Hi _].
    apply (enum_ok_insert _ _ t); [done| |done].
    intros [(p & Hp & Hpok) (x & Hx & Hxok)]. split.
    + rewrite Hget by done. unfold dict_in. rewrite Hp.
      destruct (dict_get "priority" kwargs) as [v|] eqn:Hv; [|by exists p].
      destruct (Hpr v eq_refl) as (p' & -> & Hp'). by exists p'.
    + rewrite Hget by done. unfold dict_in. rewrite Hx.
      destruct (dict_get "status" kwargs) as [v|] eqn:Hv; [|by exists x].
      destruct (Hst v eq_refl) as (x' & -> & Hx'). by exists x'.
  - rewrite update_task_not_found; [done | congruence].
  - rewrite update_task_not_found; [done | congruence].
Qed.

Lemma io_spec_on_store_delete (k : Z) :
  io_spec (on_store (delete_task k)) (fun _ => True).
Proof.
  intros w. unfold on_store.
  pose proof (delete_task_store_valid (store w) k) as Hv.
  destruct (delete_task k (store w)) as [[a|e] s']; by split.
Qed.

Section MainFacts.
Variable py_int : string -> option Z.
Variable clock : nat -> string.

Lemma io_spec_add_task (title description priority : string) :
  is_priority priority = true ->
  io_spec (io_add_task clock title description priority) (fun _ => True).
Proof.
  intros Hp w. unfold io_add_task.
  pose proof (add_task_store_valid (store w) (clock (ticks w)) (clock (S (ticks w)))
                title description priority Hp) as Hv.
  destruct (add_task _ _ _ _ _ (store w)) as [[a|e] s']; by split.
Qed.

Lemma io_spec_update_task (k : Z) (kwargs : dict string value) :
  NoDup (fst <$> kwargs) ->
  dict_in "id" kwargs = false ->
  (forall v, dict_get "priority" kwargs = Some v ->
     exists p, v = VStr p /\ is_priority p = true) ->
  (forall v, dict_get "status" kwargs = Some v ->
     exists x, v = VStr x /\ is_status x = true) ->
  io_spec (io_update_task clock k kwargs) (fun _ => True).
Proof.
  intros Hnd Hid Hpr Hst w. unfold io_update_task.
  pose proof (update_task_store_valid (store w) (clock (ticks w)) k kwargs
                Hnd Hid Hpr Hst) as Hv.
  destruct (update_task _ _ _ (store w)) as [[[t|]|e] s']; by split.
Qed.

(** The single-field updates that [main] makes. *)
Lemma io_spec_update_field (k : Z) (key : string) (x : string) :
  key = "title" \/ key = "description" \/
  (key = "status" /\ is_status x = true) \/
  (key = "priority" /\ is_priority x = true) ->
  io_spec (io_update_task clock k [(key, VStr x)]) (fun _ => True).
Proof.
  intros Hkey. apply io_spec_update_task.
  - cbn. apply NoDup_singleton.
  - destruct Hkey as [->|[->|[[-> _]|[-> _]]]]; reflexivity.
  - intros v. destruct Hkey as [->|[->|[[-> _]|[-> Hp]]]]; cbn; try done.
    intros [= <-]. by exists x.
  - intros v. destruct Hkey as [->|[->|[[-> Hs]|[-> _]]]]; cbn; try done.
    intros [= <-]. by exists x.
Qed.

Lemma io_spec_choice_add : io_spec (choice_add clock) (fun _ => True).
Proof.
  unfold choice_add.
  eapply io_spec_bind; [apply io_spec_get_task_input|]. intros [d|] Hd.
  - destruct Hd as [_ Hp].
    eapply io_spec_bind; [by apply io_spec_add_task|]. intros t _.
    repeat io_step.
  - by apply io_spec_ret.
Qed.

#[local] Hint Resolve io_spec_on_store_read_only read_only_get_task
  read_only_list_tasks read_only_search_tasks read_only_get_stats
  io_spec_on_store_delete : io_spec.

Lemma io_spec_choice_list : io_spec choice_list (fun _ => True).
Proof. unfold choice_list. repeat io_step. Qed.

Lemma io_spec_choice_search : io_spec choice_search (fun _ => True).
Proof. unfold choice_search. repeat io_step. Qed.

Lemma io_spec_choice_stats : io_spec choice_stats (fun _ => True).
Proof. unfold choice_stats. repeat io_step. Qed.

Lemma io_spec_choice_delete : io_spec (choice_delete py_int) (fun _ => True).
Proof. unfold choice_delete. repeat io_step. Qed.

Lemma io_spec_choice_update : io_spec (choice_update py_int clock) (fun _ => True).
Proof.
  unfold choice_update. repeat io_step;
    try (eapply io_spec_bind;
         [apply io_spec_update_field; tauto | intros ? ?; repeat io_step]).
Qed.

Lemma io_spec_choice_round (choice : string) :
  io_spec (choice_round py_int clock choice) (fun _ => True).
Proof.
  unfold choice_round.
  repeat io_step; auto using io_spec_choice_add, io_spec_choice_list,
    io_spec_choice_update, io_spec_choice_delete, io_spec_choice_search,
    io_spec_choice_stats.
Qed.

End MainFacts.

(** ** The menu loop *)

Section MainLoop.
Variable py_int : string -> option Z.
Variable clock : nat -> string.

Lemma input_choice_consumes (w w' : world) (c : string) :
  input_choice w = (Done (Some c), w') ->
  (length (stdin w') < length (stdin w))%nat.
Proof.
  unfold input_choice, input.
  destruct (stdin w) as [|[l|] rest]; intros [= _ <-]; cbn. lia.
Qed.

Lemma io_spec_main_loop (rounds : nat) :
  io_spec (main_loop py_int clock rounds) (fun _ => True).
Proof.
  induction rounds as [|rounds IH]; cbn [main_loop]; [by apply io_spec_ret|].
  eapply io_spec_bind; [apply io_spec_display_menu|]. intros _ _.
  eapply io_spec_bind; [apply io_spec_input_choice|]. intros [choice|] _.
  - eapply io_spec_bind; [apply io_spec_choice_round|]. intros [| |] _.
    + by apply io_spec_ret.
    + exact IH.
    + eapply io_spec_bind; [apply io_spec_input | by intros].
  - eapply io_spec_bind; [apply io_spec_print|]. intros. by apply io_spec_ret.
Qed.

(** Every round reads a line or leaves the loop: more rounds than there
    are lines are never used up. *)
Lemma main_loop_ends (rounds : nat) (w : world) :
  (length (stdin w) < rounds)%nat ->
  fst (main_loop py_int clock rounds w) <> Done false.
Proof.
  revert w. induction rounds as [|rounds IH]; intros w Hlt; [lia|].
  cbn [main_loop]. unfold io_bind at 1.
  destruct (io_spec_display_menu w) as [[Hm _] _].
  destruct (display_menu w) as [[[]|e] w1]; cbn [snd] in Hm; [|done].
  unfold io_bind at 1.
  destruct (input_choice w1) as [[[choice|]|e] w2] eqn:Hchoice; [| |done].
  - apply input_choice_consumes in Hchoice. unfold io_bind at 1.
    destruct (io_spec_choice_round py_int clock choice w2) as [[Hr _] _].
    destruct (choice_round py_int clock choice w2) as [[[| |]|e] w3];
      cbn [snd] in Hr; [done| | |done].
    + apply IH. lia.
    + unfold io_bind.
      destruct (io_spec_input (nl +:+ "Press Enter to continue...") w3) as [[Hp _] _].
      destruct (input _ w3) as [[l|e] w4]; cbn [snd] in Hp; [|done].
      apply IH. lia.
  - by cbn.
Qed.

(** X25: on every file and every keyboard input the program stops: the
    store cannot be constructed, or the menu loop is left (choice 7, or
    Ctrl-C at the menu) or an exception ends it, within one round more than
    there are lines of input; no input is ever put back. *)
Theorem main_stops (d : document) (keys : list event) :
  match main py_int clock d keys with
  | NotStarted e out => init d = Raise e
  | Ran r w =>
      (r = Done true \/ exists e, r = Fail e) /\
      (length (stdin w) <= length keys)%nat
  end.
Proof.
  unfold main. destruct (init d) as [s|e]; [|done].
  set (w0 := mkWorld s keys _ 0).
  pose proof (main_loop_ends (S (length keys)) w0 ltac:(cbn; lia)) as Hend.
  destruct (io_spec_main_loop (S (length keys)) w0) as [[Hin _] _].
  destruct (main_loop py_int clock (S (length keys)) w0) as [r w].
  cbn [fst snd] in *. split; [|done].
  destruct r as [[|]|e]; [by left | done | right; by exists e].
Qed.

(** X26: the console keeps the store well formed. When the file holds tasks
    with distinct ids, priorities among high, medium and low and statuses
    among pending and completed, then whatever is typed the store at the
    end of the session, also one ended by an exception, has distinct ids
    below its counter and accepted priorities and statuses. *)
Theorem main_keeps_store_valid (d : document) (s : TaskManager)
    (keys : list event) :
  init d = Ok s ->
  unique_ids (tasks s) ->
  Forall enum_ok (tasks s) ->
  exists r w,
    main py_int clock d keys = Ran r w /\
    store_valid (store w).
Proof.
  intros Hinit Hu He. unfold main. rewrite Hinit.
  set (w0 := mkWorld s keys _ 0).
  destruct (io_spec_main_loop (S (length keys)) w0) as [[_ Hv] _].
  destruct (main_loop py_int clock (S (length keys)) w0) as [r w].
  exists r, w. split; [done|]. apply Hv. cbn.
  split; [by apply (init_counter_ok d) | done].
Qed.

End MainLoop.

Lemma main_keeps_store_valid_witness :
  let py_int := fun l : string => if String.eqb l "2" then Some 2 else None in
  let clock := fun n : nat => "2024-05-03T12:00:0" +:+ pretty n in
  let keys :=
    [Line "1"; Line " Call Bob "; Line ""; Line "URGENT"; Line "";
     Line "3"; Line "2"; Line "3"; Line " Pending"; Line "";
     Line "4"; Line "two"; Line ""; Line "7"] in
  exists r w,
    main py_int clock (JsonArray sample_tasks) keys = Ran r w /\
    store_valid (store w).
Proof.
  intros py_int clock keys.
  apply (main_keeps_store_valid py_int clock (JsonArray sample_tasks) sample_store).
  - reflexivity.
  - unfold unique_ids. apply (bool_decide_unpack _). by vm_compute.
  - repeat constructor; by eexists.
Defined.

(** ** get_task_input and display_tasks *)

(** X24: [get_task_input] reads one line and returns [None] when the title
    is blank; otherwise it reads three lines and returns the title and the
    description without surrounding white space and a priority among high,
    medium and low, the typed one in lower case when it is one of them and
    medium otherwise. It fails only when the input ends or Ctrl-C is
    pressed, and never touches the store. *)
Theorem get_task_input_outcome (w : world) :
  let (r, w') := get_task_input w in
  store w' = store w /\
  match r with
  | Done (Some d) =>
      exists l1 l2 l3 rest,
        stdin w = Line l1 :: Line l2 :: Line l3 :: rest /\
        stdin w' = rest /\
        data_title d = strip l1 /\ strip l1 <> "" /\
        data_description d = strip l2 /\
        data_priority d
        = (if is_priority (lower (strip l3)) then lower (strip l3) else "medium") /\
        is_priority (data_priority d) = true
  | Done None =>
      exists l1 rest,
        stdin w = Line l1 :: rest /\ strip l1 = "" /\ stdin w' = rest
  | Fail e => e = EOFError \/ e = KeyboardInterrupt
  end.
Proof.
  unfold get_task_input. unfold io_bind at 1. unfold input at 1.
  destruct (stdin w) as [|[l1|] r1] eqn:Hin.
  1: by auto. 2: by auto.
  destruct (String.eqb_spec (strip l1) "") as [Hblank|Hne].
  { cbn. split; [done|]. by exists l1, r1. }
  unfold io_bind at 1. unfold input at 1. cbn [stdin store stdout ticks].
  destruct r1 as [|[l2|] r2].
  1: by auto. 2: by auto.
  unfold io_bind at 1. unfold print at 1. cbn [stdin store stdout ticks].
  unfold io_bind at 1. unfold input at 1. cbn [stdin store stdout ticks].
  destruct r2 as [|[l3|] r3].
  1: by auto. 2: by auto.
  cbn. split; [done|]. exists l1, l2, l3, r3.
  repeat (split; [done|]).
  by destruct (is_priority (lower (strip l3))) eqn:E.
Qed.

(** A line that is a no-break space is a blank title: one line is read. *)
Example get_task_input_no_break_space :
  let w := mkWorld sample_store [Line (encode [0xA0%N]); Line "x"] [] 0 in
  fst (get_task_input w) = Done None /\
  stdin (snd (get_task_input w)) = [Line "x"].
Proof. by vm_compute. Qed.

Lemma written_nil (w : world) : written w [] = w.
Proof. destruct w. unfold written. cbn. by rewrite app_nil_r. Qed.

Lemma written_app (w : world) (out1 out2 : list string) :
  written (written w out1) out2 = written w (out1 ++ out2).
Proof. unfold written. cbn. by rewrite app_assoc. Qed.

Lemma print_written (x : string) (w : world) :
  print x w = (Done tt, written w [x +:+ nl]).
Proof. reflexivity. Qed.

Lemma display_task_writes (t : task) (w : world) :
  shown_ok t ->
  exists out, display_task t w = (Done tt, written w out) /\
              (4 <= length out <= 5)%nat.
Proof.
  intros ([id Hid] & [ti Hti] & [de Hde] & [st Hst] & [pr Hpr] & [c Hc]).
  unfold display_task, io_bind, io_lift, getitem.
  rewrite Hst, Hpr, Hid, Hti, Hde, Hc. cbn [py_title py_slice19].
  rewrite !print_written. destruct (py_truthy de).
  - rewrite !print_written, !written_app. eexists. split; [done|]. cbn. lia.
  - cbn [io_ret]. rewrite !print_written, !written_app. eexists.
    split; [done|]. cbn. lia.
Qed.

Lemma display_each_writes (ts : list task) (w : world) :
  Forall shown_ok ts ->
  exists out, display_each ts w = (Done tt, written w out) /\
              (4 * length ts <= length out <= 5 * length ts)%nat.
Proof.
  intros Hts. revert w. induction Hts as [|t ts Ht _ IH]; intros w.
  - exists []. cbn. by rewrite written_nil.
  - cbn [display_each]. unfold io_bind.
    destruct (display_task_writes t w Ht) as (out1 & -> & Hlen1).
    destruct (IH (written w out1)) as (out2 & -> & Hlen2).
    exists (out1 ++ out2). rewrite written_app, length_app. cbn [length].
    split; [done | lia].
Qed.

(** X27: on tasks that have an id, a title and a description and whose
    status, priority and [created_at] are strings, [display_tasks] raises
    nothing, reads nothing and leaves the store: it only writes, the
    heading and the rule and then four or five lines for each task, and for
    an empty list the line [No tasks found.]. *)
Theorem display_tasks_writes (ts : list task) (title : string) (w : world) :
  Forall shown_ok ts ->
  exists out,
    display_tasks ts title w
    = (Done tt,
       written w ([(nl +:+ title +:+ ":") +:+ nl; repeat_str "-" 60 +:+ nl] ++ out)) /\
    (ts = [] -> out = ["No tasks found." +:+ nl]) /\
    (ts <> [] -> (4 * length ts <= length out <= 5 * length ts)%nat).
Proof.
  intros Hts. unfold display_tasks, io_bind. rewrite !print_written.
  destruct ts as [|t ts].
  - exists ["No tasks found." +:+ nl]. rewrite print_written, !written_app.
    by split.
  - destruct (display_each_writes (t :: ts)
                (written (written w [(nl +:+ title +:+ ":") +:+ nl])
                   [repeat_str "-" 60 +:+ nl]) Hts) as (out & -> & Hlen).
    exists out. rewrite !written_app. split; [done|]. by split.
Qed.

Lemma display_tasks_writes_witness :
  let w := mkWorld sample_store [Line "7"] [] 0 in
  exists out,
    display_tasks sample_tasks "All Tasks" w
    = (Done tt,
       written w ([(nl +:+ "All Tasks" +:+ ":") +:+ nl; repeat_str "-" 60 +:+ nl]
                    ++ out)) /\
    (sample_tasks = [] -> out = ["No tasks found." +:+ nl]) /\
    (sample_tasks <> [] ->
     (4 * length sample_tasks <= length out <= 5 * length sample_tasks)%nat).
Proof.
  intros w. apply (display_tasks_writes sample_tasks "All Tasks" w).
  repeat constructor; by eexists.
Defined.
